(** * Shade and evapotranspiration metrics

    A Rocq model of [AgriculturalSunAndWaterMetrics1.0.py]: the solar
    geometry (refraction, shadow projection, shade coverage), the
    sunrise/sunset calendar lookup, the daily and yearly shade iteration,
    the evapotranspiration (ET) adjustment, the sums between dates, the
    prompts for the parameters and the computation of [main].

    Conventions of the embedding.
    - Python floats are idealised as real numbers ([R]); Python ints that
      index time (years, hours, the UTC offset) are [Z].
    - A Python expression that can raise returns a [Py.result]; [x / y]
      raises [ZeroDivisionError] exactly when [y] is zero.  Divisions by a
      non-zero literal ([/ 2], [/ 3600]) are written with the total
      division of [R].
    - The collaborators outside the file (the skyfield ephemeris and
      almanac, timezonefinder, pytz, the OpenET web service) are section
      variables.  Progress bars and [print] calls have no effect on the
      results and are left out.
    - The standard input is a list of lines; [int] and [float] on a line
      and [strptime] are section variables too.  [plot_values] only draws
      and is not modelled. *)

From Stdlib Require Import Reals Lra Lia ZArith Bool String Ascii List.
Import ListNotations.

(** ** The Python runtime: exceptions and arithmetic *)

Module Py.

Inductive exn : Set :=
| ZeroDivisionError
| ValueError
| TypeError
| KeyError
| OverflowError.

Inductive result (A : Type) : Type :=
| Ok (a : A)
| Raise (e : exn).

Arguments Ok {A} a.
Arguments Raise {A} e.

Definition bind {A B : Type} (c : result A) (k : A -> result B) : result B :=
  match c with
  | Ok a => k a
  | Raise e => Raise e
  end.

Definition is_ok {A : Type} (c : result A) : Prop :=
  exists a, c = Ok a.

(** [x / y] on floats. *)
Definition div (x y : R) : result R :=
  if Req_dec_T y 0 then Raise ZeroDivisionError else Ok (x / y)%R.

(** [max(a, b)] and [min(a, b)]: the first argument wins a tie. *)
Definition max (a b : R) : R := if Rlt_dec a b then b else a.
Definition min (a b : R) : R := if Rlt_dec b a then b else a.

(** [math.radians]. *)
Definition radians (x : R) : R := (x * (PI / 180))%R.

(** [sum(xs)]: a left fold from 0. *)
Definition sum (xs : list R) : R := fold_left Rplus xs 0%R.

(** [min(xs, key=key)]: the first element whose key is minimal;
    [ValueError] on an empty sequence. *)
Fixpoint min_key_from {A : Type} (key : A -> Z) (best : A) (xs : list A) : A :=
  match xs with
  | [] => best
  | x :: xs' =>
      if (key x <? key best)%Z then min_key_from key x xs'
      else min_key_from key best xs'
  end.

Definition min_key {A : Type} (key : A -> Z) (xs : list A) : result A :=
  match xs with
  | [] => Raise ValueError
  | x :: xs' => Ok (min_key_from key x xs')
  end.

End Py.

Notation "x <- c ;; k" := (Py.bind c (fun x => k))
  (at level 61, c at next level, right associativity).
Notation "' p <- c ;; k" := (Py.bind c (fun x => let p := x in k))
  (at level 61, p pattern, c at next level, right associativity).

(** ** The Python runtime: [datetime] *)

Module Datetime.

Local Open Scope Z_scope.

Record t : Set := mk {
  year : Z; month : Z; day : Z;
  hour : Z; minute : Z; second : Z; microsecond : Z
}.

Definition is_leap (y : Z) : bool :=
  (y mod 4 =? 0) && (negb (y mod 100 =? 0) || (y mod 400 =? 0)).

Definition DAYS_IN_MONTH (m : Z) : Z :=
  match m with
  | 1 => 31 | 2 => 28 | 3 => 31 | 4 => 30 | 5 => 31 | 6 => 30
  | 7 => 31 | 8 => 31 | 9 => 30 | 10 => 31 | 11 => 30 | 12 => 31
  | _ => 0
  end.

Definition DAYS_BEFORE_MONTH (m : Z) : Z :=
  match m with
  | 1 => 0 | 2 => 31 | 3 => 59 | 4 => 90 | 5 => 120 | 6 => 151
  | 7 => 181 | 8 => 212 | 9 => 243 | 10 => 273 | 11 => 304 | 12 => 334
  | _ => 0
  end.

Definition days_in_month (y m : Z) : Z :=
  if (m =? 2) && is_leap y then 29 else DAYS_IN_MONTH m.

Definition days_before_year (y : Z) : Z :=
  let y' := y - 1 in y' * 365 + y' / 4 - y' / 100 + y' / 400.

Definition days_before_month (y m : Z) : Z :=
  DAYS_BEFORE_MONTH m + (if (2 <? m) && is_leap y then 1 else 0).

(** Proleptic Gregorian ordinal: 0001-01-01 is day 1. *)
Definition ymd2ord (y m d : Z) : Z :=
  days_before_year y + days_before_month y m + d.

Definition DI400Y : Z := 146097.
Definition DI100Y : Z := 36524.
Definition DI4Y : Z := 1461.
Definition MAXORDINAL : Z := 3652059.

(** Month and day of the (0-based) day [n] of a year. *)
Definition month_day (n : Z) (leapyear : bool) : Z * Z :=
  let month := Z.shiftr (n + 50) 5 in
  let preceding :=
    DAYS_BEFORE_MONTH month + (if (2 <? month) && leapyear then 1 else 0) in
  if n <? preceding then
    let month := month - 1 in
    let preceding :=
      preceding
      - (DAYS_IN_MONTH month + (if (month =? 2) && leapyear then 1 else 0)) in
    (month, n - preceding + 1)
  else (month, n - preceding + 1).

(** The inverse of [ymd2ord], by the 400/100/4/1-year cycles. *)
Definition ord2ymd (n : Z) : Z * Z * Z :=
  let n := n - 1 in
  let n400 := n / DI400Y in
  let n := n mod DI400Y in
  let year := n400 * 400 + 1 in
  let n100 := n / DI100Y in
  let n := n mod DI100Y in
  let n4 := n / DI4Y in
  let n := n mod DI4Y in
  let n1 := n / 365 in
  let n := n mod 365 in
  let year := year + n100 * 100 + n4 * 4 + n1 in
  if (n1 =? 4) || (n100 =? 4) then (year - 1, 12, 31)
  else
    let leapyear := (n1 =? 3) && (negb (n4 =? 24) || (n100 =? 3)) in
    let '(month, day) := month_day n leapyear in
    (year, month, day).

Definition US_PER_SECOND : Z := 1000000.
Definition US_PER_MINUTE : Z := 60000000.
Definition US_PER_HOUR : Z := 3600000000.
Definition US_PER_DAY : Z := 86400000000.

(** The fields a [datetime] accepts; the constructor raises [ValueError]
    on anything else. *)
Definition valid (d : t) : bool :=
  (1 <=? year d) && (year d <=? 9999)
  && (1 <=? month d) && (month d <=? 12)
  && (1 <=? day d) && (day d <=? days_in_month (year d) (month d))
  && (0 <=? hour d) && (hour d <=? 23)
  && (0 <=? minute d) && (minute d <=? 59)
  && (0 <=? second d) && (second d <=? 59)
  && (0 <=? microsecond d) && (microsecond d <=? 999999).

(** [datetime(year, month, day, hour, minute, second)]. *)
Definition make (y m d h mi s : Z) : Py.result t :=
  let dt := mk y m d h mi s 0 in
  if valid dt then Py.Ok dt else Py.Raise Py.ValueError.

Definition toordinal (d : t) : Z := ymd2ord (year d) (month d) (day d).

(** Microseconds of the wall clock since the start of day 0. *)
Definition to_us (d : t) : Z :=
  toordinal d * US_PER_DAY + hour d * US_PER_HOUR + minute d * US_PER_MINUTE
  + second d * US_PER_SECOND + microsecond d.

Definition of_us (u : Z) : t :=
  let '(y, m, d) := ord2ymd (u / US_PER_DAY) in
  let r := u mod US_PER_DAY in
  mk y m d (r / US_PER_HOUR) (r mod US_PER_HOUR / US_PER_MINUTE)
     (r mod US_PER_MINUTE / US_PER_SECOND) (r mod US_PER_SECOND).

(** [d + timedelta(microseconds=delta)]: [OverflowError] when the day
    leaves 0001-01-01 .. 9999-12-31. *)
Definition add (d : t) (delta : Z) : Py.result t :=
  let u := to_us d + delta in
  if (0 <? u / US_PER_DAY) && (u / US_PER_DAY <=? MAXORDINAL)
  then Py.Ok (of_us u) else Py.Raise Py.OverflowError.

(** [d.replace(second=0, microsecond=0)]. *)
Definition replace_second_microsecond_0 (d : t) : t :=
  mk (year d) (month d) (day d) (hour d) (minute d) 0 0.

(** A timezone-aware datetime: the wall clock and the UTC offset of its
    tzinfo, in microseconds. *)
Record aware : Set := mk_aware { naive : t; utcoffset : Z }.

Definition utc_us (a : aware) : Z := to_us (naive a) - utcoffset a.

(** Arithmetic on an aware datetime acts on the wall clock and keeps the
    tzinfo. *)
Definition aware_add (a : aware) (delta : Z) : Py.result aware :=
  n <- add (naive a) delta ;; Py.Ok (mk_aware n (utcoffset a)).

Definition aware_replace_second_microsecond_0 (a : aware) : aware :=
  mk_aware (replace_second_microsecond_0 (naive a)) (utcoffset a).

(** [a <= b] and [a - b] (a timedelta, in microseconds) on aware
    datetimes compare the instants. *)
Definition aware_le (a b : aware) : bool := utc_us a <=? utc_us b.
Definition aware_sub (a b : aware) : Z := utc_us a - utc_us b.

(** [a < b] on naive datetimes, and [(a - b).days]. *)
Definition lt (a b : t) : bool := to_us a <? to_us b.
Definition sub_days (a b : t) : Z := (to_us a - to_us b) / US_PER_DAY.

(** [strftime('%Y-%m-%d')], the year on four digits. *)
Definition digit (n : Z) : ascii := ascii_of_nat (48 + Z.to_nat (n mod 10)).

Definition two_digits (n : Z) : string :=
  String (digit (n / 10)) (String (digit n) EmptyString).

Definition four_digits (n : Z) : string :=
  String (digit (n / 1000)) (String (digit (n / 100)) (two_digits n)).

Definition strftime_Y_m_d (d : t) : string :=
  (four_digits (year d) ++ "-" ++ two_digits (month d) ++ "-"
   ++ two_digits (day d))%string.

End Datetime.

Import Py (Ok, Raise).

(** ** Solar calculation functions *)

Section Geometry.

Local Open Scope R_scope.

(** [atmospheric_refraction]: the refraction in arcseconds, by four
    branches of the elevation in degrees. *)
Definition atmospheric_refraction (solar_elevation_angle_deg : R) : Py.result R :=
  if Rlt_dec 85 solar_elevation_angle_deg then Ok 0
  else if Rlt_dec 5 solar_elevation_angle_deg then
    a <- Py.div 58.1 (tan (Py.radians solar_elevation_angle_deg)) ;;
    b <- Py.div 0.07 (tan (Py.radians solar_elevation_angle_deg) ^ 3) ;;
    c <- Py.div 0.000086 (tan (Py.radians solar_elevation_angle_deg) ^ 5) ;;
    Ok (a - b + c)
  else if Rlt_dec (-0.575) solar_elevation_angle_deg then
    Ok (1735 + solar_elevation_angle_deg
               * (-518.2 + solar_elevation_angle_deg
                  * (103.4 + solar_elevation_angle_deg
                     * (-12.79 + solar_elevation_angle_deg * 0.711))))
  else
    Py.div (-20.772) (tan (Py.radians solar_elevation_angle_deg)).

(** The floor of the corrected elevation. *)
Definition elevation_floor : R := 0.0000000001.

(** [solar_position_adj]: the elevation corrected for refraction. *)
Definition solar_position_adj (solar_elevation_angle_deg : R) : Py.result R :=
  refraction <- atmospheric_refraction solar_elevation_angle_deg ;;
  let atmos_refraction_deg := refraction / 3600 in
  Ok (Py.max elevation_floor (solar_elevation_angle_deg + atmos_refraction_deg)).

(** ** Shade calculation functions *)

(** [shadow_dimensions]: the area of the rectangular shadow footprint. *)
Definition shadow_dimensions
    (height width tilt elevation_angle_deg solar_azimuth azimuth_blume : R)
    : Py.result R :=
  let height_bottom := width - (height / 2 * cos (Py.radians tilt)) in
  let height_top := width + (height / 2 * cos (Py.radians tilt)) in
  top <- Py.div height_top (tan (Py.radians elevation_angle_deg)) ;;
  bottom <- Py.div height_bottom (tan (Py.radians elevation_angle_deg)) ;;
  let length_shadow := top - bottom + height * cos (Py.radians tilt) in
  let width_shadow := width * cos (Py.radians (azimuth_blume - solar_azimuth)) in
  Ok (length_shadow * width_shadow).

(** The azimuth measured from south, and the azimuth of the structure:
    the azimuth from south clamped to the rotation limit (the locals
    [azimuth_S] and [azimuth_blume] of [shade_coverage]). *)
Definition azimuth_S (azimuth : R) : R := 180 - azimuth.

Definition azimuth_blume (az_S max_rotation : R) : R :=
  Py.min (Py.max az_S (- max_rotation)) max_rotation.

End Geometry.

(** The timestamp [shade_coverage] hands to the ephemeris (its locals
    [utc_hour] and [dt_utc]). *)
Definition utc_hour (local_hour timezone : Z) : Z :=
  ((local_hour - timezone) mod 24)%Z.

Definition dt_utc (local_year local_month local_day local_hour local_minute
                   timezone : Z) : Py.result Datetime.t :=
  Datetime.make local_year local_month local_day
                (utc_hour local_hour timezone) local_minute 0.

(** ** Records of the two daily series *)

(** An entry of the ET series, a JSON object: ['time'] and, when the
    service supplied it, ['et']. *)
Record et_record : Type := mk_et { et_time : string; et : option R }.

(** An entry of the shade series: ['time'] and ['shade']. *)
Record shade_record : Type := mk_shade { shade_time : string; shade : R }.

Definition sunrise_sunset_pair : Set := (Datetime.aware * Datetime.aware)%type.

Section Program.

(** *** External collaborators *)

(** skyfield: the elevation and azimuth of the sun, in degrees, at a
    place and a UTC timestamp. *)
Variable solar_angles_skyfield : R -> R -> Datetime.t -> R * R.

(** timezonefinder: the IANA zone name of a place. *)
Variable get_timezone_str : R -> R -> string.

(** pytz: the UTC offset, in microseconds, that [localize] gives a wall
    clock in a zone. *)
Variable pytz_utcoffset : string -> Datetime.t -> Z.

(** skyfield's almanac: the sunrise and sunset crossings found in the day
    that starts at 04:00 UTC of a date, each already converted to the zone
    (the [times] of [sunrise_sunset_times] after [astimezone]). *)
Variable find_discrete_sunrise_sunset :
  string -> R -> R -> Datetime.t -> list Datetime.aware.

(** The OpenET request of [get_et_data]: the parsed JSON list on status
    200, [None] otherwise.  The credential of the source is a parameter. *)
Variable get_et_data : R -> R -> string -> list string -> option (list et_record).
Variable api_key : string.

(** [shade_coverage]: the fraction of the ground cell in shade at a local
    time. *)
Definition shade_coverage
    (lat lon : R) (local_year : Z) (ground_area height width tilt : R)
    (local_hour : Z) (max_rotation : R)
    (timezone local_month local_day local_minute : Z) : Py.result R :=
  dt <- dt_utc local_year local_month local_day local_hour local_minute timezone ;;
  let '(solarelevation, azimuth) := solar_angles_skyfield lat lon dt in
  elevation <- solar_position_adj solarelevation ;;
  let az_S := azimuth_S azimuth in
  let az_blume := azimuth_blume az_S max_rotation in
  area_of_shadow <- shadow_dimensions height width tilt elevation az_S az_blume ;;
  coverage <- Py.div area_of_shadow ground_area ;;
  Ok (Py.min 1 coverage).

(** ** Sunrise and sunset functions *)

(** The [while start_date < end_date] loop of [sunrise_sunset_times], one
    step every 14 days. *)
Fixpoint sunrise_sunset_times_loop (steps : nat) (lat lon : R)
    (end_date start_date : Datetime.t)
    (sunrise_sunset_pairs : list sunrise_sunset_pair)
    : Py.result (list sunrise_sunset_pair) :=
  match steps with
  | O => Ok sunrise_sunset_pairs
  | S steps' =>
      if Datetime.lt start_date end_date then
        let times :=
          find_discrete_sunrise_sunset (get_timezone_str lat lon) lat lon
                                       start_date in
        let sunrise_sunset_pairs :=
          match times with
          | sunrise :: sunset :: _ => sunrise_sunset_pairs ++ [(sunrise, sunset)]
          | _ => sunrise_sunset_pairs
          end in
        next <- Datetime.add start_date (14 * Datetime.US_PER_DAY) ;;
        sunrise_sunset_times_loop steps' lat lon end_date next
                                  sunrise_sunset_pairs
      else Ok sunrise_sunset_pairs
  end.

(** [sunrise_sunset_times]: the sunrise and sunset of every fourteenth
    day of a year.  The loop runs once per stride that starts before the
    end of the year. *)
Definition sunrise_sunset_times (lat lon : R) (year : Z)
    : Py.result (list sunrise_sunset_pair) :=
  start_date <- Datetime.make year 1 1 0 0 0 ;;
  end_date <- Datetime.make (year + 1) 1 1 0 0 0 ;;
  let iteration_days := 14%Z in
  let strides :=
    ((Datetime.sub_days end_date start_date + iteration_days - 1)
     / iteration_days)%Z in
  sunrise_sunset_times_loop (Z.to_nat strides) lat lon end_date start_date [].

(** [tz.localize(target_date)]. *)
Definition localize (tz_str : string) (d : Datetime.t) : Datetime.aware :=
  Datetime.mk_aware d (pytz_utcoffset tz_str d).

(** The key of the lookup: [abs(target_date_aware - pair[0])]. *)
Definition sunrise_distance (target_date_aware : Datetime.aware)
    (pair : sunrise_sunset_pair) : Z :=
  Z.abs (Datetime.aware_sub target_date_aware (fst pair)).

(** [find_closest_sunrise_sunset]. *)
Definition find_closest_sunrise_sunset
    (sunrise_sunset_pairs : list sunrise_sunset_pair)
    (target_date : Datetime.t) (lat lon : R) : Py.result sunrise_sunset_pair :=
  let tz_str := get_timezone_str lat lon in
  let target_date_aware := localize tz_str target_date in
  Py.min_key (sunrise_distance target_date_aware) sunrise_sunset_pairs.

(** ** Daily iteration functions *)

(** The [while current_time <= sunset_rounded] loop of
    [iterate_sunrise_to_sunset]; [sample hour minute] is the call of
    [shade_coverage] in its body.  It returns the final
    [total_shade_coverage] and [count].  [steps] bounds the number of
    passes; [hourly_steps] below is always enough. *)
Fixpoint sunrise_to_sunset_loop (steps : nat)
    (sample : Z -> Z -> Py.result R) (sunset_rounded : Datetime.aware)
    (current_time : Datetime.aware) (total_shade_coverage : R) (count : Z)
    : Py.result (R * Z) :=
  match steps with
  | O => Ok (total_shade_coverage, count)
  | S steps' =>
      if Datetime.aware_le current_time sunset_rounded then
        let minute := Datetime.minute (Datetime.naive current_time) in
        let hour := Datetime.hour (Datetime.naive current_time) in
        shade_cover <- sample hour minute ;;
        next <- Datetime.aware_add current_time Datetime.US_PER_HOUR ;;
        sunrise_to_sunset_loop steps' sample sunset_rounded next
          (total_shade_coverage + shade_cover)%R (count + 1)%Z
      else Ok (total_shade_coverage, count)
  end.

(** The number of hourly instants from [sunrise_rounded] through
    [sunset_rounded]. *)
Definition hourly_steps (sunrise_rounded sunset_rounded : Datetime.aware) : nat :=
  Z.to_nat ((Datetime.utc_us sunset_rounded - Datetime.utc_us sunrise_rounded)
            / Datetime.US_PER_HOUR + 1).

(** [iterate_sunrise_to_sunset]: the mean shade coverage of one day. *)
Definition iterate_sunrise_to_sunset
    (sunrise_sunset_pairs : list sunrise_sunset_pair) (month day : Z)
    (lat lon : R) (year : Z) (ground_area height width tilt max_rotation : R)
    (timezone : Z) : Py.result R :=
  target_date <- Datetime.make year month day 0 0 0 ;;
  pair <- find_closest_sunrise_sunset sunrise_sunset_pairs target_date lat lon ;;
  let '(sunrise, sunset) := pair in
  sunrise_rounded <-
    Datetime.aware_add (Datetime.aware_replace_second_microsecond_0 sunrise)
      (if negb (Datetime.second (Datetime.naive sunrise) =? 0)%Z
          || negb (Datetime.microsecond (Datetime.naive sunrise) =? 0)%Z
       then Datetime.US_PER_MINUTE else 0%Z) ;;
  let sunset_rounded := Datetime.aware_replace_second_microsecond_0 sunset in
  totals <-
    sunrise_to_sunset_loop (hourly_steps sunrise_rounded sunset_rounded)
      (fun hour minute =>
         shade_coverage lat lon year ground_area height width tilt hour
                        max_rotation timezone month day minute)
      sunset_rounded sunrise_rounded 0%R 0%Z ;;
  let '(total_shade_coverage, count) := totals in
  if (count =? 0)%Z then Ok 0%R
  else Py.div total_shade_coverage (IZR count).

(** The [while current_date < end_date] loop of [iterate_through_year];
    [daily month day] is the call of [iterate_sunrise_to_sunset]. *)
Fixpoint iterate_through_year_loop (steps : nat)
    (daily : Z -> Z -> Py.result R) (end_date current_date : Datetime.t)
    (shade_results : list shade_record) : Py.result (list shade_record) :=
  match steps with
  | O => Ok shade_results
  | S steps' =>
      if Datetime.lt current_date end_date then
        let month := Datetime.month current_date in
        let day := Datetime.day current_date in
        daily_shade <- daily month day ;;
        let shade_results :=
          shade_results
          ++ [mk_shade (Datetime.strftime_Y_m_d current_date) daily_shade] in
        next <- Datetime.add current_date Datetime.US_PER_DAY ;;
        iterate_through_year_loop steps' daily end_date next shade_results
      else Ok shade_results
  end.

(** [iterate_through_year]: one shade record per day of the year; the
    loop runs [total_days] times. *)
Definition iterate_through_year
    (lat lon : R) (year : Z) (ground_area height width tilt max_rotation : R)
    (timezone : Z) (sunrise_sunset_pairs : list sunrise_sunset_pair)
    : Py.result (list shade_record) :=
  start_date <- Datetime.make year 1 1 0 0 0 ;;
  end_date <- Datetime.make (year + 1) 1 1 0 0 0 ;;
  let total_days := Datetime.sub_days end_date start_date in
  iterate_through_year_loop (Z.to_nat total_days)
    (fun month day =>
       iterate_sunrise_to_sunset sunrise_sunset_pairs month day lat lon year
         ground_area height width tilt max_rotation timezone)
    end_date start_date [].

(** ** Evapotranspiration data functions *)

(** [evapotranspiration]: the fetched data when it is truthy, [None]
    (after a message) when the fetch failed or returned an empty list. *)
Definition evapotranspiration (lat lon : R) (date : list string)
    : option (list et_record) :=
  match get_et_data lat lon api_key date with
  | Some (item :: items) => Some (item :: items)
  | _ => None
  end.

(** [map(lambda dm: dm[0]['et'] * (1 - dm[1]['shade']), zip(et_data,
    daily_shade))] on two sequences: [zip] stops at the end of the shorter
    one, ['et'] missing from an entry reached raises [KeyError]. *)
Fixpoint zip_adjust (et_data : list et_record) (daily_shade : list shade_record)
    : Py.result (list R) :=
  match et_data, daily_shade with
  | item :: et_data', s :: daily_shade' =>
      match et item with
      | None => Raise Py.KeyError
      | Some v =>
          rest <- zip_adjust et_data' daily_shade' ;;
          Ok ((v * (1 - shade s))%R :: rest)
      end
  | _, _ => Ok []
  end.

(** The adjusted ET values, the first component that
    [adjusted_evapotranspiration] returns; [zip] of [None] raises
    [TypeError]. *)
Definition adjusted_et_values (et_data : option (list et_record))
    (daily_shade : list shade_record) : Py.result (list R) :=
  match et_data with
  | None => Raise Py.TypeError
  | Some items => zip_adjust items daily_shade
  end.

(** [adjusted_evapotranspiration]. *)
Definition adjusted_evapotranspiration
    (lat lon : R) (year : Z) (ground_area height width tilt max_rotation : R)
    (timezone : Z)
    : Py.result (list R * list shade_record * option (list et_record)) :=
  start_date <- Datetime.make year 1 1 0 0 0 ;;
  let formatted_date :=
    [(Datetime.four_digits (Datetime.year start_date) ++ "-01-01")%string;
     (Datetime.four_digits (Datetime.year start_date) ++ "-12-31")%string] in
  sunrise_sunset_pairs <- sunrise_sunset_times lat lon year ;;
  daily_shade <-
    iterate_through_year lat lon year ground_area height width tilt
                         max_rotation timezone sunrise_sunset_pairs ;;
  let et_data := evapotranspiration lat lon formatted_date in
  adjusted <- adjusted_et_values et_data daily_shade ;;
  Ok (adjusted, daily_shade, et_data).

End Program.

(** ** Water savings *)

(** [item['et'] for item in et_data if 'et' in item]. *)
Definition et_values_present (et_data : list et_record) : list R :=
  flat_map (fun item => match et item with Some v => [v] | None => [] end)
           et_data.

(** [water_saved]: the annual ET less the annual adjusted ET. *)
Definition water_saved (et_data : option (list et_record))
    (adjusted_et_values : list R) : Py.result R :=
  match et_data with
  | None => Raise Py.TypeError
  | Some items =>
      let et_annual := Py.sum (et_values_present items) in
      let adjusted_et_annual := Py.sum adjusted_et_values in
      Ok (et_annual - adjusted_et_annual)%R
  end.

(** ** Data summation and comparison functions *)

Section Summation.

(** [datetime.strptime(s, '%Y-%m-%d')]: the date read, [ValueError] on a
    string that does not match. *)
Variable strptime_Y_m_d : string -> Py.result Datetime.t.

(** [start <= t <= end] on naive datetimes. *)
Definition between_dates (start_date_obj end_date_obj t : Datetime.t) : bool :=
  ((Datetime.to_us start_date_obj <=? Datetime.to_us t)
   && (Datetime.to_us t <=? Datetime.to_us end_date_obj))%Z.

(** [item['et'] for item in et_data if 'et' in item and start_date_obj <=
    strptime(item['time']) <= end_date_obj]: the time of an entry is parsed
    only when the entry has an ['et']. *)
Fixpoint et_between_dates (start_date_obj end_date_obj : Datetime.t)
    (et_data : list et_record) : Py.result (list R) :=
  match et_data with
  | [] => Ok []
  | item :: et_data' =>
      match et item with
      | None => et_between_dates start_date_obj end_date_obj et_data'
      | Some v =>
          t <- strptime_Y_m_d (et_time item) ;;
          rest <- et_between_dates start_date_obj end_date_obj et_data' ;;
          Ok (if between_dates start_date_obj end_date_obj t then v :: rest
              else rest)
      end
  end.

(** [sum_et_data_between_dates]. *)
Definition sum_et_data_between_dates (et_data : option (list et_record))
    (start_date end_date : string) : Py.result R :=
  start_date_obj <- strptime_Y_m_d start_date ;;
  end_date_obj <- strptime_Y_m_d end_date ;;
  match et_data with
  | None => Raise Py.TypeError
  | Some items =>
      values <- et_between_dates start_date_obj end_date_obj items ;;
      Ok (Py.sum values)
  end.

(** [et for et, shade in zip(adjusted_et_data, daily_shade) if
    start_date_obj <= strptime(shade['time']) <= end_date_obj]. *)
Fixpoint adjusted_between_dates (start_date_obj end_date_obj : Datetime.t)
    (adjusted_et_data : list R) (daily_shade : list shade_record)
    : Py.result (list R) :=
  match adjusted_et_data, daily_shade with
  | v :: adjusted_et_data', s :: daily_shade' =>
      t <- strptime_Y_m_d (shade_time s) ;;
      rest <-
        adjusted_between_dates start_date_obj end_date_obj adjusted_et_data'
                               daily_shade' ;;
      Ok (if between_dates start_date_obj end_date_obj t then v :: rest
          else rest)
  | _, _ => Ok []
  end.

(** [sum_adjusted_et_data_between_dates]. *)
Definition sum_adjusted_et_data_between_dates (adjusted_et_data : list R)
    (daily_shade : list shade_record) (start_date end_date : string)
    : Py.result R :=
  start_date_obj <- strptime_Y_m_d start_date ;;
  end_date_obj <- strptime_Y_m_d end_date ;;
  values <-
    adjusted_between_dates start_date_obj end_date_obj adjusted_et_data
                           daily_shade ;;
  Ok (Py.sum values).

End Summation.

(** ** Parameter initialization *)

Section Parameters.

(** [int(s)] and [float(s)] on a line of input: [None] stands for the
    [ValueError] that the loops catch and, for [float], also for the values
    nan and inf, which no range test below accepts and which make the loops
    ask again all the same. *)
Variable py_int : string -> option Z.
Variable py_float : string -> option R.

(** [get_timezone]: the whole hours of the UTC offset of a place
    (timezonefinder and pytz). *)
Variable get_timezone : R -> R -> Z.

(** The three prompt loops read the standard input line by line.  Each
    takes the lines still unread and returns the value accepted with the
    lines left; [None] stands for the [EOFError] of [input()] when the
    lines run out. *)
Fixpoint get_valid_year (lines : list string) : option (Z * list string) :=
  match lines with
  | [] => None
  | line :: lines' =>
      match py_int line with
      | Some year =>
          if ((2018 <=? year) && (year <=? 2022))%Z then Some (year, lines')
          else get_valid_year lines'
      | None => get_valid_year lines'
      end
  end.

Fixpoint get_valid_latitude (lines : list string) : option (R * list string) :=
  match lines with
  | [] => None
  | line :: lines' =>
      match py_float line with
      | Some latitude =>
          if Rle_dec (-90) latitude then
            if Rle_dec latitude 90 then Some (latitude, lines')
            else get_valid_latitude lines'
          else get_valid_latitude lines'
      | None => get_valid_latitude lines'
      end
  end.

Fixpoint get_valid_longitude (lines : list string) : option (R * list string) :=
  match lines with
  | [] => None
  | line :: lines' =>
      match py_float line with
      | Some longitude =>
          if Rle_dec (-180) longitude then
            if Rle_dec longitude 180 then Some (longitude, lines')
            else get_valid_longitude lines'
          else get_valid_longitude lines'
      | None => get_valid_longitude lines'
      end
  end.

(** What [calculation_parameters] returns. *)
Record parameters : Type := mk_parameters {
  p_lat : R; p_lon : R; p_year : Z; p_ground_area : R; p_height : R;
  p_width : R; p_tilt : R; p_max_rotation : R; p_timezone : Z
}.

(** [calculation_parameters]: latitude, longitude and year from the input,
    the site and structure constants, and the timezone of the place. *)
Definition calculation_parameters (lines : list string)
    : option (parameters * list string) :=
  match get_valid_latitude lines with
  | None => None
  | Some (lat, lines1) =>
      match get_valid_longitude lines1 with
      | None => None
      | Some (lon, lines2) =>
          match get_valid_year lines2 with
          | None => None
          | Some (year, lines3) =>
              let NS_spacing := 36%R in
              let EW_spacing := 36%R in
              let ground_area := (NS_spacing * EW_spacing)%R in
              let height := 22.3%R in
              let width := 18.3%R in
              let tilt := 35%R in
              let max_rotation := 45%R in
              let timezone := get_timezone lat lon in
              Some (mk_parameters lat lon year ground_area height width tilt
                                  max_rotation timezone, lines3)
          end
      end
  end.

End Parameters.

(** ** Main function *)

Section Main.

Variable solar_angles_skyfield : R -> R -> Datetime.t -> R * R.
Variable get_timezone_str : R -> R -> string.
Variable pytz_utcoffset : string -> Datetime.t -> Z.
Variable find_discrete_sunrise_sunset :
  string -> R -> R -> Datetime.t -> list Datetime.aware.
Variable get_et_data : R -> R -> string -> list string -> option (list et_record).
Variable api_key : string.
Variable strptime_Y_m_d : string -> Py.result Datetime.t.
Variable py_int : string -> option Z.
Variable py_float : string -> option R.
Variable get_timezone : R -> R -> Z.

(** The locals of [main] before it rounds and prints. *)
Record main_values : Type := mk_main_values {
  et_sum_between_dates : R;
  adjusted_et_sum_between_dates : R;
  water : R;
  waterin : R
}.

(** [main] up to the rounding of [water] and [waterin]: the outer [None]
    stands for the [EOFError] of the prompts.  The two [print] calls and
    [plot_values] that follow are not part of the model. *)
Definition main (lines : list string) : option (Py.result main_values) :=
  match calculation_parameters py_int py_float get_timezone lines with
  | None => None
  | Some (p, _) =>
      Some
        (result <-
           adjusted_evapotranspiration solar_angles_skyfield get_timezone_str
             pytz_utcoffset find_discrete_sunrise_sunset get_et_data api_key
             (p_lat p) (p_lon p) (p_year p) (p_ground_area p) (p_height p)
             (p_width p) (p_tilt p) (p_max_rotation p) (p_timezone p) ;;
         let '(adjusted_et_values, daily_shade, et_data) := result in
         et_sum_between_dates <-
           sum_et_data_between_dates strptime_Y_m_d et_data
             "2022-01-01" "2022-12-31" ;;
         adjusted_et_sum_between_dates <-
           sum_adjusted_et_data_between_dates strptime_Y_m_d adjusted_et_values
             daily_shade "2022-01-01" "2022-12-31" ;;
         water <- water_saved et_data adjusted_et_values ;;
         let waterin := (water / 25.4)%R in
         Ok (mk_main_values et_sum_between_dates adjusted_et_sum_between_dates
                            water waterin))
  end.

End Main.

(** * Definitions for the statements *)

(** The branch formulas of [atmospheric_refraction], as functions of the
    tangent and of the elevation. *)
Definition refraction_mid (t : R) : R :=
  (58.1 / t - 0.07 / t ^ 3 + 0.000086 / t ^ 5)%R.

Definition refraction_low (e : R) : R :=
  (1735 + e * (-518.2 + e * (103.4 + e * (-12.79 + e * 0.711))))%R.

(** The sum of a sequence of reals, for the statements. *)
Definition Rsum (xs : list R) : R := fold_right Rplus 0%R xs.

(** The wall clock, in microseconds, rounded down and up to a minute. *)
Definition floor_minute (u : Z) : Z :=
  (u / Datetime.US_PER_MINUTE * Datetime.US_PER_MINUTE)%Z.

Definition ceil_minute (u : Z) : Z :=
  if (u mod Datetime.US_PER_MINUTE =? 0)%Z then u
  else (floor_minute u + Datetime.US_PER_MINUTE)%Z.

(** The distance, in microseconds, between the local midnight of the
    target date and the sunrise of a stored pair, both as instants. *)
Definition midnight_distance
    (get_timezone_str : R -> R -> string)
    (pytz_utcoffset : string -> Datetime.t -> Z)
    (target_date : Datetime.t) (lat lon : R) (p : sunrise_sunset_pair) : Z :=
  Z.abs ((Datetime.to_us target_date
          - pytz_utcoffset (get_timezone_str lat lon) target_date)
         - (Datetime.to_us (Datetime.naive (fst p)) - Datetime.utcoffset (fst p))).

(** ** The daily aggregation, as the specification words it *)

(** [[f(x) for x in xs]], stopping at the first exception. *)
Fixpoint mapM {A B : Type} (f : A -> Py.result B) (xs : list A)
    : Py.result (list B) :=
  match xs with
  | [] => Ok []
  | x :: xs' => y <- f x ;; ys <- mapM f xs' ;; Ok (y :: ys)
  end.


(** [n] wall-clock instants one hour apart, from [first] on. *)
Definition hourly_instants (first : Z) (n : nat) : list Z :=
  map (fun k => (first + Z.of_nat k * Datetime.US_PER_HOUR)%Z) (seq 0 n).


(** A sunrise or sunset that the calendar can hold: valid fields, a year
    before 9999 and a UTC offset of less than a day. *)
Definition in_calendar (a : Datetime.aware) : Prop :=
  Datetime.valid (Datetime.naive a) = true
  /\ (Datetime.year (Datetime.naive a) <= 9998)%Z
  /\ (- Datetime.US_PER_DAY < Datetime.utcoffset a < Datetime.US_PER_DAY)%Z.

(** The number of days of a year. *)
Definition days_in_year (year : Z) : Z :=
  if Datetime.is_leap year then 366%Z else 365%Z.

(** The first instant of a year on the wall clock, in microseconds, and
    the date [k] days later. *)
Definition new_year_us (year : Z) : Z :=
  Datetime.to_us (Datetime.mk year 1 1 0 0 0 0).

Definition day_of_year (year : Z) (k : nat) : Datetime.t :=
  Datetime.of_us (new_year_us year + Z.of_nat k * Datetime.US_PER_DAY).


(** The ET values of the entries dated inside a range, and the adjusted
    values whose shade record is dated inside it, for a reading [date_of] of
    the date strings. *)
Definition et_in_range (date_of : string -> Datetime.t)
    (start_date_obj end_date_obj : Datetime.t) (items : list et_record)
    : list R :=
  flat_map
    (fun item =>
       match et item with
       | Some v =>
           if between_dates start_date_obj end_date_obj (date_of (et_time item))
           then [v] else []
       | None => []
       end)
    items.

Definition adjusted_in_range (date_of : string -> Datetime.t)
    (start_date_obj end_date_obj : Datetime.t) (adjusted_et_data : list R)
    (daily_shade : list shade_record) : list R :=
  map fst
    (filter
       (fun p =>
          between_dates start_date_obj end_date_obj
            (date_of (shade_time (snd p))))
       (combine adjusted_et_data daily_shade)).


(** A prompt loop in general: the first line that reads as a value the
    test accepts, with the lines after it. *)
Fixpoint first_accepted {A : Type} (read : string -> option A)
    (accept : A -> bool) (lines : list string) : option (A * list string) :=
  match lines with
  | [] => None
  | line :: lines' =>
      match read line with
      | Some value =>
          if accept value then Some (value, lines')
          else first_accepted read accept lines'
      | None => first_accepted read accept lines'
      end
  end.

(** A line a prompt loop asks again after. *)
Definition refused {A : Type} (read : string -> option A) (accept : A -> bool)
    (line : string) : Prop :=
  match read line with
  | Some value => accept value = false
  | None => True
  end.

Definition year_ok (year : Z) : bool := ((2018 <=? year) && (year <=? 2022))%Z.

Definition latitude_ok (latitude : R) : bool :=
  if Rle_dec (-90) latitude then if Rle_dec latitude 90 then true else false
  else false.

Definition longitude_ok (longitude : R) : bool :=
  if Rle_dec (-180) longitude then if Rle_dec longitude 180 then true else false
  else false.

(** ** Scenarios *)

(** The sun due north at 45 degrees of elevation: local noon at the
    equinox at latitude 45 south. *)
Definition sun_due_north (lat lon : R) (dt : Datetime.t) : R * R := (45%R, 0%R).

(** Scenario: sunrise and sunset stored for days 1, 15 and 29 of January
    2022 at UTC-8, and the lookup for 20 January. *)
Definition pacific_standard : Z := (-8 * Datetime.US_PER_HOUR)%Z.

Definition january_pair (d : Z) : sunrise_sunset_pair :=
  (Datetime.mk_aware (Datetime.mk 2022 1 d 7 30 12 345678) pacific_standard,
   Datetime.mk_aware (Datetime.mk 2022 1 d 16 45 40 500000) pacific_standard).

Definition biweekly_pairs : list sunrise_sunset_pair :=
  [january_pair 1; january_pair 15; january_pair 29].

(** Scenario: the sun due south at 45 degrees of elevation. *)
Definition sun_due_south (lat lon : R) (dt : Datetime.t) : R * R := (45%R, 180%R).

(** Scenario: a sunrise and a sunset at the same instant of 21 June 2022,
    on a whole minute and thirty seconds past it. *)
Definition noon_exact : Datetime.aware :=
  Datetime.mk_aware (Datetime.mk 2022 6 21 12 0 0 0) pacific_standard.

Definition noon_and_30_seconds : Datetime.aware :=
  Datetime.mk_aware (Datetime.mk 2022 6 21 12 0 30 0) pacific_standard.

(** ** A year without samples, and what is typed and read in it *)

(** A place in the Pacific zone, always on standard time. *)
Definition los_angeles (lat lon : R) : string := "America/Los_Angeles".

Definition standard_offset (tz_str : string) (d : Datetime.t) : Z :=
  pacific_standard.

Definition pacific_hours (lat lon : R) : Z := (-8)%Z.

(** An almanac whose two crossings of every date are the same instant,
    half a minute past a whole minute: no hourly sample falls between them.
    And an almanac that finds no crossing. *)
Definition still_almanac (tz_str : string) (lat lon : R) (d : Datetime.t)
    : list Datetime.aware :=
  [noon_and_30_seconds; noon_and_30_seconds].

Definition polar_almanac (tz_str : string) (lat lon : R) (d : Datetime.t)
    : list Datetime.aware :=
  [].


(** The shade records of such a year: every day, shade 0. *)
Definition still_year_shade (year : Z) : list shade_record :=
  map (fun k => mk_shade (Datetime.strftime_Y_m_d (day_of_year year k)) 0%R)
      (seq 0 (Z.to_nat (days_in_year year))).

(** An ET service that answers with two days of 2021. *)
Definition two_days : list et_record :=
  [mk_et "2021-01-01" (Some 3%R); mk_et "2021-01-02" (Some 4%R)].

Definition two_day_et (lat lon : R) (key : string) (dates : list string)
    : option (list et_record) :=
  Some two_days.

(** A reader of dates written as four, two and two digits with dashes
    between them. *)
Definition digit_value (c : ascii) : option Z :=
  let n := nat_of_ascii c in
  if ((48 <=? n) && (n <=? 57))%nat then Some (Z.of_nat (n - 48)) else None.

Definition read_date (s : string) : Py.result Datetime.t :=
  match s with
  | String y1 (String y2 (String y3 (String y4 (String "-"
      (String m1 (String m2 (String "-"
        (String d1 (String d2 EmptyString))))))))) =>
      match digit_value y1, digit_value y2, digit_value y3, digit_value y4,
            digit_value m1, digit_value m2, digit_value d1, digit_value d2 with
      | Some a, Some b, Some c, Some d, Some e, Some f, Some g, Some h =>
          Datetime.make (1000 * a + 100 * b + 10 * c + d) (10 * e + f)
                        (10 * g + h) 0 0 0
      | _, _, _, _, _, _, _, _ => Raise Py.ValueError
      end
  | _ => Raise Py.ValueError
  end.

Definition date_read (s : string) : Datetime.t :=
  match read_date s with
  | Ok d => d
  | Raise _ => Datetime.mk 1 1 1 0 0 0 0
  end.

(** Equality of two datetimes, field by field. *)
Definition same_datetime (a b : Datetime.t) : bool :=
  ((Datetime.year a =? Datetime.year b)
   && (Datetime.month a =? Datetime.month b)
   && (Datetime.day a =? Datetime.day b)
   && (Datetime.hour a =? Datetime.hour b)
   && (Datetime.minute a =? Datetime.minute b)
   && (Datetime.second a =? Datetime.second b)
   && (Datetime.microsecond a =? Datetime.microsecond b))%Z.

(** Readers of numbers that know a few spellings, and what is typed. *)
Definition read_int (s : string) : option Z :=
  if String.eqb s "2021" then Some 2021%Z
  else if String.eqb s "2022" then Some 2022%Z
  else if String.eqb s "1999" then Some 1999%Z
  else None.

Definition read_float (s : string) : option R :=
  if String.eqb s "42" then Some 42%R
  else if String.eqb s "-120" then Some (-120)%R
  else if String.eqb s "95" then Some 95%R
  else None.

Definition typed_lines : list string :=
  ["north"; "95"; "42"; "-120"; "1999"; "2021"]%string.

Definition typed_parameters : parameters :=
  mk_parameters 42 (-120) 2021 (36 * 36) 22.3 18.3 35 45 (-8).


(** Three ET entries: the second has no ['et'] and a date no reader
    accepts. *)
Definition three_entries : list et_record :=
  [mk_et "2021-01-01" (Some 3%R); mk_et "no date" None;
   mk_et "2021-01-02" (Some 4%R)].

Definition two_shades : list shade_record :=
  [mk_shade "2021-01-01" 0.5%R; mk_shade "2021-01-02" 0.25%R].

(** * Facts about the runtime *)

(** ** The ordinal round trip of [datetime] *)

Module DatetimeFacts.

Import Datetime.
Local Open Scope Z_scope.

Fixpoint all_from (k : nat) (n : Z) (p : Z -> bool) : bool :=
  match k with
  | O => true
  | S k' => p n && all_from k' (n + 1) p
  end.

Lemma all_from_spec k p : forall n0, all_from k n0 p = true ->
  forall n, n0 <= n < n0 + Z.of_nat k -> p n = true.
Proof.
  induction k; simpl; intros n0 H n Hn; [lia|].
  apply andb_prop in H. destruct H as [H1 H2].
  destruct (Z.eq_dec n n0) as [->|]; auto. apply (IHk (n0 + 1)); auto. lia.
Qed.

Definition month_day_ok (leap : bool) (n : Z) : bool :=
  let '(m, d) := month_day n leap in
  (1 <=? m) && (m <=? 12) && (1 <=? d)
  && (d <=? DAYS_IN_MONTH m + (if (m =? 2) && leap then 1 else 0))
  && (DAYS_BEFORE_MONTH m + (if (2 <? m) && leap then 1 else 0) + d =? n + 1).

Lemma month_day_spec (leap : bool) (n : Z) :
  0 <= n < (if leap then 366 else 365) ->
  month_day_ok leap n = true.
Proof.
  intros Hn. destruct leap.
  - apply (all_from_spec 366 (month_day_ok true) 0); [vm_compute; reflexivity | lia].
  - apply (all_from_spec 365 (month_day_ok false) 0); [vm_compute; reflexivity | lia].
Qed.

Ltac lia_div := Z.to_euclidean_division_equations; lia.

Lemma is_leap_decomp q a b c :
  0 <= a <= 3 -> 0 <= b <= 24 -> 0 <= c <= 3 ->
  is_leap (q * 400 + 1 + a * 100 + b * 4 + c)
  = (c =? 3) && (negb (b =? 24) || (a =? 3)).
Proof.
  intros Ha Hb Hc. unfold is_leap.
  set (y := q * 400 + 1 + a * 100 + b * 4 + c).
  destruct (Z.eqb_spec c 3), (Z.eqb_spec b 24), (Z.eqb_spec a 3),
    (Z.eqb_spec (y mod 4) 0), (Z.eqb_spec (y mod 100) 0), (Z.eqb_spec (y mod 400) 0);
    simpl; try reflexivity; exfalso; subst y; lia_div.
Qed.

Lemma days_before_year_decomp q a b c :
  0 <= a <= 3 -> 0 <= b <= 24 -> 0 <= c <= 3 ->
  days_before_year (q * 400 + 1 + a * 100 + b * 4 + c)
  = q * 146097 + a * 36524 + b * 1461 + c * 365.
Proof. intros. unfold days_before_year. lia_div. Qed.

Lemma ord2ymd_spec n :
  let '(y, m, d) := ord2ymd n in
  ymd2ord y m d = n /\ 1 <= m <= 12 /\ 1 <= d <= days_in_month y m.
Proof.
  unfold ord2ymd, DI400Y, DI100Y, DI4Y.
  set (q := (n - 1) / 146097). set (r := (n - 1) mod 146097).
  set (a := r / 36524). set (r1 := r mod 36524).
  set (b := r1 / 1461). set (r2 := r1 mod 1461).
  set (c := r2 / 365). set (r3 := r2 mod 365).
  assert (Hn : n - 1 = 146097 * q + r /\ 0 <= r < 146097)
    by (subst q r; split; [apply Z.div_mod; lia | apply Z.mod_pos_bound; lia]).
  assert (Hr : r = 36524 * a + r1 /\ 0 <= r1 < 36524)
    by (subst a r1; split; [apply Z.div_mod; lia | apply Z.mod_pos_bound; lia]).
  assert (Hr1 : r1 = 1461 * b + r2 /\ 0 <= r2 < 1461)
    by (subst b r2; split; [apply Z.div_mod; lia | apply Z.mod_pos_bound; lia]).
  assert (Hr2 : r2 = 365 * c + r3 /\ 0 <= r3 < 365)
    by (subst c r3; split; [apply Z.div_mod; lia | apply Z.mod_pos_bound; lia]).
  clearbody q r a r1 b r2 c r3.
  destruct (Z.eqb_spec c 4) as [Hc|Hc]; simpl.
  - (* the last day of a four-year cycle *)
    replace (q * 400 + 1 + a * 100 + b * 4 + c - 1)
      with (q * 400 + 1 + a * 100 + b * 4 + 3) by lia.
    assert (a <= 3) by lia. assert (b <= 24) by lia.
    unfold ymd2ord, days_before_month, days_in_month.
    rewrite days_before_year_decomp, is_leap_decomp by lia.
    simpl. destruct (Z.eqb_spec b 24); destruct (Z.eqb_spec a 3); simpl; lia.
  - destruct (Z.eqb_spec a 4) as [Ha|Ha]; simpl.
    + (* the last day of a 400-year cycle *)
      replace (q * 400 + 1 + a * 100 + b * 4 + c - 1)
        with (q * 400 + 1 + 3 * 100 + 24 * 4 + 3) by lia.
      unfold ymd2ord, days_before_month, days_in_month.
      rewrite days_before_year_decomp, is_leap_decomp by lia.
      simpl. lia.
    + assert (Ha' : 0 <= a <= 3) by lia.
      assert (Hb' : 0 <= b <= 24) by lia.
      assert (Hc' : 0 <= c <= 3) by lia.
      set (leap := (c =? 3) && (negb (b =? 24) || (a =? 3))).
      assert (Hr3 : 0 <= r3 < (if leap then 366 else 365)) by (destruct leap; lia).
      pose proof (month_day_spec leap r3 Hr3) as Hmd.
      unfold month_day_ok in Hmd.
      destruct (month_day r3 leap) as [m d].
      unfold ymd2ord, days_before_month, days_in_month.
      rewrite days_before_year_decomp, is_leap_decomp by lia.
      fold leap. revert Hmd. clear Hr3.
      destruct (Z.eqb_spec m 2) as [->|Hm]; destruct leap; cbn [andb DAYS_IN_MONTH];
        intros Hmd; repeat (apply andb_prop in Hmd; destruct Hmd as [Hmd ?]); lia.
Qed.

Lemma to_us_of_us u : to_us (of_us u) = u.
Proof.
  unfold to_us, of_us, toordinal.
  pose proof (ord2ymd_spec (u / US_PER_DAY)) as H.
  destruct (ord2ymd (u / US_PER_DAY)) as [[y m] d]. destruct H as [H _].
  cbn [year month day hour minute second microsecond]. rewrite H.
  unfold US_PER_DAY, US_PER_HOUR, US_PER_MINUTE, US_PER_SECOND. lia_div.
Qed.

Lemma hour_of_us u : hour (of_us u) = (u / US_PER_HOUR) mod 24.
Proof.
  unfold of_us. destruct (ord2ymd (u / US_PER_DAY)) as [[y m] d].
  cbn [hour]. unfold US_PER_DAY, US_PER_HOUR. lia_div.
Qed.

Lemma minute_of_us u : minute (of_us u) = (u / US_PER_MINUTE) mod 60.
Proof.
  unfold of_us. destruct (ord2ymd (u / US_PER_DAY)) as [[y m] d].
  cbn [minute]. unfold US_PER_DAY, US_PER_HOUR, US_PER_MINUTE. lia_div.
Qed.

Lemma add_ok d delta d' : add d delta = Py.Ok d' -> to_us d' = to_us d + delta.
Proof.
  unfold add. destruct (_ && _); [|discriminate].
  intros [= <-]. apply to_us_of_us.
Qed.

Lemma aware_add_ok a delta a' :
  aware_add a delta = Py.Ok a' ->
  utc_us a' = utc_us a + delta /\ utcoffset a' = utcoffset a.
Proof.
  unfold aware_add, Py.bind. destruct (add (naive a) delta) eqn:E; [|discriminate].
  intros [= <-]. unfold utc_us. cbn [naive utcoffset].
  rewrite (add_ok _ _ _ E). split; [lia | reflexivity].
Qed.

Lemma make_ok y m d h mi s dt :
  make y m d h mi s = Py.Ok dt ->
  dt = mk y m d h mi s 0 /\ valid dt = true.
Proof.
  unfold make. destruct (valid (mk y m d h mi s 0)) eqn:E; [|discriminate].
  intros [= <-]. auto.
Qed.

End DatetimeFacts.

(** ** Arithmetic of the runtime *)

Section PyFacts.

Local Open Scope R_scope.

Lemma div_ok x y : y <> 0 -> Py.div x y = Ok (x / y).
Proof. intros H. unfold Py.div. destruct (Req_dec_T y 0); [contradiction | reflexivity]. Qed.

Lemma max_eq_Rmax a b : Py.max a b = Rmax a b.
Proof.
  unfold Py.max, Rmax. destruct (Rlt_dec a b), (Rle_dec a b); try reflexivity; lra.
Qed.

Lemma min_eq_Rmin a b : Py.min a b = Rmin a b.
Proof.
  unfold Py.min, Rmin. destruct (Rlt_dec b a), (Rle_dec a b); try reflexivity; lra.
Qed.

Lemma PI_gt_3 : 3 < PI.
Proof. pose proof PI2_3_2. lra. Qed.

Lemma radians_first_quadrant e :
  0 < e < 90 -> 0 < Py.radians e < PI / 2.
Proof. intros H. unfold Py.radians. pose proof PI_RGT_0. split; nra. Qed.

Lemma radians_fourth_quadrant e :
  -90 < e < 0 -> - (PI / 2) < Py.radians e < 0.
Proof. intros H. unfold Py.radians. pose proof PI_RGT_0. split; nra. Qed.

(** [x - x^3/6 <= sin x] on [0, PI]. *)
Lemma sin_cubic_lower x : 0 <= x -> x <= PI -> x - x ^ 3 / 6 <= sin x.
Proof.
  intros H0 H1. destruct (sin_bound x 0 H0 H1) as [H _].
  unfold sin_approx, sin_term in H. simpl in H. lra.
Qed.

(** A lower bound of the tangent in the first quadrant. *)
Lemma tan_lower x : 0 < x -> x <= 1 -> 5 / 6 * x <= tan x.
Proof.
  intros H0 H1. pose proof PI_gt_3 as HPI.
  assert (Hs : x - x ^ 3 / 6 <= sin x) by (apply sin_cubic_lower; lra).
  assert (Hc : 0 < cos x) by (apply cos_gt_0; lra).
  assert (Hc1 : cos x <= 1) by (pose proof (COS_bound x); lra).
  assert (Hs0 : 5 / 6 * x <= sin x) by nra.
  unfold tan. apply Rle_trans with (sin x); [exact Hs0|].
  apply Rmult_le_reg_r with (cos x); [exact Hc|].
  unfold Rdiv. rewrite Rmult_assoc, Rinv_l by lra. nra.
Qed.

End PyFacts.

(** ** The refraction and the corrected elevation *)

Section RefractionFacts.

Local Open Scope R_scope.

Lemma atmospheric_refraction_high e :
  85 < e -> atmospheric_refraction e = Ok 0.
Proof. intros H. unfold atmospheric_refraction. destruct (Rlt_dec 85 e); [reflexivity | lra]. Qed.

Lemma atmospheric_refraction_mid e :
  5 < e <= 85 ->
  atmospheric_refraction e = Ok (refraction_mid (tan (Py.radians e)))
  /\ 0 < tan (Py.radians e).
Proof.
  intros H. unfold atmospheric_refraction.
  destruct (Rlt_dec 85 e); [lra|]. destruct (Rlt_dec 5 e); [|lra].
  assert (Ht : 0 < tan (Py.radians e))
    by (apply tan_gt_0; apply radians_first_quadrant; lra).
  rewrite !div_ok by (try apply pow_nonzero; lra).
  split; [reflexivity | exact Ht].
Qed.

Lemma atmospheric_refraction_low e :
  -0.575 < e <= 5 -> atmospheric_refraction e = Ok (refraction_low e).
Proof.
  intros H. unfold atmospheric_refraction.
  destruct (Rlt_dec 85 e); [lra|]. destruct (Rlt_dec 5 e); [lra|].
  destruct (Rlt_dec (-0.575) e); [reflexivity | lra].
Qed.

Lemma atmospheric_refraction_below e :
  -90 < e <= -0.575 ->
  atmospheric_refraction e = Ok (-20.772 / tan (Py.radians e))
  /\ tan (Py.radians e) < 0.
Proof.
  intros H. unfold atmospheric_refraction.
  destruct (Rlt_dec 85 e); [lra|]. destruct (Rlt_dec 5 e); [lra|].
  destruct (Rlt_dec (-0.575) e); [lra|].
  assert (Ht : tan (Py.radians e) < 0)
    by (apply tan_lt_0; apply radians_fourth_quadrant; lra).
  rewrite div_ok by lra. split; [reflexivity | exact Ht].
Qed.

Lemma refraction_mid_pos t : 0 < t -> 0 < refraction_mid t.
Proof.
  intros Ht. unfold refraction_mid.
  assert (Hu : 0 < / t) by (apply Rinv_0_lt_compat; exact Ht).
  replace (58.1 / t - 0.07 / t ^ 3 + 0.000086 / t ^ 5)
    with (/ t * (0.000086 * ((/ t) ^ 2 - 407) ^ 2 + (58.1 - 0.000086 * 407 ^ 2)
                 + (2 * 0.000086 * 407 - 0.07) * (/ t) ^ 2))
    by (field; lra).
  apply Rmult_lt_0_compat; [exact Hu|].
  assert (0 <= ((/ t) ^ 2 - 407) ^ 2) by (apply pow2_ge_0).
  assert (0 <= (/ t) ^ 2) by (apply pow2_ge_0).
  nra.
Qed.

Lemma refraction_low_pos e : 0 <= e <= 5 -> 0 < refraction_low e.
Proof.
  intros H. unfold refraction_low.
  assert (Hq : 57.225 <= 103.4 + e * (-12.79 + e * 0.711)) by nra.
  nra.
Qed.

End RefractionFacts.

Section ElevationFacts.

Local Open Scope R_scope.

Lemma elevation_floor_pos : 0 < elevation_floor.
Proof. unfold elevation_floor. lra. Qed.

Lemma solar_position_adj_value e r :
  atmospheric_refraction e = Ok r ->
  solar_position_adj e = Ok (Py.max elevation_floor (e + r / 3600)).
Proof. intros H. unfold solar_position_adj. rewrite H. reflexivity. Qed.

Lemma radians_5_lower : 0.069 < 5 / 6 * Py.radians 5.
Proof. unfold Py.radians. pose proof PI_gt_3. lra. Qed.

Lemma tan_radians_lower e :
  5 < e <= 85 -> 0.069 < tan (Py.radians e).
Proof.
  intros H. pose proof PI_gt_3 as HPI. pose proof PI_4 as HPI4.
  assert (H5 : 5 / 6 * Py.radians 5 <= tan (Py.radians 5))
    by (apply tan_lower; unfold Py.radians; lra).
  assert (Hinc : tan (Py.radians 5) < tan (Py.radians e)).
  { apply tan_increasing.
    - unfold Py.radians. lra.
    - unfold Py.radians. nra.
    - apply radians_first_quadrant. lra. }
  pose proof radians_5_lower. lra.
Qed.

Lemma refraction_mid_upper t : 0.069 < t -> refraction_mid t < 18000.
Proof.
  intros Ht. unfold refraction_mid.
  assert (Ht0 : 0 < t) by lra.
  assert (Hu : 0 < / t) by (apply Rinv_0_lt_compat; exact Ht0).
  assert (Hu1 : / t < 15).
  { apply Rmult_lt_reg_r with t; [exact Ht0|]. rewrite Rinv_l by lra. lra. }
  replace (58.1 / t - 0.07 / t ^ 3 + 0.000086 / t ^ 5)
    with (58.1 * / t - 0.07 * (/ t) ^ 3 + 0.000086 * (/ t) ^ 5) by (field; lra).
  set (u := / t) in *.
  assert (H2 : 0 < u * u < 225) by nra.
  assert (H3 : 0 < u * u * u) by nra.
  assert (H4 : 0 < u * u * (u * u) < 50625) by nra.
  assert (H5 : u * u * (u * u) * u < 759375) by nra.
  replace (u ^ 3) with (u * u * u) by ring.
  replace (u ^ 5) with (u * u * (u * u) * u) by ring.
  lra.
Qed.

Lemma refraction_low_upper e : -0.575 < e <= 5 -> refraction_low e < 3000.
Proof.
  intros H. unfold refraction_low.
  assert (Hq : 0 < 103.4 + e * (-12.79 + e * 0.711) < 112) by nra.
  nra.
Qed.

Lemma tan_radians_below e :
  -90 < e <= -0.575 -> tan (Py.radians e) < -0.0079.
Proof.
  intros H. pose proof PI_gt_3 as HPI. pose proof PI_4 as HPI4.
  assert (H5 : 5 / 6 * Py.radians 0.575 <= tan (Py.radians 0.575))
    by (apply tan_lower; unfold Py.radians; lra).
  assert (Hinc : tan (Py.radians e) <= tan (Py.radians (-0.575))).
  { destruct (Req_dec e (-0.575)) as [->|Hne]; [lra|].
    apply Rlt_le, tan_increasing.
    - unfold Py.radians. nra.
    - unfold Py.radians. nra.
    - unfold Py.radians. lra. }
  replace (Py.radians (-0.575)) with (- Py.radians 0.575) in Hinc
    by (unfold Py.radians; lra).
  rewrite tan_neg in Hinc.
  assert (0.0079 < 5 / 6 * Py.radians 0.575) by (unfold Py.radians; lra).
  lra.
Qed.

(** On the physical range of elevations the refraction is defined and the
    corrected elevation stays below the zenith. *)
Lemma refraction_below_zenith e :
  -90 < e < 90 ->
  exists r, atmospheric_refraction e = Ok r /\ e + r / 3600 < 90.
Proof.
  intros H.
  destruct (Rlt_dec 85 e) as [H85|H85].
  { exists 0. split; [apply atmospheric_refraction_high; exact H85 | lra]. }
  destruct (Rlt_dec 5 e) as [H5|H5].
  { destruct (atmospheric_refraction_mid e) as [Hr Ht]; [lra|].
    eexists. split; [exact Hr|].
    pose proof (refraction_mid_upper _ (tan_radians_lower e ltac:(lra))). lra. }
  destruct (Rlt_dec (-0.575) e) as [Hl|Hl].
  { eexists. split; [apply atmospheric_refraction_low; lra|].
    pose proof (refraction_low_upper e ltac:(lra)). lra. }
  destruct (atmospheric_refraction_below e) as [Hr Ht]; [lra|].
  eexists. split; [exact Hr|].
  pose proof (tan_radians_below e ltac:(lra)) as Hb.
  assert (Hinv : -20.772 / tan (Py.radians e) < 3000).
  { set (t := tan (Py.radians e)) in *.
    replace (-20.772 / t) with (20.772 * / (- t))
      by (replace (-20.772) with (- (20.772)) by lra; field; lra).
    assert (0 < / (- t)) by (apply Rinv_0_lt_compat; lra).
    assert (/ (- t) < 130).
    { apply Rmult_lt_reg_r with (- t); [lra|]. rewrite Rinv_l by lra. lra. }
    lra. }
  lra.
Qed.

Lemma shadow_dimensions_ok height width tilt elevation solar_azimuth az_blume :
  tan (Py.radians elevation) <> 0 ->
  shadow_dimensions height width tilt elevation solar_azimuth az_blume
  = Ok ((((width + height / 2 * cos (Py.radians tilt)) / tan (Py.radians elevation)
          - (width - height / 2 * cos (Py.radians tilt)) / tan (Py.radians elevation)
          + height * cos (Py.radians tilt)))
        * (width * cos (Py.radians (az_blume - solar_azimuth)))).
Proof.
  intros Ht. unfold shadow_dimensions. rewrite !div_ok by exact Ht. reflexivity.
Qed.

End ElevationFacts.

Section BoundaryFacts.

Local Open Scope R_scope.

Lemma PI_bounds : 3.14159 < PI < 3.1416.
Proof.
  pose proof (PI_2_3_7_ineq 2) as H.
  unfold sum_f_R0, tg_alt, PI_2_3_7_tg, Ratan_seq in H. simpl in H. lra.
Qed.

(** An enclosure of the tangent by the Taylor polynomials of the sine and
    the cosine. *)
Lemma tan_enclosure x :
  0 < x <= 1 / 2 ->
  (x - x ^ 3 / 6) / (1 - x ^ 2 / 2 + x ^ 4 / 24) <= tan x
  /\ tan x <= (x - x ^ 3 / 6 + x ^ 5 / 120) / (1 - x ^ 2 / 2).
Proof.
  intros Hx. pose proof PI_bounds as HPI.
  assert (Hs1 : x - x ^ 3 / 6 <= sin x <= x - x ^ 3 / 6 + x ^ 5 / 120).
  { destruct (sin_bound x 0) as [H1 H2]; [lra | lra |].
    unfold sin_approx, sin_term in H1, H2. simpl in H1, H2. lra. }
  assert (Hc1 : 1 - x ^ 2 / 2 <= cos x <= 1 - x ^ 2 / 2 + x ^ 4 / 24).
  { destruct (cos_bound x 0) as [H1 H2]; [lra | lra |].
    unfold cos_approx, cos_term in H1, H2. simpl in H1, H2. lra. }
  assert (Hx2 : 0 < x * x <= 1 / 4) by nra.
  assert (Hcl : 0 < 1 - x ^ 2 / 2) by nra.
  assert (Hc : 0 < cos x) by lra.
  assert (Hcu : 0 < 1 - x ^ 2 / 2 + x ^ 4 / 24) by lra.
  assert (Hsl : 0 < x - x ^ 3 / 6) by nra.
  assert (Hs : 0 < sin x) by lra.
  unfold tan. split.
  - apply Rmult_le_reg_r with (cos x * (1 - x ^ 2 / 2 + x ^ 4 / 24));
      [apply Rmult_lt_0_compat; assumption|].
    replace ((x - x ^ 3 / 6) / (1 - x ^ 2 / 2 + x ^ 4 / 24)
             * (cos x * (1 - x ^ 2 / 2 + x ^ 4 / 24)))
      with ((x - x ^ 3 / 6) * cos x) by (field; lra).
    replace (sin x / cos x * (cos x * (1 - x ^ 2 / 2 + x ^ 4 / 24)))
      with (sin x * (1 - x ^ 2 / 2 + x ^ 4 / 24)) by (field; lra).
    apply Rle_trans with ((x - x ^ 3 / 6) * (1 - x ^ 2 / 2 + x ^ 4 / 24)).
    + apply Rmult_le_compat_l; [lra | lra].
    + apply Rmult_le_compat_r; [lra | lra].
  - apply Rmult_le_reg_r with (cos x * (1 - x ^ 2 / 2));
      [apply Rmult_lt_0_compat; assumption|].
    replace (sin x / cos x * (cos x * (1 - x ^ 2 / 2)))
      with (sin x * (1 - x ^ 2 / 2)) by (field; lra).
    replace ((x - x ^ 3 / 6 + x ^ 5 / 120) / (1 - x ^ 2 / 2)
             * (cos x * (1 - x ^ 2 / 2)))
      with ((x - x ^ 3 / 6 + x ^ 5 / 120) * cos x) by (field; lra).
    apply Rle_trans with (sin x * cos x).
    + apply Rmult_le_compat_l; [lra | lra].
    + apply Rmult_le_compat_r; [lra | lra].
Qed.

(** From an enclosure of the angle to an enclosure of the tangent. *)
Lemma tan_between x xl xh tl th :
  0 < xl -> xl <= x <= xh -> xh <= 1 / 2 ->
  tl * (1 - xl ^ 2 / 2 + xh ^ 4 / 24) <= xl - xh ^ 3 / 6 ->
  xh - xl ^ 3 / 6 + xh ^ 5 / 120 <= th * (1 - xh ^ 2 / 2) ->
  0 <= tl -> 0 <= th ->
  tl <= tan x <= th.
Proof.
  intros Hxl Hx Hxh Hlow Hhigh Htl Hth.
  destruct (tan_enclosure x) as [H1 H2]; [lra|].
  assert (Hp2 : xl ^ 2 <= x ^ 2 <= xh ^ 2) by nra.
  assert (Hp3 : xl ^ 3 <= x ^ 3 <= xh ^ 3) by nra.
  assert (Hp4 : xl ^ 4 <= x ^ 4 <= xh ^ 4) by nra.
  assert (Hp5 : x ^ 5 <= xh ^ 5) by nra.
  assert (Hd1 : 0 < 1 - x ^ 2 / 2 + x ^ 4 / 24) by nra.
  assert (Hd2 : 0 < 1 - x ^ 2 / 2) by nra.
  split.
  - apply Rle_trans with (2 := H1).
    apply Rmult_le_reg_r with (1 - x ^ 2 / 2 + x ^ 4 / 24); [exact Hd1|].
    replace ((x - x ^ 3 / 6) / (1 - x ^ 2 / 2 + x ^ 4 / 24)
             * (1 - x ^ 2 / 2 + x ^ 4 / 24))
      with (x - x ^ 3 / 6) by (field; lra).
    apply Rle_trans with (tl * (1 - xl ^ 2 / 2 + xh ^ 4 / 24));
      [apply Rmult_le_compat_l; lra | lra].
  - apply Rle_trans with (1 := H2).
    apply Rmult_le_reg_r with (1 - x ^ 2 / 2); [exact Hd2|].
    replace ((x - x ^ 3 / 6 + x ^ 5 / 120) / (1 - x ^ 2 / 2) * (1 - x ^ 2 / 2))
      with (x - x ^ 3 / 6 + x ^ 5 / 120) by (field; lra).
    apply Rle_trans with (th * (1 - xh ^ 2 / 2));
      [lra | apply Rmult_le_compat_l; lra].
Qed.

Lemma radians_enclosure e :
  0 <= e -> e * 0.0174532 <= Py.radians e <= e * 0.0174534.
Proof. intros He. unfold Py.radians. pose proof PI_bounds. split; nra. Qed.

Lemma tan_radians_5_bounds : 0.08748 <= tan (Py.radians 5) <= 0.0875.
Proof.
  pose proof (radians_enclosure 5 ltac:(lra)) as Hx.
  apply (tan_between _ (5 * 0.0174532) (5 * 0.0174534)); lra.
Qed.

Lemma tan_radians_5001_bounds : tan (Py.radians 5.001) <= 0.08751.
Proof.
  pose proof (radians_enclosure 5.001 ltac:(lra)) as Hx.
  apply (tan_between _ (5.001 * 0.0174532) (5.001 * 0.0174534) 0 0.08751); lra.
Qed.

Lemma tan_radians_0575_bounds : tan (Py.radians 0.575) <= 0.0100362.
Proof.
  pose proof (radians_enclosure 0.575 ltac:(lra)) as Hx.
  apply (tan_between _ (0.575 * 0.0174532) (0.575 * 0.0174534) 0 0.0100362); lra.
Qed.

End BoundaryFacts.

Section BoundaryClaims.

Local Open Scope R_scope.

(** A lower bound of the middle branch when the tangent lies between
    [/ uh] and [/ ul]. *)
Lemma refraction_mid_lower t ul uh :
  0 < t -> 0 < ul -> ul <= / t <= uh ->
  58.1 * ul - 0.07 * uh ^ 3 + 0.000086 * ul ^ 5 <= refraction_mid t.
Proof.
  intros Ht Hul Hu. unfold refraction_mid.
  replace (58.1 / t - 0.07 / t ^ 3 + 0.000086 / t ^ 5)
    with (58.1 * / t - 0.07 * (/ t) ^ 3 + 0.000086 * (/ t) ^ 5) by (field; lra).
  set (u := / t) in *.
  assert (H3 : u ^ 3 <= uh ^ 3) by (apply pow_incr; lra).
  assert (H5 : ul ^ 5 <= u ^ 5) by (apply pow_incr; lra).
  lra.
Qed.

Lemma tan_radians_85 : tan (Py.radians 85) = / tan (Py.radians 5).
Proof.
  destruct tan_radians_5_bounds as [Hl Hu].
  assert (Hs : sin (Py.radians 5) <> 0).
  { intros E. unfold tan in Hl. rewrite E in Hl. lra. }
  assert (Hc : cos (Py.radians 5) <> 0).
  { apply Rgt_not_eq, cos_gt_0; unfold Py.radians; pose proof PI_bounds; lra. }
  replace (Py.radians 85) with (PI / 2 - Py.radians 5)
    by (unfold Py.radians; lra).
  unfold tan. rewrite sin_shift, cos_shift. field. split; assumption.
Qed.

(** The jump at 85 degrees. *)
Lemma refraction_at_85 :
  exists r, atmospheric_refraction 85 = Ok r /\ 5.08 < r.
Proof.
  destruct (atmospheric_refraction_mid 85) as [Hr Ht]; [lra|].
  eexists. split; [exact Hr|].
  destruct tan_radians_5_bounds as [Hl Hu].
  pose proof (refraction_mid_lower (tan (Py.radians 85)) 0.08748 0.0875 Ht
                ltac:(lra)) as H.
  rewrite tan_radians_85, Rinv_inv in H. specialize (H (conj Hl Hu)).
  rewrite <- tan_radians_85 in H. lra.
Qed.

(** The jump at 5 degrees. *)
Lemma refraction_above_5 e :
  5 < e <= 5.001 -> exists r, atmospheric_refraction e = Ok r /\ 576 < r.
Proof.
  intros He. destruct (atmospheric_refraction_mid e) as [Hr Ht]; [lra|].
  eexists. split; [exact Hr|].
  destruct tan_radians_5_bounds as [Hl _].
  pose proof tan_radians_5001_bounds as Hu. pose proof PI_bounds as HPI.
  assert (Hlow : tan (Py.radians 5) < tan (Py.radians e))
    by (apply tan_increasing; unfold Py.radians; nra).
  assert (Hhigh : tan (Py.radians e) <= tan (Py.radians 5.001)).
  { destruct (Req_dec e 5.001) as [->|Hne]; [lra|].
    apply Rlt_le, tan_increasing; unfold Py.radians; nra. }
  set (t := tan (Py.radians e)) in *.
  assert (Hinv : 11.4272 <= / t <= 11.4312).
  { split.
    - apply Rmult_le_reg_r with t; [lra|]. rewrite Rinv_l by lra. lra.
    - apply Rmult_le_reg_r with t; [lra|]. rewrite Rinv_l by lra. lra. }
  pose proof (refraction_mid_lower t 11.4272 11.4312 Ht ltac:(lra) Hinv). lra.
Qed.

Lemma refraction_at_5 : atmospheric_refraction 5 = Ok 574.625.
Proof.
  rewrite atmospheric_refraction_low by lra. f_equal. unfold refraction_low. lra.
Qed.

(** The jump at -0.575 degrees. *)
Lemma refraction_at_minus_0575 :
  exists r, atmospheric_refraction (-0.575) = Ok r /\ 2069.7 < r.
Proof.
  destruct (atmospheric_refraction_below (-0.575)) as [Hr Ht]; [lra|].
  eexists. split; [exact Hr|].
  pose proof tan_radians_0575_bounds as Hu.
  replace (Py.radians (-0.575)) with (- Py.radians 0.575) in *
    by (unfold Py.radians; lra).
  rewrite tan_neg in *.
  set (t := tan (Py.radians 0.575)) in *.
  replace (-20.772 / - t) with (20.772 * / t)
    by (replace (-20.772) with (- (20.772)) by lra; field; lra).
  assert (Hinv : 99.639 <= / t).
  { apply Rmult_le_reg_r with t; [lra|]. rewrite Rinv_l by lra. lra. }
  lra.
Qed.

Lemma refraction_above_minus_0575 e :
  -0.575 < e <= -0.5 ->
  exists r, atmospheric_refraction e = Ok r /\ r < 2069.67.
Proof.
  intros He. eexists. split; [apply atmospheric_refraction_low; lra|].
  unfold refraction_low.
  assert (Hq : 109 < 103.4 + e * (-12.79 + e * 0.711) < 112) by nra.
  nra.
Qed.

End BoundaryClaims.

(** ** The shade coverage *)

Section CoverageFacts.

Local Open Scope R_scope.

Variable solar_angles_skyfield : R -> R -> Datetime.t -> R * R.

(** The value of [shade_coverage] when the date is valid, the elevation
    is in the physical range and the ground area is not zero. *)
Lemma shade_coverage_value lat lon local_year ground_area height width tilt
    local_hour max_rotation timezone local_month local_day local_minute
    dt solarelevation azimuth :
  ground_area <> 0 ->
  dt_utc local_year local_month local_day local_hour local_minute timezone = Ok dt ->
  solar_angles_skyfield lat lon dt = (solarelevation, azimuth) ->
  -90 < solarelevation < 90 ->
  exists elevation area,
    solar_position_adj solarelevation = Ok elevation
    /\ elevation_floor <= elevation < 90
    /\ shadow_dimensions height width tilt elevation (azimuth_S azimuth)
         (azimuth_blume (azimuth_S azimuth) max_rotation) = Ok area
    /\ area = (height * cos (Py.radians tilt) / tan (Py.radians elevation)
               + height * cos (Py.radians tilt))
              * (width * cos (Py.radians (azimuth_blume (azimuth_S azimuth) max_rotation
                                          - azimuth_S azimuth)))
    /\ shade_coverage solar_angles_skyfield lat lon local_year ground_area height
         width tilt local_hour max_rotation timezone local_month local_day
         local_minute = Ok (Py.min 1 (area / ground_area)).
Proof.
  intros Hg Hdt Hsun Hel.
  destruct (refraction_below_zenith _ Hel) as [r [Hr Hlt]].
  pose proof elevation_floor_pos as Hfloor.
  set (elevation := Py.max elevation_floor (solarelevation + r / 3600)).
  assert (Hrange : elevation_floor <= elevation < 90).
  { unfold elevation. rewrite max_eq_Rmax. split; [apply Rmax_l|].
    apply Rmax_lub_lt; [unfold elevation_floor; lra | exact Hlt]. }
  assert (Htan : 0 < tan (Py.radians elevation))
    by (apply tan_gt_0; apply radians_first_quadrant; lra).
  assert (Hadj : solar_position_adj solarelevation = Ok elevation)
    by (apply solar_position_adj_value; exact Hr).
  exists elevation. eexists.
  split; [exact Hadj|]. split; [exact Hrange|].
  split; [apply shadow_dimensions_ok; lra|].
  split; [field; lra|].
  unfold shade_coverage. rewrite Hdt. cbn [Py.bind]. rewrite Hsun, Hadj.
  cbn [Py.bind]. rewrite shadow_dimensions_ok by lra. cbn [Py.bind].
  rewrite div_ok by exact Hg. reflexivity.
Qed.

End CoverageFacts.

(** ** The two daily series *)

Section SeriesFacts.

Local Open Scope R_scope.

Lemma fold_left_Rplus xs a : fold_left Rplus xs a = a + Rsum xs.
Proof.
  revert a. induction xs as [|x xs IH]; intros a; simpl; [lra|].
  rewrite IH. lra.
Qed.

Lemma sum_eq_Rsum xs : Py.sum xs = Rsum xs.
Proof. unfold Py.sum. rewrite fold_left_Rplus. lra. Qed.

Lemma et_values_present_all items ets :
  map et items = map Some ets -> et_values_present items = ets.
Proof.
  revert ets. induction items as [|item items IH]; intros [|v ets] H;
    try discriminate; [reflexivity|].
  simpl in H. injection H as Hv Hrest. unfold et_values_present. simpl.
  rewrite Hv. simpl. f_equal. apply IH. exact Hrest.
Qed.

(** [zip_adjust] succeeds exactly on the pairs it reaches, up to the end
    of the shorter sequence. *)
Lemma zip_adjust_ok items : forall daily_shade,
  Forall (fun item => et item <> None) (firstn (length daily_shade) items) ->
  exists adjusted,
    zip_adjust items daily_shade = Ok adjusted
    /\ length adjusted = Nat.min (length items) (length daily_shade)
    /\ forall i item s,
        nth_error items i = Some item -> nth_error daily_shade i = Some s ->
        exists v, et item = Some v
                  /\ nth_error adjusted i = Some (v * (1 - shade s)).
Proof.
  induction items as [|item items IH]; intros daily_shade Hall.
  - exists []. split; [reflexivity|]. split; [reflexivity|].
    intros [|i] ? ? H; discriminate.
  - destruct daily_shade as [|s daily_shade].
    + exists []. split; [reflexivity|]. split; [simpl; lia|].
      intros [|i] ? ? _ H; discriminate.
    + simpl in Hall. inversion Hall as [|? ? Hitem Hrest]; subst.
      destruct (IH daily_shade Hrest) as [adjusted [Hz [Hlen Hnth]]].
      destruct (et item) as [v|] eqn:Hv; [|contradiction].
      exists (v * (1 - shade s) :: adjusted). simpl. rewrite Hv, Hz.
      cbn [Py.bind]. split; [reflexivity|]. split; [simpl; lia|].
      intros [|i] item' s' Hi Hs; simpl in *.
      * injection Hi as <-. injection Hs as <-. exists v. auto.
      * apply Hnth; assumption.
Qed.

Lemma zip_adjust_values items : forall daily_shade adjusted,
  length items = length daily_shade ->
  zip_adjust items daily_shade = Ok adjusted ->
  exists ets, map et items = map Some ets
              /\ adjusted = map (fun p => fst p * (1 - shade (snd p)))
                                (combine ets daily_shade).
Proof.
  induction items as [|item items IH]; intros [|s daily_shade] adjusted Hlen Hz;
    try discriminate.
  - injection Hz as <-. exists []. auto.
  - simpl in Hz. destruct (et item) as [v|] eqn:Hv; [|discriminate].
    destruct (zip_adjust items daily_shade) as [rest|] eqn:Hrest; [|discriminate].
    injection Hz as <-. simpl in Hlen.
    destruct (IH daily_shade rest ltac:(lia) Hrest) as [ets [Hets Hadj]].
    exists (v :: ets). simpl. rewrite Hv, Hets, Hadj. auto.
Qed.

End SeriesFacts.

(** ** The wall clock *)

Module ClockFacts.

Import Datetime DatetimeFacts.
Local Open Scope Z_scope.

Lemma valid_fields d :
  valid d = true ->
  1 <= year d <= 9999 /\ 1 <= month d <= 12
  /\ 1 <= day d <= days_in_month (year d) (month d)
  /\ 0 <= hour d <= 23 /\ 0 <= minute d <= 59 /\ 0 <= second d <= 59
  /\ 0 <= microsecond d <= 999999.
Proof.
  unfold valid. intros H.
  repeat (apply andb_prop in H; destruct H as [H ?]).
  repeat match goal with
  | H : (_ <=? _) = true |- _ => apply Z.leb_le in H
  end.
  lia.
Qed.

Lemma day_of_year_bounds y m d :
  1 <= m <= 12 -> 1 <= d <= days_in_month y m ->
  1 <= days_before_month y m + d <= 365 + (if is_leap y then 1 else 0).
Proof.
  intros Hm. unfold days_before_month, days_in_month.
  assert (Hcases : m = 1 \/ m = 2 \/ m = 3 \/ m = 4 \/ m = 5 \/ m = 6 \/ m = 7
                   \/ m = 8 \/ m = 9 \/ m = 10 \/ m = 11 \/ m = 12) by lia.
  clear Hm. destruct (is_leap y);
    repeat (destruct Hcases as [-> | Hcases]); try subst m;
    cbv - [Z.add Z.le Z.lt]; lia.
Qed.

Lemma days_before_year_succ y :
  days_before_year (y + 1) = days_before_year y + 365 + (if is_leap y then 1 else 0).
Proof.
  unfold days_before_year, is_leap.
  destruct (Z.eqb_spec (y mod 4) 0), (Z.eqb_spec (y mod 100) 0),
    (Z.eqb_spec (y mod 400) 0); simpl; lia_div.
Qed.

Lemma toordinal_bounds d :
  valid d = true ->
  days_before_year (year d) + 1 <= toordinal d <= days_before_year (year d + 1).
Proof.
  intros H. destruct (valid_fields d H) as [Hy [Hm [Hd _]]].
  unfold toordinal, ymd2ord. rewrite days_before_year_succ.
  pose proof (day_of_year_bounds (year d) (month d) (day d) Hm Hd). lia.
Qed.

Lemma days_before_year_mono y1 y2 :
  y1 <= y2 -> days_before_year y1 <= days_before_year y2.
Proof. intros H. unfold days_before_year. lia_div. Qed.

Lemma to_us_day d :
  valid d = true -> to_us d / US_PER_DAY = toordinal d.
Proof.
  intros H. destruct (valid_fields d H) as [_ [_ [_ [Hh [Hmi [Hs Hus]]]]]].
  unfold to_us, US_PER_DAY, US_PER_HOUR, US_PER_MINUTE, US_PER_SECOND. lia_div.
Qed.

Lemma to_us_replace d :
  valid d = true ->
  to_us (replace_second_microsecond_0 d) = floor_minute (to_us d).
Proof.
  intros H. destruct (valid_fields d H) as [_ [_ [_ [Hh [Hmi [Hs Hus]]]]]].
  unfold floor_minute, to_us, replace_second_microsecond_0, toordinal.
  cbn [year month day hour minute second microsecond].
  unfold US_PER_DAY, US_PER_HOUR, US_PER_MINUTE, US_PER_SECOND. lia_div.
Qed.

Lemma exact_minute d :
  valid d = true ->
  (negb (second d =? 0) || negb (microsecond d =? 0) = false
   <-> to_us d mod US_PER_MINUTE = 0).
Proof.
  intros H. destruct (valid_fields d H) as [_ [_ [_ [Hh [Hmi [Hs Hus]]]]]].
  unfold to_us, US_PER_DAY, US_PER_HOUR, US_PER_MINUTE, US_PER_SECOND.
  destruct (Z.eqb_spec (second d) 0), (Z.eqb_spec (microsecond d) 0); simpl;
    split; intros; try discriminate; try reflexivity; try lia_div.
Qed.

Lemma add_in_range d delta :
  0 < (to_us d + delta) / US_PER_DAY <= MAXORDINAL ->
  add d delta = Ok (of_us (to_us d + delta)).
Proof.
  intros [H1 H2]. unfold add.
  apply Z.ltb_lt in H1. apply Z.leb_le in H2. rewrite H1, H2. reflexivity.
Qed.

(** The wall clock of a valid datetime of a year before 9999 leaves room
    for a year of additions. *)
Lemma to_us_room d :
  valid d = true -> year d <= 9998 ->
  US_PER_DAY <= to_us d < (MAXORDINAL - 364) * US_PER_DAY.
Proof.
  intros H Hy. pose proof (to_us_day d H) as Hday.
  pose proof (toordinal_bounds d H) as Hord.
  destruct (valid_fields d H) as [Hy1 _].
  pose proof (days_before_year_mono 1 (year d) ltac:(lia)) as Hlo.
  pose proof (days_before_year_mono (year d + 1) 9999 ltac:(lia)) as Hhi.
  change (days_before_year 1) with 0 in Hlo.
  change (days_before_year 9999) with 3651694 in Hhi.
  unfold MAXORDINAL, US_PER_DAY in *. lia_div.
Qed.

End ClockFacts.

Section LookupFacts.

Local Open Scope Z_scope.

Lemma min_key_from_first_minimal {A : Type} (key : A -> Z) (xs : list A) :
  forall best,
  exists before after,
    best :: xs = before ++ Py.min_key_from key best xs :: after
    /\ (forall p, In p before -> key (Py.min_key_from key best xs) < key p)
    /\ (forall p, In p after -> key (Py.min_key_from key best xs) <= key p).
Proof.
  induction xs as [|x xs IH]; intros best.
  - exists [], []. simpl. repeat split; intros p [].
  - simpl. destruct (Z.ltb_spec (key x) (key best)) as [Hlt|Hge].
    + destruct (IH x) as [before [after [Heq [Hb Ha]]]].
      set (r := Py.min_key_from key x xs) in *.
      assert (Hrx : key r <= key x).
      { destruct before as [|b before].
        - simpl in Heq. injection Heq as Hx _. rewrite <- Hx. lia.
        - simpl in Heq. injection Heq as Hx _. subst b.
          specialize (Hb x (or_introl eq_refl)). lia. }
      exists (best :: before), after. rewrite Heq. split; [reflexivity|].
      split; [|exact Ha].
      intros p [<- | Hp]; [lia | apply Hb; exact Hp].
    + destruct (IH best) as [before [after [Heq [Hb Ha]]]].
      set (r := Py.min_key_from key best xs) in *.
      destruct before as [|b before].
      * simpl in Heq. injection Heq as Hr Hxs.
        exists [], (x :: xs). rewrite <- Hr. split; [reflexivity|].
        split; [intros p []|].
        intros p [<- | Hp]; [exact Hge|].
        rewrite Hr. apply Ha. rewrite <- Hxs. exact Hp.
      * simpl in Heq. injection Heq as Hbest Hxs. subst b.
        exists (best :: x :: before), after. rewrite Hxs.
        split; [reflexivity|]. split; [|exact Ha].
        pose proof (Hb best (or_introl eq_refl)) as Hrb.
        intros p [<- | [<- | Hp]]; [exact Hrb | lia |].
        apply Hb. right. exact Hp.
Qed.

End LookupFacts.

(** ** The daily loop *)

Section LoopFacts.

Import Datetime DatetimeFacts ClockFacts.
Local Open Scope Z_scope.

Lemma hourly_instants_succ first n :
  hourly_instants first (S n) = first :: hourly_instants (first + US_PER_HOUR) n.
Proof.
  unfold hourly_instants. cbn [seq map]. f_equal; [lia|].
  rewrite <- seq_shift, map_map. apply map_ext. intros k. lia.
Qed.

Lemma aware_add_in_range u off delta :
  0 < (u + delta) / US_PER_DAY <= MAXORDINAL ->
  aware_add (mk_aware (of_us u) off) delta = Ok (mk_aware (of_us (u + delta)) off).
Proof.
  intros H. unfold aware_add. cbn [naive utcoffset].
  rewrite add_in_range; rewrite to_us_of_us; [reflexivity | exact H].
Qed.

(** The loop takes one sample per hourly instant up to the rounded sunset
    and adds it to the running total; a bound [steps] of at least the
    number of those instants never cuts the loop short. *)
Lemma sunrise_to_sunset_loop_spec sample sunset_rounded off :
  forall n steps u total count,
  (n <= steps)%nat ->
  n = Z.to_nat ((utc_us sunset_rounded - (u - off)) / US_PER_HOUR + 1) ->
  0 < u / US_PER_DAY ->
  (u + Z.of_nat n * US_PER_HOUR) / US_PER_DAY <= MAXORDINAL ->
  sunrise_to_sunset_loop steps sample sunset_rounded (mk_aware (of_us u) off)
                         total count
  = (samples <-
       mapM (fun t => sample ((t / US_PER_HOUR) mod 24) ((t / US_PER_MINUTE) mod 60))
            (hourly_instants u n) ;;
     Ok (fold_left Rplus samples total, count + Z.of_nat (length samples))).
Proof.
  induction n as [|n IH]; intros steps u total count Hsteps Hn Hlo Hhi.
  - cbn [hourly_instants seq map mapM Py.bind fold_left length].
    rewrite Z.add_0_r. destruct steps as [|steps]; [reflexivity|].
    cbn [sunrise_to_sunset_loop].
    replace (aware_le (mk_aware (of_us u) off) sunset_rounded) with false;
      [reflexivity|].
    symmetry. unfold aware_le, utc_us at 1. cbn [naive utcoffset].
    rewrite to_us_of_us. apply Z.leb_gt. unfold US_PER_HOUR in Hn. lia_div.
  - destruct steps as [|steps]; [lia|].
    rewrite hourly_instants_succ. cbn [sunrise_to_sunset_loop mapM].
    assert (Hle : aware_le (mk_aware (of_us u) off) sunset_rounded = true).
    { unfold aware_le, utc_us at 1. cbn [naive utcoffset]. rewrite to_us_of_us.
      apply Z.leb_le. unfold US_PER_HOUR in Hn. lia_div. }
    rewrite Hle. cbn [naive]. rewrite hour_of_us, minute_of_us.
    destruct (sample ((u / US_PER_HOUR) mod 24) ((u / US_PER_MINUTE) mod 60))
      as [shade_cover|e]; [|reflexivity].
    cbn [Py.bind].
    rewrite aware_add_in_range
      by (unfold US_PER_HOUR, US_PER_DAY, MAXORDINAL in *; lia_div).
    cbn [Py.bind].
    rewrite IH; try (unfold US_PER_HOUR, US_PER_DAY in *; lia_div).
    destruct (mapM _ (hourly_instants (u + US_PER_HOUR) n)) as [samples|e];
      [|reflexivity].
    cbn [Py.bind fold_left length]. do 2 f_equal. lia.
Qed.

End LoopFacts.

Section DailyFacts.

Import Datetime DatetimeFacts ClockFacts.
Local Open Scope Z_scope.

(** The rounded sunrise: the wall clock rounded up to a minute. *)
Lemma sunrise_rounded_value sunrise :
  in_calendar sunrise ->
  aware_add (aware_replace_second_microsecond_0 sunrise)
    (if negb (second (naive sunrise) =? 0) || negb (microsecond (naive sunrise) =? 0)
     then US_PER_MINUTE else 0)
  = Ok (mk_aware (of_us (ceil_minute (to_us (naive sunrise)))) (utcoffset sunrise))
  /\ to_us (naive sunrise) <= ceil_minute (to_us (naive sunrise))
     <= to_us (naive sunrise) + US_PER_MINUTE
  /\ US_PER_DAY <= ceil_minute (to_us (naive sunrise)).
Proof.
  intros [Hvalid [Hyear Hoff]].
  pose proof (to_us_room _ Hvalid Hyear) as Hroom.
  pose proof (to_us_replace _ Hvalid) as Hfloor.
  pose proof (exact_minute _ Hvalid) as Hexact.
  assert (Hceil : ceil_minute (to_us (naive sunrise))
                  = to_us (replace_second_microsecond_0 (naive sunrise))
                    + (if negb (second (naive sunrise) =? 0)
                          || negb (microsecond (naive sunrise) =? 0)
                       then US_PER_MINUTE else 0)).
  { rewrite Hfloor. unfold ceil_minute.
    destruct (negb (second (naive sunrise) =? 0)
              || negb (microsecond (naive sunrise) =? 0)).
    - destruct (Z.eqb_spec (to_us (naive sunrise) mod US_PER_MINUTE) 0) as [E|E];
        [|reflexivity].
      apply Hexact in E. discriminate.
    - rewrite (proj1 Hexact eq_refl). simpl.
      unfold floor_minute, US_PER_MINUTE in *.
      pose proof (proj1 Hexact eq_refl). lia_div. }
  assert (Hbounds : to_us (naive sunrise) <= ceil_minute (to_us (naive sunrise))
                    <= to_us (naive sunrise) + US_PER_MINUTE).
  { unfold ceil_minute, floor_minute, US_PER_MINUTE.
    destruct (Z.eqb_spec (to_us (naive sunrise) mod 60000000) 0); lia_div. }
  split; [|split; [exact Hbounds | lia]].
  unfold aware_add, aware_replace_second_microsecond_0. cbn [naive utcoffset].
  rewrite add_in_range; rewrite <- Hceil; [reflexivity|].
  unfold US_PER_DAY, US_PER_MINUTE, MAXORDINAL in *. lia_div.
Qed.

(** The rounded sunset: the wall clock rounded down to a minute. *)
Lemma sunset_rounded_value sunset :
  in_calendar sunset ->
  utc_us (aware_replace_second_microsecond_0 sunset)
  = floor_minute (to_us (naive sunset)) - utcoffset sunset.
Proof.
  intros [Hvalid _]. unfold utc_us, aware_replace_second_microsecond_0.
  cbn [naive utcoffset]. rewrite to_us_replace by exact Hvalid. reflexivity.
Qed.

Lemma hourly_steps_value first off sunset :
  in_calendar sunset ->
  hourly_steps (mk_aware (of_us first) off)
               (aware_replace_second_microsecond_0 sunset)
  = Z.to_nat ((floor_minute (to_us (naive sunset)) - utcoffset sunset
               - (first - off)) / US_PER_HOUR + 1).
Proof.
  intros H. unfold hourly_steps. rewrite (sunset_rounded_value _ H).
  unfold utc_us. cbn [naive utcoffset]. rewrite to_us_of_us. reflexivity.
Qed.

End DailyFacts.

Section DegenerateFacts.

Import Datetime DatetimeFacts ClockFacts.
Local Open Scope Z_scope.

Variable solar_angles_skyfield : R -> R -> Datetime.t -> R * R.
Variable get_timezone_str : R -> R -> string.
Variable pytz_utcoffset : string -> Datetime.t -> Z.

Variable sunrise_sunset_pairs : list sunrise_sunset_pair.
Variables month day : Z.
Variables lat lon : R.
Variable year : Z.
Variables ground_area height width tilt max_rotation : R.
Variable timezone : Z.

(** The loop of a day, after the lookup and the two roundings. *)
Lemma iterate_sunrise_to_sunset_loop target_date sunrise sunset :
  make year month day 0 0 0 = Ok target_date ->
  find_closest_sunrise_sunset get_timezone_str pytz_utcoffset
    sunrise_sunset_pairs target_date lat lon = Ok (sunrise, sunset) ->
  in_calendar sunrise -> in_calendar sunset ->
  iterate_sunrise_to_sunset solar_angles_skyfield get_timezone_str
     pytz_utcoffset sunrise_sunset_pairs month day lat lon year ground_area
     height width tilt max_rotation timezone
  = (totals <-
       sunrise_to_sunset_loop
         (Z.to_nat ((floor_minute (to_us (naive sunset)) - utcoffset sunset
                     - (ceil_minute (to_us (naive sunrise)) - utcoffset sunrise))
                    / US_PER_HOUR + 1))
         (fun hour minute =>
     shade_coverage solar_angles_skyfield lat lon year ground_area height width
       tilt hour max_rotation timezone month day minute)
         (aware_replace_second_microsecond_0 sunset)
         (mk_aware (of_us (ceil_minute (to_us (naive sunrise)))) (utcoffset sunrise))
         0%R 0 ;;
     let '(total_shade_coverage, count) := totals in
     if count =? 0 then Ok 0%R else Py.div total_shade_coverage (IZR count)).
Proof.
  intros Htarget Hfind Hsunrise Hsunset.
  unfold iterate_sunrise_to_sunset.
  rewrite Htarget. cbn [Py.bind]. rewrite Hfind. cbn [Py.bind].
  destruct (sunrise_rounded_value sunrise Hsunrise) as [Hround _].
  rewrite Hround. cbn [Py.bind].
  rewrite (hourly_steps_value _ _ _ Hsunset). reflexivity.
Qed.

(** Sunrise and sunset at one instant that is not a whole minute: no
    sample, the shade is 0. *)
Lemma degenerate_no_sample target_date sunrise sunset :
  make year month day 0 0 0 = Ok target_date ->
  find_closest_sunrise_sunset get_timezone_str pytz_utcoffset
    sunrise_sunset_pairs target_date lat lon = Ok (sunrise, sunset) ->
  in_calendar sunrise -> in_calendar sunset ->
  utc_us sunrise = utc_us sunset ->
  second (naive sunrise) <> 0 \/ microsecond (naive sunrise) <> 0 ->
  iterate_sunrise_to_sunset solar_angles_skyfield get_timezone_str
     pytz_utcoffset sunrise_sunset_pairs month day lat lon year ground_area
     height width tilt max_rotation timezone
  = Ok 0%R.
Proof.
  intros Htarget Hfind Hsunrise Hsunset Hsame Hinexact.
  rewrite (iterate_sunrise_to_sunset_loop _ _ _ Htarget Hfind Hsunrise Hsunset).
  assert (Hmod : to_us (naive sunrise) mod US_PER_MINUTE <> 0).
  { intros E. apply (exact_minute _ (proj1 Hsunrise)) in E.
    apply orb_false_elim in E. destruct E as [E1 E2].
    apply negb_false_iff in E1, E2. apply Z.eqb_eq in E1, E2. lia. }
  replace (Z.to_nat _) with 0%nat; [reflexivity|].
  symmetry. unfold utc_us in Hsame.
  unfold ceil_minute, floor_minute, US_PER_MINUTE, US_PER_HOUR in *.
  destruct (Z.eqb_spec (to_us (naive sunrise) mod 60000000) 0); [contradiction|].
  lia_div.
Qed.

(** Sunrise and sunset at one instant that is a whole minute: one sample,
    which is the shade of the day. *)
Lemma degenerate_single_sample target_date sunrise sunset shade_cover :
  make year month day 0 0 0 = Ok target_date ->
  find_closest_sunrise_sunset get_timezone_str pytz_utcoffset
    sunrise_sunset_pairs target_date lat lon = Ok (sunrise, sunset) ->
  in_calendar sunrise -> in_calendar sunset ->
  utc_us sunrise = utc_us sunset ->
  second (naive sunrise) = 0 /\ microsecond (naive sunrise) = 0 ->
  second (naive sunset) = 0 /\ microsecond (naive sunset) = 0 ->
  shade_coverage solar_angles_skyfield lat lon year ground_area height width
    tilt (hour (naive sunrise)) max_rotation timezone month day
    (minute (naive sunrise)) = Ok shade_cover ->
  exists value,
    iterate_sunrise_to_sunset solar_angles_skyfield get_timezone_str
      pytz_utcoffset sunrise_sunset_pairs month day lat lon year ground_area
      height width tilt max_rotation timezone = Ok value
    /\ value = shade_cover.
Proof.
  intros Htarget Hfind Hsunrise Hsunset Hsame [Hs1 Hus1] [Hs2 Hus2] Hsample.
  assert (Hexact1 : to_us (naive sunrise) mod US_PER_MINUTE = 0)
    by (apply (exact_minute _ (proj1 Hsunrise)); rewrite Hs1, Hus1; reflexivity).
  assert (Hexact2 : to_us (naive sunset) mod US_PER_MINUTE = 0)
    by (apply (exact_minute _ (proj1 Hsunset)); rewrite Hs2, Hus2; reflexivity).
  clear Hs1 Hus1 Hs2 Hus2.
  rewrite (iterate_sunrise_to_sunset_loop _ _ _ Htarget Hfind Hsunrise Hsunset).
  destruct (sunrise_rounded_value sunrise Hsunrise) as [_ [_ Hday]].
  assert (Hfirst : ceil_minute (to_us (naive sunrise)) = to_us (naive sunrise)).
  { unfold ceil_minute. rewrite Hexact1. reflexivity. }
  assert (Hlast : floor_minute (to_us (naive sunset)) = to_us (naive sunset)).
  { unfold floor_minute, US_PER_MINUTE in *. lia_div. }
  rewrite Hfirst, Hlast in *.
  replace (Z.to_nat _) with 1%nat
    by (unfold utc_us in Hsame; unfold US_PER_HOUR; lia_div).
  destruct Hsunrise as [Hv1 [Hy1 Ho1]].
  pose proof (to_us_room _ Hv1 Hy1) as Hroom.
  destruct (valid_fields _ Hv1) as [_ [_ [_ [Hh [Hmi [Hs Hus]]]]]].
  rewrite (sunrise_to_sunset_loop_spec _ _ _ 1 1).
  - rewrite hourly_instants_succ. cbn [hourly_instants seq map mapM].
    replace ((to_us (naive sunrise) / US_PER_HOUR) mod 24) with (hour (naive sunrise))
      by (unfold to_us, US_PER_DAY, US_PER_HOUR, US_PER_MINUTE, US_PER_SECOND;
          lia_div).
    replace ((to_us (naive sunrise) / US_PER_MINUTE) mod 60)
      with (minute (naive sunrise))
      by (unfold to_us, US_PER_DAY, US_PER_HOUR, US_PER_MINUTE, US_PER_SECOND;
          lia_div).
    rewrite Hsample. cbn [Py.bind fold_left length].
    replace (0 + Z.of_nat 1 =? 0) with false by reflexivity.
    rewrite div_ok by (apply not_0_IZR; lia).
    eexists. split; [reflexivity|]. simpl. lra.
  - apply Nat.le_refl.
  - rewrite (sunset_rounded_value sunset Hsunset), Hlast.
    unfold utc_us in Hsame. unfold US_PER_HOUR. lia_div.
  - unfold US_PER_DAY in *. lia_div.
  - unfold US_PER_HOUR, US_PER_DAY, MAXORDINAL in *. lia_div.
Qed.

Lemma make_raises y m d h mi s e :
  make y m d h mi s = Raise e -> e = Py.ValueError.
Proof. unfold make. destruct (valid _); intros [=]; auto. Qed.

Lemma find_closest_raises pairs target_date e :
  find_closest_sunrise_sunset get_timezone_str pytz_utcoffset pairs target_date
    lat lon = Raise e ->
  e = Py.ValueError.
Proof.
  unfold find_closest_sunrise_sunset, Py.min_key. destruct pairs; intros [=]; auto.
Qed.

Lemma aware_add_raises a delta e :
  aware_add a delta = Raise e -> e = Py.OverflowError.
Proof.
  unfold aware_add, add. destruct (_ && _); cbn [Py.bind]; intros [=]; auto.
Qed.

Lemma sunrise_to_sunset_loop_never_divides (sample : Z -> Z -> Py.result R)
    sunset_rounded :
  (forall hour minute, sample hour minute <> Raise Py.ZeroDivisionError) ->
  forall n current total count,
    sunrise_to_sunset_loop n sample sunset_rounded current total count
    <> Raise Py.ZeroDivisionError.
Proof.
  intros Hsample. induction n as [|n IH]; intros current total count;
    [discriminate|].
  cbn [sunrise_to_sunset_loop].
  destruct (aware_le _ _); [|discriminate].
  destruct (sample _ _) as [shade_cover|e] eqn:Hs.
  - cbn [Py.bind].
    destruct (aware_add current US_PER_HOUR) as [next|e] eqn:Hnext;
      cbn [Py.bind]; [apply IH|].
    apply aware_add_raises in Hnext. subst e. discriminate.
  - cbn [Py.bind]. intros E. injection E as ->. exact (Hsample _ _ Hs).
Qed.

(** The averaging division never divides by zero: a [ZeroDivisionError]
    of the day can only come from a sample. *)
Lemma averaging_never_divides_by_zero :
  (forall hour minute,
      shade_coverage solar_angles_skyfield lat lon year ground_area height
        width tilt hour max_rotation timezone month day minute
      <> Raise Py.ZeroDivisionError) ->
  iterate_sunrise_to_sunset solar_angles_skyfield get_timezone_str
    pytz_utcoffset sunrise_sunset_pairs month day lat lon year ground_area
    height width tilt max_rotation timezone
  <> Raise Py.ZeroDivisionError.
Proof.
  intros Hsample. unfold iterate_sunrise_to_sunset.
  destruct (make year month day 0 0 0) as [target_date|e] eqn:Htarget;
    cbn [Py.bind];
    [|apply make_raises in Htarget; subst e; discriminate].
  destruct (find_closest_sunrise_sunset _ _ _ _ _ _) as [[sunrise sunset]|e] eqn:Hfind;
    cbn [Py.bind];
    [|apply find_closest_raises in Hfind; subst e; discriminate].
  destruct (aware_add _ _) as [sunrise_rounded|e] eqn:Hadd;
    cbn [Py.bind];
    [|apply aware_add_raises in Hadd; subst e; discriminate].
  pose proof (sunrise_to_sunset_loop_never_divides _
                (aware_replace_second_microsecond_0 sunset) Hsample
                (hourly_steps sunrise_rounded
                   (aware_replace_second_microsecond_0 sunset))
                sunrise_rounded 0%R 0) as Hloop.
  destruct (sunrise_to_sunset_loop _ _ _ _ _ _) as [[total count]|e];
    cbn [Py.bind]; [|intros E; injection E as ->; apply Hloop; reflexivity].
  destruct (Z.eqb_spec count 0); [discriminate|].
  rewrite div_ok by (apply not_0_IZR; assumption). discriminate.
Qed.

End DegenerateFacts.

(** * The claims *)

Ltac calendar_facts :=
  repeat split; vm_compute;
  first [reflexivity | let H := fresh in intros H; discriminate H].

Section GeometryClaims.

Local Open Scope R_scope.

(** C5.  For every solar azimuth and every rotation limit
    [max_rotation >= 0], the structure azimuth that [shade_coverage] computes
    lies in [[-max_rotation, max_rotation]]; with [max_rotation = 0] it is 0
    whatever the azimuth. *)
Theorem azimuth_blume_within_max_rotation (azimuth max_rotation : R) :
  0 <= max_rotation ->
  - max_rotation <= azimuth_blume (azimuth_S azimuth) max_rotation <= max_rotation
  /\ (max_rotation = 0 -> azimuth_blume (azimuth_S azimuth) max_rotation = 0).
Proof.
  intros Hm. unfold azimuth_blume, Py.min, Py.max.
  destruct (Rlt_dec (azimuth_S azimuth) (- max_rotation));
    match goal with |- context [Rlt_dec ?a ?b] => destruct (Rlt_dec a b) end;
    repeat split; intros; lra.
Qed.

Lemma azimuth_blume_within_max_rotation_witness :
  - 45 <= azimuth_blume (azimuth_S 0) 45 <= 45
  /\ (45 = 0 -> azimuth_blume (azimuth_S 0) 45 = 0).
Proof. apply (azimuth_blume_within_max_rotation 0 45). lra. Defined.



(** C3 (amended).  For every elevation [e > 0] the refraction is defined
    and is at least 0.  The four-branch model is not continuous at 5 and
    at -0.575 degrees: the value at 5 is 574.625 arcseconds and exceeds 576
    just above, the value at -0.575 exceeds 2069.7 arcseconds and is below
    2069.67 just above. *)
Theorem atmospheric_refraction_nonneg :
  (forall e, 0 < e -> exists r, atmospheric_refraction e = Ok r /\ 0 <= r)
  /\ (atmospheric_refraction 5 = Ok 574.625
      /\ forall e, 5 < e <= 5.001 ->
                   exists r, atmospheric_refraction e = Ok r /\ 576 < r)
  /\ ((exists r, atmospheric_refraction (-0.575) = Ok r /\ 2069.7 < r)
      /\ forall e, -0.575 < e <= -0.5 ->
                   exists r, atmospheric_refraction e = Ok r /\ r < 2069.67).
Proof.
  split; [|split].
  - intros e He.
    destruct (Rlt_dec 85 e) as [H85|H85].
    { exists 0. split; [apply atmospheric_refraction_high; exact H85 | lra]. }
    destruct (Rlt_dec 5 e) as [H5|H5].
    { destruct (atmospheric_refraction_mid e) as [Hr Ht]; [lra|].
      eexists. split; [exact Hr|]. apply Rlt_le, refraction_mid_pos, Ht. }
    eexists. split; [apply atmospheric_refraction_low; lra|].
    apply Rlt_le, refraction_low_pos. lra.
  - split; [exact refraction_at_5 | exact refraction_above_5].
  - split; [exact refraction_at_minus_0575 | exact refraction_above_minus_0575].
Qed.

Lemma atmospheric_refraction_nonneg_witness :
  exists r, atmospheric_refraction 45 = Ok r /\ 0 <= r.
Proof. apply (proj1 atmospheric_refraction_nonneg 45). lra. Defined.

(** C3, counterexample.  At the boundary of 85 degrees the refraction is
    more than 5.08 arcseconds, and it is 0 at every elevation above: the
    limits on the two sides differ. *)
Lemma atmospheric_refraction_jump_at_85 :
  exists r, atmospheric_refraction 85 = Ok r
            /\ 5.08 < r
            /\ forall e, 85 < e -> atmospheric_refraction e = Ok 0.
Proof.
  destruct refraction_at_85 as [r [Hr Hgt]].
  exists r. split; [exact Hr|]. split; [exact Hgt|].
  exact atmospheric_refraction_high.
Qed.

End GeometryClaims.

Section CoverageClaims.

Local Open Scope R_scope.

(** C2 (amended).  For a positive ground area, a valid date and an
    elevation in the physical range, [shade_coverage] returns
    [min(1, area / ground_area)] for the footprint area that
    [shadow_dimensions] computes; the value is never above 1, and it is at
    least 0 exactly when the footprint area is. *)
Theorem shade_coverage_at_most_1
    (solar_angles_skyfield : R -> R -> Datetime.t -> R * R)
    lat lon local_year ground_area height width tilt
    local_hour max_rotation timezone local_month local_day local_minute
    dt solarelevation azimuth :
  0 < ground_area ->
  dt_utc local_year local_month local_day local_hour local_minute timezone = Ok dt ->
  solar_angles_skyfield lat lon dt = (solarelevation, azimuth) ->
  -90 < solarelevation < 90 ->
  exists elevation area coverage,
    solar_position_adj solarelevation = Ok elevation
    /\ shadow_dimensions height width tilt elevation (azimuth_S azimuth)
         (azimuth_blume (azimuth_S azimuth) max_rotation) = Ok area
    /\ shade_coverage solar_angles_skyfield lat lon local_year ground_area height
         width tilt local_hour max_rotation timezone local_month local_day
         local_minute = Ok coverage
    /\ coverage = Rmin 1 (area / ground_area)
    /\ coverage <= 1
    /\ (0 <= coverage <-> 0 <= area).
Proof.
  intros Hg Hdt Hsun Hel.
  destruct (shade_coverage_value solar_angles_skyfield lat lon local_year
              ground_area height width tilt local_hour max_rotation timezone
              local_month local_day local_minute dt solarelevation azimuth)
    as [elevation [area [Hadj [_ [Hsh [_ Hcov]]]]]]; try assumption; [lra|].
  exists elevation, area, (Py.min 1 (area / ground_area)).
  split; [exact Hadj|]. split; [exact Hsh|]. split; [exact Hcov|].
  rewrite min_eq_Rmin. split; [reflexivity|]. split; [apply Rmin_l|].
  assert (Hq : 0 <= area / ground_area <-> 0 <= area).
  { split; intros H.
    - apply Rmult_le_reg_r with (/ ground_area);
        [apply Rinv_0_lt_compat; exact Hg | unfold Rdiv in H; lra].
    - apply Rmult_le_pos; [exact H | apply Rlt_le, Rinv_0_lt_compat; exact Hg]. }
  unfold Rmin. destruct (Rle_dec 1 (area / ground_area)); [|exact Hq].
  split; intros; [apply Hq|]; lra.
Qed.

Lemma shade_coverage_at_most_1_witness :
  exists elevation area coverage,
    solar_position_adj 45 = Ok elevation
    /\ shadow_dimensions 22.3 18.3 35 elevation (azimuth_S 0)
         (azimuth_blume (azimuth_S 0) 45) = Ok area
    /\ shade_coverage sun_due_north (-45) 170 2022 1296 22.3 18.3 35 12 45 12 3 21 0
       = Ok coverage
    /\ coverage = Rmin 1 (area / 1296)
    /\ coverage <= 1
    /\ (0 <= coverage <-> 0 <= area).
Proof.
  apply (shade_coverage_at_most_1 sun_due_north (-45) 170 2022 1296 22.3 18.3 35
           12 45 12 3 21 0 (Datetime.mk 2022 3 21 0 0 0 0) 45 0);
    [lra | reflexivity | reflexivity | lra].
Defined.

(** C2, counterexample.  With the default structure (height 22.3, width
    18.3, tilt 35, rotation limit 45, ground cell 36 x 36) and the sun due
    north at 45 degrees, the coverage returned is negative. *)
Lemma shade_coverage_negative :
  exists coverage,
    shade_coverage sun_due_north (-45) 170 2022 1296 22.3 18.3 35 12 45 12 3 21 0
    = Ok coverage
    /\ coverage < 0.
Proof.
  destruct (shade_coverage_value sun_due_north (-45) 170 2022 1296 22.3 18.3 35
              12 45 12 3 21 0 (Datetime.mk 2022 3 21 0 0 0 0) 45 0)
    as [elevation [area [Hadj [Hrange [Hsh [Harea Hcov]]]]]];
    [lra | reflexivity | reflexivity | lra |].
  eexists. split; [exact Hcov|].
  pose proof elevation_floor_pos as Hfloor. pose proof PI_gt_3 as HPI.
  pose proof PI_4 as HPI4.
  assert (Htan : 0 < tan (Py.radians elevation))
    by (apply tan_gt_0; apply radians_first_quadrant; lra).
  assert (Hcos : 0 < cos (Py.radians 35))
    by (apply cos_gt_0; unfold Py.radians; lra).
  assert (Hblume : azimuth_blume (azimuth_S 0) 45 = 45).
  { unfold azimuth_blume, azimuth_S. rewrite min_eq_Rmin, max_eq_Rmax.
    rewrite Rmax_left by lra. apply Rmin_right. lra. }
  assert (Hwidth : cos (Py.radians (azimuth_blume (azimuth_S 0) 45 - azimuth_S 0)) < 0).
  { rewrite Hblume. unfold azimuth_S.
    replace (Py.radians (45 - (180 - 0))) with (- (3 * (PI / 4)))
      by (unfold Py.radians; lra).
    rewrite cos_neg. apply cos_lt_0; lra. }
  assert (Hlen : 0 < 22.3 * cos (Py.radians 35) / tan (Py.radians elevation)
                     + 22.3 * cos (Py.radians 35)).
  { assert (0 < 22.3 * cos (Py.radians 35) / tan (Py.radians elevation))
      by (apply Rdiv_lt_0_compat; lra). lra. }
  assert (Hneg : area < 0) by (rewrite Harea; nra).
  assert (Hq : area / 1296 < 0) by lra.
  rewrite min_eq_Rmin. pose proof (Rmin_r 1 (area / 1296)). lra.
Qed.

End CoverageClaims.

Section SeriesClaims.

Local Open Scope R_scope.
Local Open Scope string_scope.

(** C1 (amended).  When the ET result is absent (the fetch failed or
    returned an empty list) the adjustment raises: [zip] of [None] is a
    [TypeError], and [adjusted_evapotranspiration] ends in an exception.
    When both sequences are there it does not compare their lengths or
    their dates: it pairs the entries by position up to the end of the
    shorter sequence and, if each ET entry reached has an ['et'], returns
    [et * (1 - shade)] for every pair. *)
Theorem adjusted_et_values_pairs_by_position
    (solar_angles_skyfield : R -> R -> Datetime.t -> R * R)
    (get_timezone_str : R -> R -> string)
    (pytz_utcoffset : string -> Datetime.t -> Z)
    (find_discrete_sunrise_sunset :
       string -> R -> R -> Datetime.t -> list Datetime.aware)
    (get_et_data : R -> R -> string -> list string -> option (list et_record))
    (api_key : string) :
  (forall daily_shade, adjusted_et_values None daily_shade = Raise Py.TypeError)
  /\ (forall lat lon year ground_area height width tilt max_rotation timezone,
        (forall date, get_et_data lat lon api_key date = None
                      \/ get_et_data lat lon api_key date = Some []) ->
        exists e,
          adjusted_evapotranspiration solar_angles_skyfield get_timezone_str
            pytz_utcoffset find_discrete_sunrise_sunset get_et_data api_key
            lat lon year ground_area height width tilt max_rotation timezone
          = Raise e)
  /\ (forall items daily_shade,
        Forall (fun item => et item <> None)
               (firstn (length daily_shade) items) ->
        exists adjusted,
          adjusted_et_values (Some items) daily_shade = Ok adjusted
          /\ length adjusted = Nat.min (length items) (length daily_shade)
          /\ forall i item s,
              nth_error items i = Some item ->
              nth_error daily_shade i = Some s ->
              exists v, et item = Some v
                        /\ nth_error adjusted i = Some (v * (1 - shade s))%R).
Proof.
  split; [reflexivity|]. split.
  - intros lat lon year ground_area height width tilt max_rotation timezone Hfetch.
    unfold adjusted_evapotranspiration.
    destruct (Datetime.make year 1 1 0 0 0) as [start_date|e]; [|eexists; reflexivity].
    cbn [Py.bind].
    destruct (sunrise_sunset_times _ _ lat lon year) as [pairs|e];
      [|eexists; reflexivity].
    cbn [Py.bind].
    destruct (iterate_through_year _ _ _ lat lon year ground_area height width
                tilt max_rotation timezone pairs) as [daily_shade|e];
      [|eexists; reflexivity].
    cbn [Py.bind]. unfold evapotranspiration.
    destruct (Hfetch [Datetime.four_digits (Datetime.year start_date) ++ "-01-01";
                      Datetime.four_digits (Datetime.year start_date) ++ "-12-31"])
      as [-> | ->]; eexists; reflexivity.
  - intros items daily_shade Hall. apply zip_adjust_ok. exact Hall.
Qed.

Lemma adjusted_et_values_pairs_by_position_witness :
  exists adjusted,
    adjusted_et_values
      (Some [mk_et "2022-01-01" (Some 3%R); mk_et "2022-01-02" (Some 4%R)])
      [mk_shade "2022-01-01" 0.5%R] = Ok adjusted
    /\ length adjusted = 1%nat.
Proof.
  destruct (adjusted_et_values_pairs_by_position
              (fun _ _ _ => (0%R, 0%R)) (fun _ _ => "UTC") (fun _ _ => 0%Z)
              (fun _ _ _ _ => []) (fun _ _ _ _ => None) "") as [_ [_ H]].
  destruct (H [mk_et "2022-01-01" (Some 3%R); mk_et "2022-01-02" (Some 4%R)]
              [mk_shade "2022-01-01" 0.5%R]) as [adjusted [Hadj [Hlen _]]].
  - simpl. constructor; [discriminate | constructor].
  - exists adjusted. split; [exact Hadj | exact Hlen].
Defined.

(** C1, counterexample.  A one-entry ET sequence against a two-entry shade
    sequence, and a one-entry ET sequence dated in another year than the
    shade entry: both are adjusted without any error, the first one cut to
    the shorter length. *)
Lemma adjusted_et_values_no_alignment_error :
  adjusted_et_values
    (Some [mk_et "2022-01-01" (Some 3%R)])
    [mk_shade "2022-01-01" 0.5%R; mk_shade "2022-01-02" 0.25%R]
  = Ok [(3 * (1 - 0.5))%R]
  /\ adjusted_et_values
       (Some [mk_et "2021-06-30" (Some 3%R)])
       [mk_shade "2022-01-01" 0.5%R]
     = Ok [(3 * (1 - 0.5))%R].
Proof. split; reflexivity. Qed.

(** C6.  For an ET sequence and the adjusted sequence computed from it
    and an aligned shade sequence, [water_saved] returns the sum of the ET
    values less the sum of the adjusted values. *)
Theorem water_saved_is_difference_of_sums
    (items : list et_record) (daily_shade : list shade_record)
    (adjusted : list R) :
  length items = length daily_shade ->
  adjusted_et_values (Some items) daily_shade = Ok adjusted ->
  exists ets,
    map et items = map Some ets
    /\ adjusted = map (fun p => fst p * (1 - shade (snd p)))%R
                      (combine ets daily_shade)
    /\ water_saved (Some items) adjusted = Ok (Rsum ets - Rsum adjusted)%R.
Proof.
  intros Hlen Hadj.
  destruct (zip_adjust_values items daily_shade adjusted Hlen Hadj)
    as [ets [Hets Hval]].
  exists ets. split; [exact Hets|]. split; [exact Hval|].
  unfold water_saved. rewrite (et_values_present_all _ _ Hets), !sum_eq_Rsum.
  reflexivity.
Qed.

Lemma water_saved_is_difference_of_sums_witness :
  exists ets,
    map et [mk_et "2022-01-01" (Some 3%R); mk_et "2022-01-02" (Some 4%R)]
    = map Some ets
    /\ [(3 * (1 - 0.5))%R; (4 * (1 - 0.25))%R]
       = map (fun p => fst p * (1 - shade (snd p)))%R
             (combine ets [mk_shade "2022-01-01" 0.5%R; mk_shade "2022-01-02" 0.25%R])
    /\ water_saved
         (Some [mk_et "2022-01-01" (Some 3%R); mk_et "2022-01-02" (Some 4%R)])
         [(3 * (1 - 0.5))%R; (4 * (1 - 0.25))%R]
       = Ok (Rsum ets - Rsum [(3 * (1 - 0.5))%R; (4 * (1 - 0.25))%R])%R.
Proof.
  apply (water_saved_is_difference_of_sums
           [mk_et "2022-01-01" (Some 3%R); mk_et "2022-01-02" (Some 4%R)]
           [mk_shade "2022-01-01" 0.5%R; mk_shade "2022-01-02" 0.25%R]);
    reflexivity.
Defined.

End SeriesClaims.

Section ClockClaims.

Local Open Scope Z_scope.
Import Datetime DatetimeFacts ClockFacts.

(** C8.  On a non-empty sequence of stored pairs the lookup returns a
    stored pair whose sunrise is nearest, in absolute time, to the local
    midnight of the target date, and the first such pair of the sequence:
    every pair before it is strictly farther, every pair after it is at
    least as far. *)
Theorem find_closest_sunrise_sunset_nearest
    (get_timezone_str : R -> R -> string)
    (pytz_utcoffset : string -> Datetime.t -> Z)
    (sunrise_sunset_pairs : list sunrise_sunset_pair)
    (target_date : Datetime.t) (lat lon : R) :
  sunrise_sunset_pairs <> [] ->
  exists before pair after,
    find_closest_sunrise_sunset get_timezone_str pytz_utcoffset
      sunrise_sunset_pairs target_date lat lon = Ok pair
    /\ sunrise_sunset_pairs = before ++ pair :: after
    /\ (forall p, In p before ->
         midnight_distance get_timezone_str pytz_utcoffset target_date lat lon pair
         < midnight_distance get_timezone_str pytz_utcoffset target_date lat lon p)
    /\ (forall p, In p after ->
         midnight_distance get_timezone_str pytz_utcoffset target_date lat lon pair
         <= midnight_distance get_timezone_str pytz_utcoffset target_date lat lon p).
Proof.
  intros Hne.
  destruct sunrise_sunset_pairs as [|first rest]; [contradiction|].
  unfold find_closest_sunrise_sunset, Py.min_key.
  set (target := localize pytz_utcoffset (get_timezone_str lat lon) target_date).
  assert (Hkey : forall p,
             midnight_distance get_timezone_str pytz_utcoffset target_date lat lon p
             = sunrise_distance target p).
  { intros p. unfold midnight_distance, sunrise_distance, aware_sub, target,
      localize, utc_us. cbn [naive utcoffset]. reflexivity. }
  destruct (min_key_from_first_minimal (sunrise_distance target) rest first)
    as [before [after [Heq [Hb Ha]]]].
  exists before, (Py.min_key_from (sunrise_distance target) first rest), after.
  split; [reflexivity|]. split; [exact Heq|].
  split; intros p Hp; rewrite !Hkey; [apply Hb | apply Ha]; exact Hp.
Qed.

Lemma find_closest_sunrise_sunset_nearest_witness :
  exists before after,
    find_closest_sunrise_sunset
      (fun _ _ => "America/Los_Angeles"%string) (fun _ _ => pacific_standard)
      biweekly_pairs (mk 2022 1 20 0 0 0 0) 42%R (-120)%R
    = Ok (january_pair 15)
    /\ biweekly_pairs = before ++ january_pair 15 :: after.
Proof.
  destruct (find_closest_sunrise_sunset_nearest
              (fun _ _ => "America/Los_Angeles"%string)
              (fun _ _ => pacific_standard)
              biweekly_pairs (mk 2022 1 20 0 0 0 0) 42%R (-120)%R)
    as [before [pair [after [Hfind [Hsplit _]]]]]; [discriminate|].
  assert (Hpair : pair = january_pair 15).
  { assert (Hrun : find_closest_sunrise_sunset
                     (fun _ _ => "America/Los_Angeles"%string)
                     (fun _ _ => pacific_standard)
                     biweekly_pairs (mk 2022 1 20 0 0 0 0) 42%R (-120)%R
                   = Ok (january_pair 15)) by (lazy; reflexivity).
    rewrite Hrun in Hfind. injection Hfind as <-. reflexivity. }
  subst pair. exists before, after. split; [exact Hfind | exact Hsplit].
Defined.

Lemma valid_intro y m d h mi s us :
  1 <= y <= 9999 -> 1 <= m <= 12 -> 1 <= d <= days_in_month y m ->
  0 <= h <= 23 -> 0 <= mi <= 59 -> 0 <= s <= 59 -> 0 <= us <= 999999 ->
  valid (mk y m d h mi s us) = true.
Proof.
  intros. unfold valid. cbn [year month day hour minute second microsecond].
  repeat (apply andb_true_intro; split); apply Z.leb_le; lia.
Qed.

(** C10.  For a valid local sample time and a UTC offset of less than 24
    hours, the timestamp that [shade_coverage] hands to the ephemeris has
    the local year, month and day, the hour [(local_hour - timezone) mod
    24] and the local minute; the ephemeris is consulted at that timestamp
    only.  It is the true UTC instant when that instant falls on the local
    calendar day, and exactly 24 hours away from it otherwise. *)
Theorem dt_utc_keeps_local_date
    (local_year local_month local_day local_hour local_minute timezone : Z)
    (local : Datetime.t) :
  make local_year local_month local_day local_hour local_minute 0 = Ok local ->
  -24 < timezone < 24 ->
  exists queried,
    dt_utc local_year local_month local_day local_hour local_minute timezone
    = Ok queried
    /\ year queried = local_year /\ month queried = local_month
    /\ day queried = local_day
    /\ hour queried = (local_hour - timezone) mod 24
    /\ minute queried = local_minute /\ second queried = 0
    /\ microsecond queried = 0
    /\ (let true_utc := to_us local - timezone * US_PER_HOUR in
        (true_utc / US_PER_DAY = toordinal local -> to_us queried = true_utc)
        /\ (true_utc / US_PER_DAY <> toordinal local ->
            Z.abs (to_us queried - true_utc) = 24 * US_PER_HOUR))
    /\ forall (ephemeris1 ephemeris2 : R -> R -> Datetime.t -> R * R)
              lat lon ground_area height width tilt max_rotation,
        ephemeris1 lat lon queried = ephemeris2 lat lon queried ->
        shade_coverage ephemeris1 lat lon local_year ground_area height width
          tilt local_hour max_rotation timezone local_month local_day
          local_minute
        = shade_coverage ephemeris2 lat lon local_year ground_area height width
            tilt local_hour max_rotation timezone local_month local_day
            local_minute.
Proof.
  intros Hlocal Htz. apply make_ok in Hlocal. destruct Hlocal as [-> Hvalid].
  destruct (valid_fields _ Hvalid) as [Hy [Hm [Hd [Hh [Hmi _]]]]].
  cbn [year month day hour minute second microsecond] in *.
  set (queried := mk local_year local_month local_day
                     ((local_hour - timezone) mod 24) local_minute 0 0).
  assert (Hmod : 0 <= (local_hour - timezone) mod 24 < 24)
    by (apply Z.mod_pos_bound; lia).
  assert (Hq : dt_utc local_year local_month local_day local_hour local_minute
                 timezone = Ok queried).
  { unfold dt_utc, utc_hour, make. fold queried.
    replace (valid queried) with true; [reflexivity|].
    symmetry. apply valid_intro; lia. }
  exists queried. split; [exact Hq|].
  repeat (split; [reflexivity|]). split.
  - unfold to_us, toordinal, queried.
    cbn [year month day hour minute second microsecond].
    unfold US_PER_DAY, US_PER_HOUR, US_PER_MINUTE, US_PER_SECOND.
    split; intros H; lia_div.
  - intros ephemeris1 ephemeris2 lat lon ground_area height width tilt
      max_rotation Hsame.
    unfold shade_coverage. rewrite Hq. cbn [Py.bind]. rewrite Hsame. reflexivity.
Qed.

End ClockClaims.

Section DailyClaims.

Import Datetime DatetimeFacts ClockFacts.
Local Open Scope Z_scope.

Variable solar_angles_skyfield : R -> R -> Datetime.t -> R * R.
Variable get_timezone_str : R -> R -> string.
Variable pytz_utcoffset : string -> Datetime.t -> Z.


End DailyClaims.

Section DegenerateClaims.

Import Datetime DatetimeFacts ClockFacts.
Local Open Scope Z_scope.

(** C4 (amended).  For a day whose matched sunrise and sunset are one
    instant that is not a whole minute, no sample falls between the
    rounded sunrise and the rounded sunset and the aggregator returns 0.
    When the instant is a whole minute one sample is taken, and its
    coverage is the shade of the day.  In every case the averaging division
    is guarded: the aggregator raises [ZeroDivisionError] only if a sample
    does. *)
Theorem iterate_sunrise_to_sunset_degenerate
    (solar_angles_skyfield : R -> R -> Datetime.t -> R * R)
    (get_timezone_str : R -> R -> string)
    (pytz_utcoffset : string -> Datetime.t -> Z)
    (sunrise_sunset_pairs : list sunrise_sunset_pair) (month day : Z)
    (lat lon : R) (year : Z) (ground_area height width tilt max_rotation : R)
    (timezone : Z) :
  (forall target_date sunrise sunset,
      make year month day 0 0 0 = Ok target_date ->
      find_closest_sunrise_sunset get_timezone_str pytz_utcoffset
        sunrise_sunset_pairs target_date lat lon = Ok (sunrise, sunset) ->
      in_calendar sunrise -> in_calendar sunset ->
      utc_us sunrise = utc_us sunset ->
      second (naive sunrise) <> 0 \/ microsecond (naive sunrise) <> 0 ->
      iterate_sunrise_to_sunset solar_angles_skyfield get_timezone_str
        pytz_utcoffset sunrise_sunset_pairs month day lat lon year ground_area
        height width tilt max_rotation timezone = Ok 0%R)
  /\ (forall target_date sunrise sunset shade_cover,
        make year month day 0 0 0 = Ok target_date ->
        find_closest_sunrise_sunset get_timezone_str pytz_utcoffset
          sunrise_sunset_pairs target_date lat lon = Ok (sunrise, sunset) ->
        in_calendar sunrise -> in_calendar sunset ->
        utc_us sunrise = utc_us sunset ->
        second (naive sunrise) = 0 /\ microsecond (naive sunrise) = 0 ->
        second (naive sunset) = 0 /\ microsecond (naive sunset) = 0 ->
        shade_coverage solar_angles_skyfield lat lon year ground_area height
          width tilt (hour (naive sunrise)) max_rotation timezone month day
          (minute (naive sunrise)) = Ok shade_cover ->
        exists value,
          iterate_sunrise_to_sunset solar_angles_skyfield get_timezone_str
            pytz_utcoffset sunrise_sunset_pairs month day lat lon year
            ground_area height width tilt max_rotation timezone = Ok value
          /\ value = shade_cover)
  /\ ((forall hour minute,
          shade_coverage solar_angles_skyfield lat lon year ground_area height
            width tilt hour max_rotation timezone month day minute
          <> Raise Py.ZeroDivisionError) ->
      iterate_sunrise_to_sunset solar_angles_skyfield get_timezone_str
        pytz_utcoffset sunrise_sunset_pairs month day lat lon year ground_area
        height width tilt max_rotation timezone
      <> Raise Py.ZeroDivisionError).
Proof.
  split; [|split].
  - intros. eapply degenerate_no_sample; eassumption.
  - intros. eapply degenerate_single_sample; eassumption.
  - apply averaging_never_divides_by_zero.
Qed.

Lemma iterate_sunrise_to_sunset_degenerate_witness :
  iterate_sunrise_to_sunset sun_due_south
    (fun _ _ => "America/Los_Angeles"%string) (fun _ _ => pacific_standard)
    [(noon_and_30_seconds, noon_and_30_seconds)] 6 21 42%R (-120)%R 2022
    1296%R 22.3%R 18.3%R 35%R 45%R (-8) = Ok 0%R.
Proof.
  apply (proj1 (iterate_sunrise_to_sunset_degenerate sun_due_south
                  (fun _ _ => "America/Los_Angeles"%string)
                  (fun _ _ => pacific_standard)
                  [(noon_and_30_seconds, noon_and_30_seconds)] 6 21 42%R (-120)%R
                  2022 1296%R 22.3%R 18.3%R 35%R 45%R (-8))
           (mk 2022 6 21 0 0 0 0) noon_and_30_seconds noon_and_30_seconds).
  - reflexivity.
  - reflexivity.
  - calendar_facts.
  - calendar_facts.
  - reflexivity.
  - left. vm_compute. intros H. discriminate H.
Defined.

End DegenerateClaims.

Section DegenerateCounterexample.

Local Open Scope R_scope.

(** C4, counterexample.  Sunrise and sunset both at 12:00:00 sharp: the
    loop runs once and the aggregator returns the coverage of that one
    sample, which is positive with the sun due south at 45 degrees. *)
Lemma iterate_sunrise_to_sunset_one_sample :
  exists value,
    iterate_sunrise_to_sunset sun_due_south
      (fun _ _ => "America/Los_Angeles"%string) (fun _ _ => pacific_standard)
      [(noon_exact, noon_exact)] 6 21 42 (-120) 2022 1296 22.3 18.3 35 45 (-8)
    = Ok value
    /\ 0 < value.
Proof.
  destruct (shade_coverage_value sun_due_south 42 (-120) 2022 1296 22.3 18.3 35
              12 45 (-8) 6 21 0 (Datetime.mk 2022 6 21 20 0 0 0) 45 180)
    as [elevation [area [Hadj [Hrange [Hsh [Harea Hcov]]]]]];
    [lra | reflexivity | reflexivity | lra |].
  destruct (degenerate_single_sample sun_due_south
              (fun _ _ => "America/Los_Angeles"%string)
              (fun _ _ => pacific_standard)
              [(noon_exact, noon_exact)] 6 21 42 (-120) 2022 1296 22.3 18.3 35 45
              (-8) (Datetime.mk 2022 6 21 0 0 0 0) noon_exact noon_exact
              (Py.min 1 (area / 1296)))
    as [value [Hvalue Heq]];
    [reflexivity | reflexivity | calendar_facts | calendar_facts | reflexivity
    | split; reflexivity | split; reflexivity | exact Hcov |].
  exists value. split; [exact Hvalue|]. rewrite Heq.
  pose proof elevation_floor_pos as Hfloor. pose proof PI_gt_3 as HPI.
  pose proof PI_4 as HPI4.
  assert (Htan : 0 < tan (Py.radians elevation))
    by (apply tan_gt_0; apply radians_first_quadrant; lra).
  assert (Hcos : 0 < cos (Py.radians 35))
    by (apply cos_gt_0; unfold Py.radians; lra).
  assert (Hblume : azimuth_blume (azimuth_S 180) 45 = 0).
  { unfold azimuth_blume, azimuth_S. rewrite min_eq_Rmin, max_eq_Rmax.
    rewrite Rmax_left by lra. rewrite Rmin_left by lra. lra. }
  assert (Hwidth : cos (Py.radians (azimuth_blume (azimuth_S 180) 45 - azimuth_S 180)) = 1).
  { rewrite Hblume. unfold azimuth_S.
    replace (Py.radians (0 - (180 - 180))) with 0 by (unfold Py.radians; lra).
    apply cos_0. }
  assert (Hlen : 0 < 22.3 * cos (Py.radians 35) / tan (Py.radians elevation)
                     + 22.3 * cos (Py.radians 35)).
  { assert (0 < 22.3 * cos (Py.radians 35) / tan (Py.radians elevation))
      by (apply Rdiv_lt_0_compat; lra). lra. }
  assert (Hpos : 0 < area) by (rewrite Harea, Hwidth; nra).
  assert (Hq : 0 < area / 1296) by (apply Rdiv_lt_0_compat; lra).
  rewrite min_eq_Rmin. apply Rmin_glb_lt; lra.
Qed.

End DegenerateCounterexample.

Section ClockWitnesses.

Import Datetime DatetimeFacts ClockFacts.
Local Open Scope Z_scope.


Lemma dt_utc_keeps_local_date_witness :
  exists queried,
    dt_utc 2022 6 21 20 0 (-8) = Ok queried
    /\ day queried = 21
    /\ hour queried = 4
    /\ Z.abs (to_us queried
              - (to_us (mk 2022 6 21 20 0 0 0) - (-8) * US_PER_HOUR))
       = 24 * US_PER_HOUR.
Proof.
  destruct (dt_utc_keeps_local_date 2022 6 21 20 0 (-8) (mk 2022 6 21 20 0 0 0))
    as [queried [Hq [_ [_ [Hday [Hhour [_ [_ [_ [[_ Hfar] _]]]]]]]]]];
    [reflexivity | lia |].
  exists queried. split; [exact Hq|]. split; [exact Hday|].
  split; [exact Hhour|]. apply Hfar. vm_compute. intros H. discriminate H.
Defined.

End ClockWitnesses.

(** * The rest of the program *)

(** ** The calendar of a year *)

Module CalendarFacts.

Import Datetime DatetimeFacts ClockFacts.
Local Open Scope Z_scope.

Lemma month_cases m :
  1 <= m <= 12 ->
  m = 1 \/ m = 2 \/ m = 3 \/ m = 4 \/ m = 5 \/ m = 6 \/ m = 7
  \/ m = 8 \/ m = 9 \/ m = 10 \/ m = 11 \/ m = 12.
Proof. lia. Qed.

Lemma ymd2ord_in_year y m d :
  1 <= m <= 12 -> 1 <= d <= days_in_month y m ->
  days_before_year y + 1 <= ymd2ord y m d <= days_before_year (y + 1).
Proof.
  intros Hm Hd. unfold ymd2ord. rewrite days_before_year_succ.
  pose proof (day_of_year_bounds y m d Hm Hd). lia.
Qed.

Lemma ymd2ord_year_inj y m d y' m' d' :
  1 <= m <= 12 -> 1 <= d <= days_in_month y m ->
  1 <= m' <= 12 -> 1 <= d' <= days_in_month y' m' ->
  ymd2ord y m d = ymd2ord y' m' d' -> y = y'.
Proof.
  intros Hm Hd Hm' Hd' Heq.
  pose proof (ymd2ord_in_year y m d Hm Hd) as H1.
  pose proof (ymd2ord_in_year y' m' d' Hm' Hd') as H2.
  destruct (Z.lt_trichotomy y y') as [Hlt | [Heqy | Hgt]]; [|exact Heqy|].
  - pose proof (days_before_year_mono (y + 1) y' ltac:(lia)). lia.
  - pose proof (days_before_year_mono (y' + 1) y ltac:(lia)). lia.
Qed.

Lemma month_day_inj y m d m' d' :
  1 <= m <= 12 -> 1 <= d <= days_in_month y m ->
  1 <= m' <= 12 -> 1 <= d' <= days_in_month y m' ->
  days_before_month y m + d = days_before_month y m' + d' ->
  m = m' /\ d = d'.
Proof.
  intros Hm Hd Hm' Hd'. revert Hd Hd'.
  unfold days_before_month, days_in_month.
  pose proof (month_cases m Hm) as Hc. pose proof (month_cases m' Hm') as Hc'.
  clear Hm Hm'. destruct (is_leap y);
    repeat (destruct Hc as [-> | Hc]); try subst m;
    repeat (destruct Hc' as [-> | Hc']); try subst m';
    cbv - [Z.add Z.le Z.lt]; lia.
Qed.

Lemma ord2ymd_ymd2ord y m d :
  1 <= m <= 12 -> 1 <= d <= days_in_month y m ->
  ord2ymd (ymd2ord y m d) = (y, m, d).
Proof.
  intros Hm Hd. pose proof (ord2ymd_spec (ymd2ord y m d)) as H.
  destruct (ord2ymd (ymd2ord y m d)) as [[y' m'] d'].
  destruct H as [Heq [Hm' Hd']].
  assert (Hy : y' = y) by exact (ymd2ord_year_inj y' m' d' y m d Hm' Hd' Hm Hd Heq).
  subst y'. unfold ymd2ord in Heq.
  destruct (month_day_inj y m' d' m d Hm' Hd' Hm Hd ltac:(lia)) as [-> ->].
  reflexivity.
Qed.

(** The second round trip: a valid datetime is the datetime of its
    wall-clock microseconds. *)
Lemma of_us_to_us d : valid d = true -> of_us (to_us d) = d.
Proof.
  intros H. destruct (valid_fields d H) as [Hy [Hm [Hd [Hh [Hmi [Hs Hus]]]]]].
  unfold of_us. rewrite (to_us_day d H). unfold toordinal.
  rewrite ord2ymd_ymd2ord by assumption.
  destruct d as [y m dd h mi s us].
  cbn [year month day hour minute second microsecond] in *.
  unfold to_us, toordinal.
  cbn [year month day hour minute second microsecond].
  set (o := ymd2ord y m dd).
  unfold US_PER_DAY, US_PER_HOUR, US_PER_MINUTE, US_PER_SECOND.
  f_equal; lia_div.
Qed.

Lemma new_year_us_day y :
  new_year_us y = (days_before_year y + 1) * US_PER_DAY.
Proof.
  unfold new_year_us, to_us, toordinal, ymd2ord, days_before_month.
  cbn [year month day hour minute second microsecond DAYS_BEFORE_MONTH].
  change (2 <? 1) with false. cbn [andb].
  unfold US_PER_DAY, US_PER_HOUR, US_PER_MINUTE, US_PER_SECOND. lia.
Qed.

Lemma days_between_new_years y :
  new_year_us (y + 1) = new_year_us y + days_in_year y * US_PER_DAY.
Proof.
  rewrite !new_year_us_day, days_before_year_succ. unfold days_in_year.
  destruct (is_leap y); unfold US_PER_DAY; lia.
Qed.

(** The [k]-th day of a year is a valid midnight of that year, [k] days
    after 1 January. *)
Lemma day_of_year_spec y k :
  1 <= y <= 9999 -> Z.of_nat k < days_in_year y ->
  valid (day_of_year y k) = true
  /\ year (day_of_year y k) = y
  /\ toordinal (day_of_year y k) = days_before_year y + 1 + Z.of_nat k
  /\ to_us (day_of_year y k) = new_year_us y + Z.of_nat k * US_PER_DAY.
Proof.
  intros Hy Hk. unfold day_of_year. rewrite new_year_us_day.
  set (n := days_before_year y + 1 + Z.of_nat k).
  replace ((days_before_year y + 1) * US_PER_DAY + Z.of_nat k * US_PER_DAY)
    with (n * US_PER_DAY) by (unfold n; lia).
  assert (Hdiv : n * US_PER_DAY / US_PER_DAY = n)
    by (apply Z.div_mul; unfold US_PER_DAY; lia).
  assert (Hmod : (n * US_PER_DAY) mod US_PER_DAY = 0)
    by (apply Z.mod_mul; unfold US_PER_DAY; lia).
  pose proof (ord2ymd_spec n) as Hspec.
  pose proof (to_us_of_us (n * US_PER_DAY)) as Hround.
  unfold of_us in *. rewrite Hdiv, Hmod in *.
  destruct (ord2ymd n) as [[y' m'] d']. destruct Hspec as [Hord [Hm Hd]].
  change (0 / US_PER_HOUR) with 0 in *.
  change (0 mod US_PER_HOUR / US_PER_MINUTE) with 0 in *.
  change (0 mod US_PER_MINUTE / US_PER_SECOND) with 0 in *.
  change (0 mod US_PER_SECOND) with 0 in *.
  assert (Hy' : y' = y).
  { pose proof (ymd2ord_in_year y' m' d' Hm Hd) as Hin.
    pose proof (days_before_year_succ y) as Hsucc.
    unfold days_in_year in Hk.
    destruct (Z.lt_trichotomy y' y) as [Hlt | [E | Hgt]]; [|exact E|].
    - pose proof (days_before_year_mono (y' + 1) y ltac:(lia)).
      destruct (is_leap y); lia.
    - pose proof (days_before_year_mono (y + 1) y' ltac:(lia)).
      destruct (is_leap y); lia. }
  subst y'. split; [|split; [reflexivity | split; [exact Hord | exact Hround]]].
  apply valid_intro; lia.
Qed.

End CalendarFacts.

Section MapMFacts.

Context {A B : Type}.

Lemma mapM_map {C : Type} (f : A -> Py.result B) (g : C -> A) xs :
  mapM f (map g xs) = mapM (fun x => f (g x)) xs.
Proof.
  induction xs as [|x xs IH]; [reflexivity|]. cbn [map mapM]. rewrite IH.
  reflexivity.
Qed.

Lemma mapM_ext (f g : A -> Py.result B) xs :
  (forall x, In x xs -> f x = g x) -> mapM f xs = mapM g xs.
Proof.
  induction xs as [|x xs IH]; intros H; [reflexivity|]. cbn [mapM].
  rewrite (H x (or_introl eq_refl)), IH; [reflexivity|].
  intros y Hy. apply H. right. exact Hy.
Qed.

Lemma mapM_ok (f : A -> Py.result B) xs ys :
  mapM f xs = Ok ys ->
  length ys = length xs
  /\ forall k y, nth_error ys k = Some y ->
                 exists x, nth_error xs k = Some x /\ f x = Ok y.
Proof.
  revert ys. induction xs as [|x xs IH]; intros ys H.
  - injection H as <-. split; [reflexivity|]. intros [|k] y E; discriminate.
  - cbn [mapM] in H. destruct (f x) as [y0|] eqn:Hx; [|discriminate].
    cbn [Py.bind] in H. destruct (mapM f xs) as [ys0|] eqn:Hxs; [|discriminate].
    injection H as <-. destruct (IH ys0 eq_refl) as [Hlen Hnth].
    split; [simpl; lia|]. intros [|k] y E.
    + injection E as <-. exists x. auto.
    + apply Hnth. exact E.
Qed.

Lemma mapM_all_ok (f : A -> Py.result B) (g : A -> B) xs :
  (forall x, In x xs -> f x = Ok (g x)) -> mapM f xs = Ok (map g xs).
Proof.
  induction xs as [|x xs IH]; intros H; [reflexivity|]. cbn [mapM map].
  rewrite (H x (or_introl eq_refl)), IH; [reflexivity|].
  intros y Hy. apply H. right. exact Hy.
Qed.

End MapMFacts.

Lemma flat_map_map {A B C : Type} (f : B -> list C) (g : A -> B) xs :
  flat_map f (map g xs) = flat_map (fun x => f (g x)) xs.
Proof.
  induction xs as [|x xs IH]; [reflexivity|]. cbn [map flat_map].
  rewrite IH. reflexivity.
Qed.

Section YearLoopFacts.

Import Datetime DatetimeFacts ClockFacts CalendarFacts.
Local Open Scope Z_scope.

(** The yearly loop makes one record per day until the end date; a
    bound of at least the number of days never cuts it short. *)
Lemma iterate_through_year_loop_spec daily end_date :
  forall n steps u shade_results,
  (n <= steps)%nat ->
  to_us end_date = u + Z.of_nat n * US_PER_DAY ->
  0 < u / US_PER_DAY ->
  (u + Z.of_nat n * US_PER_DAY) / US_PER_DAY <= MAXORDINAL ->
  iterate_through_year_loop steps daily end_date (of_us u) shade_results
  = (records <-
       mapM (fun k =>
               daily_shade <-
                 daily (month (of_us (u + Z.of_nat k * US_PER_DAY)))
                       (day (of_us (u + Z.of_nat k * US_PER_DAY))) ;;
               Ok (mk_shade
                     (strftime_Y_m_d (of_us (u + Z.of_nat k * US_PER_DAY)))
                     daily_shade))
            (seq 0 n) ;;
     Ok (shade_results ++ records)).
Proof.
  induction n as [|n IH]; intros steps u shade_results Hsteps Hend Hlo Hhi.
  - cbn [seq mapM Py.bind]. rewrite app_nil_r.
    destruct steps as [|steps]; [reflexivity|].
    cbn [iterate_through_year_loop].
    replace (lt (of_us u) end_date) with false; [reflexivity|].
    symmetry. unfold lt. rewrite to_us_of_us. apply Z.ltb_ge. lia.
  - destruct steps as [|steps]; [lia|].
    cbn [iterate_through_year_loop seq mapM].
    replace (lt (of_us u) end_date) with true
      by (symmetry; unfold lt; rewrite to_us_of_us; apply Z.ltb_lt;
          unfold US_PER_DAY in *; lia).
    replace (u + Z.of_nat 0 * US_PER_DAY) with u by lia.
    destruct (daily (month (of_us u)) (day (of_us u))) as [daily_shade|e];
      [|reflexivity].
    cbn [Py.bind].
    rewrite add_in_range; rewrite to_us_of_us;
      [|unfold US_PER_DAY, MAXORDINAL in *; lia_div].
    cbn [Py.bind].
    rewrite IH; try (unfold US_PER_DAY in *; lia_div).
    rewrite <- seq_shift, mapM_map.
    rewrite (mapM_ext
               (fun k =>
                  daily_shade <-
                    daily (month (of_us (u + US_PER_DAY + Z.of_nat k * US_PER_DAY)))
                          (day (of_us (u + US_PER_DAY + Z.of_nat k * US_PER_DAY))) ;;
                  Ok (mk_shade
                        (strftime_Y_m_d
                           (of_us (u + US_PER_DAY + Z.of_nat k * US_PER_DAY)))
                        daily_shade))
               (fun k =>
                  daily_shade <-
                    daily (month (of_us (u + Z.of_nat (S k) * US_PER_DAY)))
                          (day (of_us (u + Z.of_nat (S k) * US_PER_DAY))) ;;
                  Ok (mk_shade
                        (strftime_Y_m_d (of_us (u + Z.of_nat (S k) * US_PER_DAY)))
                        daily_shade))).
    + destruct (mapM _ (seq 0 n)) as [records|e]; [|reflexivity].
      cbn [Py.bind]. rewrite <- app_assoc. reflexivity.
    + intros k _.
      replace (u + US_PER_DAY + Z.of_nat k * US_PER_DAY)
        with (u + Z.of_nat (S k) * US_PER_DAY) by lia.
      reflexivity.
Qed.

(** The loop of [sunrise_sunset_times] consults the almanac once per
    stride of 14 days until the end date and keeps the first two crossings
    of each date that has two. *)
Lemma sunrise_sunset_times_loop_spec
    (get_timezone_str : R -> R -> string)
    (find_discrete_sunrise_sunset :
       string -> R -> R -> Datetime.t -> list Datetime.aware)
    lat lon end_date :
  forall n steps u pairs,
  (n <= steps)%nat ->
  n = Z.to_nat ((to_us end_date - u + 14 * US_PER_DAY - 1) / (14 * US_PER_DAY)) ->
  0 < u / US_PER_DAY ->
  (u + Z.of_nat n * (14 * US_PER_DAY)) / US_PER_DAY <= MAXORDINAL ->
  sunrise_sunset_times_loop get_timezone_str find_discrete_sunrise_sunset steps
    lat lon end_date (of_us u) pairs
  = Ok (pairs
        ++ flat_map
             (fun k =>
                match find_discrete_sunrise_sunset (get_timezone_str lat lon)
                        lat lon (of_us (u + Z.of_nat k * (14 * US_PER_DAY))) with
                | sunrise :: sunset :: _ => [(sunrise, sunset)]
                | _ => []
                end)
             (seq 0 n)).
Proof.
  induction n as [|n IH]; intros steps u pairs Hsteps Hn Hlo Hhi.
  - cbn [seq flat_map]. rewrite app_nil_r.
    destruct steps as [|steps]; [reflexivity|].
    cbn [sunrise_sunset_times_loop].
    replace (lt (of_us u) end_date) with false; [reflexivity|].
    symmetry. unfold lt. rewrite to_us_of_us. apply Z.ltb_ge.
    unfold US_PER_DAY in *. lia_div.
  - destruct steps as [|steps]; [lia|].
    cbn [sunrise_sunset_times_loop seq flat_map].
    replace (lt (of_us u) end_date) with true
      by (symmetry; unfold lt; rewrite to_us_of_us; apply Z.ltb_lt;
          unfold US_PER_DAY in *; lia_div).
    replace (u + Z.of_nat 0 * (14 * US_PER_DAY)) with u by lia.
    rewrite add_in_range; rewrite to_us_of_us;
      [|unfold US_PER_DAY, MAXORDINAL in *; lia_div].
    cbn [Py.bind].
    rewrite IH; try (unfold US_PER_DAY in *; lia_div).
    rewrite <- seq_shift, flat_map_map.
    rewrite (flat_map_ext
               (fun k =>
                  match find_discrete_sunrise_sunset (get_timezone_str lat lon)
                          lat lon
                          (of_us (u + 14 * US_PER_DAY
                                  + Z.of_nat k * (14 * US_PER_DAY))) with
                  | sunrise :: sunset :: _ => [(sunrise, sunset)]
                  | _ => []
                  end)
               (fun k =>
                  match find_discrete_sunrise_sunset (get_timezone_str lat lon)
                          lat lon
                          (of_us (u + Z.of_nat (S k) * (14 * US_PER_DAY))) with
                  | sunrise :: sunset :: _ => [(sunrise, sunset)]
                  | _ => []
                  end)).
    + destruct (find_discrete_sunrise_sunset _ lat lon (of_us u))
        as [|sunrise [|sunset rest]];
        try rewrite <- app_assoc; reflexivity.
    + intros k.
      replace (u + 14 * US_PER_DAY + Z.of_nat k * (14 * US_PER_DAY))
        with (u + Z.of_nat (S k) * (14 * US_PER_DAY)) by lia.
      reflexivity.
Qed.

End YearLoopFacts.

Section YearFacts.

Import Datetime DatetimeFacts ClockFacts CalendarFacts.
Local Open Scope Z_scope.

Lemma bind_ret {A : Type} (m : Py.result A) : (x <- m ;; Ok x) = m.
Proof. destruct m; reflexivity. Qed.

Lemma make_new_year y :
  1 <= y <= 9999 -> make y 1 1 0 0 0 = Ok (mk y 1 1 0 0 0 0).
Proof.
  intros Hy. unfold make. rewrite valid_intro; try lia; [reflexivity|].
  unfold days_in_month. cbn. lia.
Qed.

Lemma make_new_year_raises y :
  ~ 1 <= y <= 9999 -> make y 1 1 0 0 0 = Raise Py.ValueError.
Proof.
  intros Hy. unfold make. destruct (valid (mk y 1 1 0 0 0 0)) eqn:E;
    [|reflexivity].
  apply valid_fields in E. cbn [year] in E. lia.
Qed.

Lemma days_in_year_pos y : 365 <= days_in_year y <= 366.
Proof. unfold days_in_year. destruct (is_leap y); lia. Qed.

Lemma year_length y :
  sub_days (mk (y + 1) 1 1 0 0 0 0) (mk y 1 1 0 0 0 0) = days_in_year y.
Proof.
  unfold sub_days. fold (new_year_us (y + 1)). fold (new_year_us y).
  rewrite days_between_new_years.
  replace (new_year_us y + days_in_year y * US_PER_DAY - new_year_us y)
    with (days_in_year y * US_PER_DAY) by lia.
  apply Z.div_mul. unfold US_PER_DAY. lia.
Qed.

Lemma new_year_ordinal y n :
  1 <= y <= 9998 -> 0 <= n <= 378 ->
  0 < new_year_us y / US_PER_DAY
  /\ (new_year_us y + n * US_PER_DAY) / US_PER_DAY <= MAXORDINAL.
Proof.
  intros Hy Hn. rewrite new_year_us_day.
  pose proof (days_before_year_mono 1 y ltac:(lia)) as Hlo.
  pose proof (days_before_year_mono y 9998 ltac:(lia)) as Hhi.
  change (days_before_year 1) with 0 in Hlo.
  change (days_before_year 9998) with 3651329 in Hhi.
  replace ((days_before_year y + 1) * US_PER_DAY + n * US_PER_DAY)
    with ((days_before_year y + 1 + n) * US_PER_DAY) by lia.
  rewrite !Z.div_mul by (unfold US_PER_DAY; lia).
  unfold MAXORDINAL. lia.
Qed.



End YearFacts.

Section CrossingFacts.

Variable crossings : nat -> list Datetime.aware.

Lemma crossing_pairs_length (l : list nat) :
  (length
     (flat_map
        (fun k =>
           match crossings k with
           | sunrise :: sunset :: _ => [(sunrise, sunset)]
           | _ => []
           end) l) <= length l)%nat.
Proof.
  induction l as [|k l IH]; [apply Nat.le_refl|].
  cbn [flat_map]. rewrite length_app. cbn [length].
  destruct (crossings k) as [|? [|? ?]]; cbn [length]; lia.
Qed.

Lemma crossing_pairs_nil (l : list nat) :
  (forall k, In k l -> (length (crossings k) < 2)%nat) ->
  flat_map
    (fun k =>
       match crossings k with
       | sunrise :: sunset :: _ => [(sunrise, sunset)]
       | _ => []
       end) l = [].
Proof.
  induction l as [|k l IH]; intros Hl; [reflexivity|].
  cbn [flat_map]. rewrite IH by (intros j Hj; apply Hl; right; exact Hj).
  pose proof (Hl k (or_introl eq_refl)) as Hk.
  destruct (crossings k) as [|? [|? ?]];
    [reflexivity | reflexivity | cbn [length] in Hk; lia].
Qed.

End CrossingFacts.

Section AlmanacTheorems.

Import Datetime DatetimeFacts ClockFacts CalendarFacts.
Local Open Scope Z_scope.

Variable get_timezone_str : R -> R -> string.
Variable find_discrete_sunrise_sunset :
  string -> R -> R -> Datetime.t -> list Datetime.aware.
Variables lat lon : R.

Lemma sunrise_sunset_times_loop_form year :
  1 <= year <= 9998 ->
  sunrise_sunset_times get_timezone_str find_discrete_sunrise_sunset lat lon year
  = sunrise_sunset_times_loop get_timezone_str find_discrete_sunrise_sunset
      (Z.to_nat ((days_in_year year + 14 - 1) / 14)) lat lon
      (mk (year + 1) 1 1 0 0 0 0) (of_us (new_year_us year)) [].
Proof.
  intros Hy. unfold sunrise_sunset_times.
  rewrite !make_new_year by lia. cbn [Py.bind].
  rewrite year_length. unfold new_year_us. rewrite of_us_to_us; [reflexivity|].
  apply valid_intro; try lia. unfold days_in_month. cbn. lia.
Qed.

Lemma sunrise_sunset_times_strides year :
  1 <= year <= 9998 ->
  sunrise_sunset_times_loop get_timezone_str find_discrete_sunrise_sunset
      (Z.to_nat ((days_in_year year + 14 - 1) / 14)) lat lon
      (mk (year + 1) 1 1 0 0 0 0) (of_us (new_year_us year)) []
  = Ok (flat_map
          (fun k =>
             match find_discrete_sunrise_sunset (get_timezone_str lat lon)
                     lat lon (day_of_year year (14 * k)) with
             | sunrise :: sunset :: _ => [(sunrise, sunset)]
             | _ => []
             end)
          (seq 0 27)).
Proof.
  intros Hy.
  assert (Hstrides : Z.to_nat ((days_in_year year + 14 - 1) / 14) = 27%nat)
    by (unfold days_in_year; destruct (is_leap year); reflexivity).
  destruct (new_year_ordinal year 378 Hy ltac:(lia)) as [Hlo Hhi].
  rewrite Hstrides.
  rewrite (sunrise_sunset_times_loop_spec _ _ _ _ _ 27).
  - cbn [app]. apply f_equal. apply flat_map_ext. intros k. unfold day_of_year.
    replace (Z.of_nat (14 * k) * US_PER_DAY)
      with (Z.of_nat k * (14 * US_PER_DAY)) by lia.
    reflexivity.
  - lia.
  - fold (new_year_us (year + 1)). rewrite days_between_new_years.
    unfold days_in_year, US_PER_DAY. destruct (is_leap year); lia_div.
  - exact Hlo.
  - replace (new_year_us year + Z.of_nat 27 * (14 * US_PER_DAY))
      with (new_year_us year + 378 * US_PER_DAY) by lia.
    exact Hhi.
Qed.

(** X3. For a year from 1 to 9998 [sunrise_sunset_times] consults the
    almanac exactly 27 times, on January 1 and every 14th day after it
    (days 0, 14, ..., 364 of the year, all inside the year), and returns, in
    that order, the first two crossings of each date that has at least two;
    a date with fewer crossings contributes nothing, and further crossings
    are ignored.  The dates of the loop stay inside the calendar, so it
    raises no error of its own, and it returns at most 27 pairs. *)
Theorem sunrise_sunset_times_every_14_days year :
  1 <= year <= 9998 ->
  sunrise_sunset_times get_timezone_str find_discrete_sunrise_sunset lat lon year
  = Ok (flat_map
          (fun k =>
             match find_discrete_sunrise_sunset (get_timezone_str lat lon)
                     lat lon (day_of_year year (14 * k)) with
             | sunrise :: sunset :: _ => [(sunrise, sunset)]
             | _ => []
             end)
          (seq 0 27))
  /\ (length
        (flat_map
           (fun k =>
              match find_discrete_sunrise_sunset (get_timezone_str lat lon)
                      lat lon (day_of_year year (14 * k)) with
              | sunrise :: sunset :: _ => [(sunrise, sunset)]
              | _ => []
              end)
           (seq 0 27)) <= 27)%nat
  /\ forall k, (k < 27)%nat ->
       valid (day_of_year year (14 * k)) = true
       /\ Datetime.year (day_of_year year (14 * k)) = year.
Proof.
  intros Hy. split; [|split].
  - rewrite (sunrise_sunset_times_loop_form _ Hy).
    apply sunrise_sunset_times_strides. exact Hy.
  - etransitivity;
      [apply (crossing_pairs_length
                (fun k =>
                   find_discrete_sunrise_sunset (get_timezone_str lat lon) lat
                     lon (day_of_year year (14 * k))))|].
    rewrite length_seq. apply Nat.le_refl.
  - intros k Hk. pose proof (days_in_year_pos year) as Hp.
    destruct (day_of_year_spec year (14 * k) ltac:(lia) ltac:(lia))
      as [Hv [Hyr _]].
    auto.
Qed.

End AlmanacTheorems.

Section YearTheorems.

Import Datetime DatetimeFacts ClockFacts CalendarFacts.
Local Open Scope Z_scope.

Variable solar_angles_skyfield : R -> R -> Datetime.t -> R * R.
Variable get_timezone_str : R -> R -> string.
Variable pytz_utcoffset : string -> Datetime.t -> Z.
Variable find_discrete_sunrise_sunset :
  string -> R -> R -> Datetime.t -> list Datetime.aware.
Variable get_et_data : R -> R -> string -> list string -> option (list et_record).
Variable api_key : string.
Variables lat lon : R.
Variables ground_area height width tilt max_rotation : R.
Variable timezone : Z.

Lemma iterate_through_year_loop_form year sunrise_sunset_pairs :
  1 <= year <= 9998 ->
  iterate_through_year solar_angles_skyfield get_timezone_str pytz_utcoffset
    lat lon year ground_area height width tilt max_rotation timezone
    sunrise_sunset_pairs
  = iterate_through_year_loop (Z.to_nat (days_in_year year))
      (fun month day =>
         iterate_sunrise_to_sunset solar_angles_skyfield get_timezone_str
           pytz_utcoffset sunrise_sunset_pairs month day lat lon year
           ground_area height width tilt max_rotation timezone)
      (mk (year + 1) 1 1 0 0 0 0) (of_us (new_year_us year)) [].
Proof.
  intros Hy. unfold iterate_through_year.
  rewrite !make_new_year by lia. cbn [Py.bind].
  rewrite year_length. unfold new_year_us. rewrite of_us_to_us; [reflexivity|].
  apply valid_intro; try lia. unfold days_in_month. cbn. lia.
Qed.


(** What a successful call tells: the year is one the loop can
    handle, there is one record per day, and the record at position [k] is
    made of the date and the daily value of day [k]. *)
Lemma iterate_through_year_records year sunrise_sunset_pairs records :
  iterate_through_year solar_angles_skyfield get_timezone_str pytz_utcoffset
    lat lon year ground_area height width tilt max_rotation timezone
    sunrise_sunset_pairs = Ok records ->
  1 <= year <= 9998
  /\ length records = Z.to_nat (days_in_year year)
  /\ forall k s, nth_error records k = Some s ->
       Z.of_nat k < days_in_year year
       /\ shade_time s = strftime_Y_m_d (day_of_year year k)
       /\ iterate_sunrise_to_sunset solar_angles_skyfield get_timezone_str
            pytz_utcoffset sunrise_sunset_pairs
            (month (day_of_year year k)) (day (day_of_year year k))
            lat lon year ground_area height width tilt max_rotation timezone
          = Ok (shade s).
Proof.
  intros Hok.
  assert (Hy : 1 <= year <= 9998).
  { destruct (Z_le_dec 1 year) as [H1|H1]; [destruct (Z_le_dec year 9998) as [H2|H2]|];
      [lia| |]; exfalso; revert Hok; unfold iterate_through_year.
    - destruct (Z.eq_dec year 9999) as [->|Hne].
      + rewrite make_new_year by lia. cbn [Py.bind].
        rewrite make_new_year_raises by lia. discriminate.
      + rewrite make_new_year_raises by lia. discriminate.
    - rewrite make_new_year_raises by lia. discriminate. }
  split; [exact Hy|].
  pose proof (days_in_year_pos year) as Hp.
  destruct (new_year_ordinal year (days_in_year year) Hy ltac:(lia))
    as [Hlo Hhi].
  rewrite (iterate_through_year_loop_form _ _ Hy) in Hok.
  rewrite (iterate_through_year_loop_spec _ _ (Z.to_nat (days_in_year year)))
    in Hok; rewrite ?Z2Nat.id by lia; try assumption; try lia;
    [|fold (new_year_us (year + 1)); apply days_between_new_years].
  rewrite bind_ret in Hok. apply mapM_ok in Hok. destruct Hok as [Hlen Hnth].
  rewrite length_seq in Hlen. split; [exact Hlen|].
  intros k s Hs. destruct (Hnth k s Hs) as [x [Hx Hd]].
  assert (Hk : (k < Z.to_nat (days_in_year year))%nat).
  { rewrite <- (length_seq (Z.to_nat (days_in_year year)) 0).
    apply nth_error_Some. rewrite Hx. discriminate. }
  rewrite nth_error_seq in Hx.
  destruct (Nat.ltb_spec k (Z.to_nat (days_in_year year))); [|lia].
  injection Hx as <-. cbn [Nat.add] in Hd. unfold day_of_year.
  destruct (iterate_sunrise_to_sunset _ _ _ _ _ _ _ _ _ _ _ _ _ _ _)
    as [daily_shade|]; [|discriminate].
  injection Hd as <-. cbn [shade shade_time]. split; [lia|]. split; reflexivity.
Qed.


(** With no pair to choose from, the daily average raises [ValueError]
    whatever the date: an invalid date raises it first, the lookup of the
    nearest sunrise otherwise. *)
Lemma iterate_sunrise_to_sunset_no_pairs month day year :
  iterate_sunrise_to_sunset solar_angles_skyfield get_timezone_str
    pytz_utcoffset [] month day lat lon year ground_area height width tilt
    max_rotation timezone = Raise Py.ValueError.
Proof.
  unfold iterate_sunrise_to_sunset, make.
  destruct (valid _); reflexivity.
Qed.

(** X4. Where the almanac finds fewer than two crossings on every
    sampled date of the year (polar day or night), [sunrise_sunset_times]
    returns the empty list without an error, and [adjusted_evapotranspiration]
    then raises [ValueError] on the first day of the year, from [min] on an
    empty sequence in [find_closest_sunrise_sunset]; the evapotranspiration
    data are not requested. *)
Theorem adjusted_evapotranspiration_without_sunrise year :
  1 <= year <= 9998 ->
  (forall k, (k < 27)%nat ->
     (length (find_discrete_sunrise_sunset (get_timezone_str lat lon) lat lon
                (day_of_year year (14 * k))) < 2)%nat) ->
  sunrise_sunset_times get_timezone_str find_discrete_sunrise_sunset lat lon
    year = Ok []
  /\ iterate_through_year solar_angles_skyfield get_timezone_str pytz_utcoffset
       lat lon year ground_area height width tilt max_rotation timezone []
     = Raise Py.ValueError
  /\ forall et_source,
       adjusted_evapotranspiration solar_angles_skyfield get_timezone_str
         pytz_utcoffset find_discrete_sunrise_sunset et_source api_key lat lon
         year ground_area height width tilt max_rotation timezone
       = Raise Py.ValueError.
Proof.
  intros Hy Hpolar.
  assert (Htimes : sunrise_sunset_times get_timezone_str
                     find_discrete_sunrise_sunset lat lon year = Ok []).
  { rewrite (sunrise_sunset_times_loop_form _ _ _ _ _ Hy),
      (sunrise_sunset_times_strides _ _ _ _ _ Hy).
    apply f_equal.
    apply (crossing_pairs_nil
             (fun k =>
                find_discrete_sunrise_sunset (get_timezone_str lat lon) lat lon
                  (day_of_year year (14 * k)))).
    intros k Hk. apply in_seq in Hk. apply Hpolar. lia. }
  assert (Hyear : iterate_through_year solar_angles_skyfield get_timezone_str
                    pytz_utcoffset lat lon year ground_area height width tilt
                    max_rotation timezone [] = Raise Py.ValueError).
  { rewrite (iterate_through_year_loop_form _ _ Hy).
    pose proof (days_in_year_pos year) as Hp.
    destruct (new_year_ordinal year (days_in_year year) Hy ltac:(lia))
      as [Hlo Hhi].
    rewrite (iterate_through_year_loop_spec _ _ (Z.to_nat (days_in_year year)));
      rewrite ?Z2Nat.id by lia; try assumption; try lia;
      [|fold (new_year_us (year + 1)); apply days_between_new_years].
    destruct (Z.to_nat (days_in_year year)) as [|n] eqn:En; [lia|].
    cbn [seq mapM]. rewrite iterate_sunrise_to_sunset_no_pairs. reflexivity. }
  split; [exact Htimes|]. split; [exact Hyear|].
  intros et_source. unfold adjusted_evapotranspiration.
  rewrite make_new_year by lia. cbn [Py.bind].
  rewrite Htimes. cbn [Py.bind]. rewrite Hyear. reflexivity.
Qed.


End YearTheorems.

(** ** Shade of a day and of an instant *)

Section ShadeFacts.

Local Open Scope R_scope.

Variable solar_angles_skyfield : R -> R -> Datetime.t -> R * R.




End ShadeFacts.

Section ShadeTheorems.

Local Open Scope R_scope.

Variable solar_angles_skyfield : R -> R -> Datetime.t -> R * R.
Variable get_timezone_str : R -> R -> string.
Variable pytz_utcoffset : string -> Datetime.t -> Z.



Lemma radians_half_turn x :
  -90 < x < 90 -> - (PI / 2) < Py.radians x < PI / 2.
Proof.
  intros Hx. unfold Py.radians. pose proof PI_RGT_0. split; nra.
Qed.

Lemma azimuth_blume_offset az_S max_rotation :
  0 <= max_rotation ->
  (Rabs az_S < max_rotation + 90 ->
   -90 < azimuth_blume az_S max_rotation - az_S < 90)
  /\ (max_rotation + 90 < az_S ->
      azimuth_blume az_S max_rotation - az_S = max_rotation - az_S)
  /\ (az_S < - (max_rotation + 90) ->
      azimuth_blume az_S max_rotation - az_S = - max_rotation - az_S).
Proof.
  intros Hmax. unfold azimuth_blume. rewrite min_eq_Rmin, max_eq_Rmax.
  unfold Rmin, Rmax, Rabs.
  repeat split; intros;
    destruct (Rle_dec az_S (- max_rotation));
    destruct (Rle_dec az_S max_rotation);
    destruct (Rle_dec (- max_rotation) max_rotation);
    try destruct (Rcase_abs az_S); try lra.
Qed.

(** X8. With a positive ground area, height and width, a tilt inside
    (-90, 90), a rotation limit that is not negative, a valid timestamp and
    a sun elevation inside (-90, 90), [shade_coverage] returns a value, at
    most 1, whose sign is decided by the azimuth from south: it is positive
    when the sun is less than 90 degrees beyond the rotation limit, and
    negative when the sun is more than 90 and less than 270 degrees beyond
    it, on either side. *)
Theorem shade_coverage_sign
    lat lon local_year ground_area height width tilt local_hour max_rotation
    timezone local_month local_day local_minute dt solarelevation azimuth :
  0 < ground_area -> 0 < height -> 0 < width -> -90 < tilt < 90 ->
  0 <= max_rotation ->
  dt_utc local_year local_month local_day local_hour local_minute timezone
  = Ok dt ->
  solar_angles_skyfield lat lon dt = (solarelevation, azimuth) ->
  -90 < solarelevation < 90 ->
  exists coverage,
    shade_coverage solar_angles_skyfield lat lon local_year ground_area height
      width tilt local_hour max_rotation timezone local_month local_day
      local_minute = Ok coverage
    /\ coverage <= 1
    /\ (Rabs (azimuth_S azimuth) < max_rotation + 90 -> 0 < coverage)
    /\ (max_rotation + 90 < Rabs (azimuth_S azimuth) < max_rotation + 270 ->
        coverage < 0).
Proof.
  intros Hg Hh Hw Htilt Hmax Hdt Hsun Hel.
  destruct (shade_coverage_value solar_angles_skyfield lat lon local_year
              ground_area height width tilt local_hour max_rotation timezone
              local_month local_day local_minute dt solarelevation azimuth
              ltac:(lra) Hdt Hsun Hel)
    as [elevation [area [_ [Hrange [_ [Harea Hcov]]]]]].
  exists (Py.min 1 (area / ground_area)). split; [exact Hcov|].
  rewrite min_eq_Rmin. split; [apply Rmin_l|].
  pose proof elevation_floor_pos as Hfloor.
  assert (Htan : 0 < tan (Py.radians elevation))
    by (apply tan_gt_0; apply radians_first_quadrant; lra).
  assert (Hcos : 0 < cos (Py.radians tilt))
    by (apply cos_gt_0; apply radians_half_turn; exact Htilt).
  assert (Hlen : 0 < height * cos (Py.radians tilt) / tan (Py.radians elevation)
                     + height * cos (Py.radians tilt)).
  { assert (0 < height * cos (Py.radians tilt)) by (apply Rmult_lt_0_compat; lra).
    assert (0 < height * cos (Py.radians tilt) / tan (Py.radians elevation))
      by (apply Rdiv_lt_0_compat; lra).
    lra. }
  destruct (azimuth_blume_offset (azimuth_S azimuth) max_rotation Hmax)
    as [Hnear [Heast Hwest]].
  set (offset := azimuth_blume (azimuth_S azimuth) max_rotation - azimuth_S azimuth)
    in *.
  split.
  - intros Hin. specialize (Hnear Hin).
    assert (Hc : 0 < cos (Py.radians offset))
      by (apply cos_gt_0; apply radians_half_turn; exact Hnear).
    assert (Hpos : 0 < area).
    { rewrite Harea. apply Rmult_lt_0_compat; [exact Hlen|].
      apply Rmult_lt_0_compat; lra. }
    apply Rmin_glb_lt; [lra|]. apply Rdiv_lt_0_compat; lra.
  - intros Hout.
    assert (Hc : cos (Py.radians offset) < 0).
    { pose proof PI_RGT_0 as Hpi. unfold Rabs in Hout.
      destruct (Rcase_abs (azimuth_S azimuth)) as [Hneg|Hnonneg].
      - rewrite Hwest by lra. apply cos_lt_0; unfold Py.radians; nra.
      - rewrite Heast by lra. rewrite <- cos_neg.
        apply cos_lt_0; unfold Py.radians; nra. }
    assert (Hneg : area < 0).
    { rewrite Harea.
      assert (0 < - (width * cos (Py.radians offset)))
        by (assert (0 < width * - cos (Py.radians offset))
              by (apply Rmult_lt_0_compat; lra); lra).
      assert (0 < (height * cos (Py.radians tilt) / tan (Py.radians elevation)
                   + height * cos (Py.radians tilt))
                  * - (width * cos (Py.radians offset)))
        by (apply Rmult_lt_0_compat; assumption).
      lra. }
    assert (Hq : area / ground_area < 0).
    { assert (0 < - area / ground_area) by (apply Rdiv_lt_0_compat; lra).
      unfold Rdiv in *. lra. }
    apply Rle_lt_trans with (area / ground_area); [apply Rmin_r | exact Hq].
Qed.


End ShadeTheorems.

(** ** Sums between dates and water saved *)

Section RangeFacts.

Local Open Scope R_scope.

Variable strptime_Y_m_d : string -> Py.result Datetime.t.
Variable date_of : string -> Datetime.t.

Lemma et_between_dates_value start_date_obj end_date_obj items :
  (forall item, In item items -> et item <> None ->
     strptime_Y_m_d (et_time item) = Ok (date_of (et_time item))) ->
  et_between_dates strptime_Y_m_d start_date_obj end_date_obj items
  = Ok (et_in_range date_of start_date_obj end_date_obj items).
Proof.
  induction items as [|item items IH]; intros Hparse; [reflexivity|].
  cbn [et_between_dates]. unfold et_in_range. cbn [flat_map].
  fold (et_in_range date_of start_date_obj end_date_obj items).
  assert (IH' := IH (fun i Hi => Hparse i (or_intror Hi))).
  pose proof (Hparse item (or_introl eq_refl)) as Hitem.
  destruct (et item) as [v|].
  - rewrite Hitem by discriminate. cbn [Py.bind]. rewrite IH'. cbn [Py.bind].
    destruct (between_dates _ _ _); reflexivity.
  - exact IH'.
Qed.

Lemma adjusted_between_dates_value start_date_obj end_date_obj adjusted :
  forall daily_shade,
  (forall s, In s (firstn (length adjusted) daily_shade) ->
     strptime_Y_m_d (shade_time s) = Ok (date_of (shade_time s))) ->
  adjusted_between_dates strptime_Y_m_d start_date_obj end_date_obj adjusted
    daily_shade
  = Ok (adjusted_in_range date_of start_date_obj end_date_obj adjusted
          daily_shade).
Proof.
  induction adjusted as [|v adjusted IH]; intros daily_shade Hparse;
    [reflexivity|].
  destruct daily_shade as [|s daily_shade]; [reflexivity|].
  cbn [adjusted_between_dates]. cbn [length firstn] in Hparse.
  rewrite (Hparse s (or_introl eq_refl)). cbn [Py.bind].
  rewrite IH by (intros s' Hs'; apply Hparse; right; exact Hs').
  cbn [Py.bind]. unfold adjusted_in_range. cbn [combine filter snd].
  destruct (between_dates _ _ _); reflexivity.
Qed.



End RangeFacts.

Section RangeTheorems.

Local Open Scope R_scope.

Variable strptime_Y_m_d : string -> Py.result Datetime.t.

(** X10. With both bounds readable, [sum_et_data_between_dates] raises
    [TypeError] on an absent ET sequence; on a sequence whose entries that
    carry an ['et'] have a readable date, it returns the total of the ['et']
    values of the entries dated from the start to the end, both included.
    An entry without ['et'] is skipped and its date is never read, so it
    may be unreadable. *)
Theorem sum_et_data_between_dates_value
    (date_of : string -> Datetime.t) start_date end_date
    start_date_obj end_date_obj items :
  strptime_Y_m_d start_date = Ok start_date_obj ->
  strptime_Y_m_d end_date = Ok end_date_obj ->
  (forall item, In item items -> et item <> None ->
     strptime_Y_m_d (et_time item) = Ok (date_of (et_time item))) ->
  sum_et_data_between_dates strptime_Y_m_d (Some items) start_date end_date
  = Ok (Rsum (et_in_range date_of start_date_obj end_date_obj items))
  /\ sum_et_data_between_dates strptime_Y_m_d None start_date end_date
     = Raise Py.TypeError.
Proof.
  intros Hstart Hend Hparse. unfold sum_et_data_between_dates.
  rewrite Hstart, Hend. cbn [Py.bind]. split; [|reflexivity].
  rewrite (et_between_dates_value _ date_of _ _ _ Hparse). cbn [Py.bind].
  rewrite sum_eq_Rsum. reflexivity.
Qed.

(** X11. [sum_adjusted_et_data_between_dates] pairs the adjusted values
    with the shade records by position, up to the end of the shorter
    sequence, and returns the total of the adjusted values whose shade
    record is dated from the start to the end, both included; only the
    dates of the records that are paired are read. *)
Theorem sum_adjusted_et_data_between_dates_value
    (date_of : string -> Datetime.t) start_date end_date
    start_date_obj end_date_obj adjusted daily_shade :
  strptime_Y_m_d start_date = Ok start_date_obj ->
  strptime_Y_m_d end_date = Ok end_date_obj ->
  (forall s, In s (firstn (length adjusted) daily_shade) ->
     strptime_Y_m_d (shade_time s) = Ok (date_of (shade_time s))) ->
  sum_adjusted_et_data_between_dates strptime_Y_m_d adjusted daily_shade
    start_date end_date
  = Ok (Rsum (adjusted_in_range date_of start_date_obj end_date_obj adjusted
                daily_shade)).
Proof.
  intros Hstart Hend Hparse. unfold sum_adjusted_et_data_between_dates.
  rewrite Hstart, Hend. cbn [Py.bind].
  rewrite (adjusted_between_dates_value _ date_of _ _ _ _ Hparse).
  cbn [Py.bind]. rewrite sum_eq_Rsum. reflexivity.
Qed.


End RangeTheorems.

Section AdjustFacts.

Local Open Scope R_scope.

Lemma zip_adjust_length items :
  forall daily_shade adjusted,
  zip_adjust items daily_shade = Ok adjusted ->
  length adjusted = Nat.min (length items) (length daily_shade).
Proof.
  induction items as [|item items IH]; intros daily_shade adjusted H.
  - injection H as <-. reflexivity.
  - destruct daily_shade as [|s daily_shade].
    + injection H as <-. reflexivity.
    + cbn [zip_adjust] in H. destruct (et item) as [v|]; [|discriminate].
      destruct (zip_adjust items daily_shade) as [rest|] eqn:E; [|discriminate].
      injection H as <-. cbn [length Nat.min]. f_equal. apply IH. exact E.
Qed.

Lemma saved_terms ets :
  forall daily_shade,
  length ets = length daily_shade ->
  Rsum ets
  - Rsum (map (fun p => fst p * (1 - shade (snd p))) (combine ets daily_shade))
  = Rsum (map (fun p => fst p * shade (snd p)) (combine ets daily_shade)).
Proof.
  induction ets as [|v ets IH]; intros [|s daily_shade] Hlen;
    try discriminate Hlen.
  - cbn. lra.
  - cbn [combine map Rsum fold_right fst snd].
    injection Hlen as Hlen. specialize (IH daily_shade Hlen).
    unfold Rsum in IH. lra.
Qed.

Lemma saved_terms_bounds ets :
  forall daily_shade,
  Forall (fun v => 0 <= v) ets ->
  Forall (fun s => 0 <= shade s <= 1) daily_shade ->
  0 <= Rsum (map (fun p => fst p * shade (snd p)) (combine ets daily_shade))
    <= Rsum ets
  /\ Forall (fun a => 0 <= a)
       (map (fun p => fst p * (1 - shade (snd p))) (combine ets daily_shade)).
Proof.
  induction ets as [|v ets IH]; intros daily_shade Hets Hshade.
  - cbn. split; [lra | constructor].
  - inversion Hets as [|v' ets' Hv Hets']; subst.
    destruct daily_shade as [|s daily_shade].
    + cbn [combine map Rsum fold_right]. split; [|constructor].
      split; [lra|].
      assert (H0 : 0 <= Rsum ets).
      { clear IH Hets. induction Hets' as [|x xs Hx _ IHx]; cbn; [lra|].
        unfold Rsum in IHx. lra. }
      unfold Rsum in H0. lra.
    + inversion Hshade as [|s' daily' Hs Hshade']; subst.
      destruct (IH daily_shade Hets' Hshade') as [[IH1 IH2] IH3].
      cbn [combine map Rsum fold_right fst snd]. unfold Rsum in IH1, IH2.
      split; [split; nra|]. constructor; [nra | exact IH3].
Qed.

End AdjustFacts.

Section AdjustTheorems.

Local Open Scope R_scope.

(** X13. The only error of the adjustment of a present ET sequence is
    [KeyError], and it is raised exactly when an ET entry that is paired
    with a shade record has no ['et']; an entry beyond the length of the
    shade sequence is never looked at, so one without ['et'] there does no
    harm. *)
Theorem adjusted_et_values_key_error items daily_shade e :
  adjusted_et_values (Some items) daily_shade = Raise e
  <-> e = Py.KeyError
      /\ Exists (fun item => et item = None)
                (firstn (length daily_shade) items).
Proof.
  cbn [adjusted_et_values]. revert daily_shade.
  induction items as [|item items IH]; intros daily_shade.
  - cbn [zip_adjust]. rewrite firstn_nil. split; [discriminate|].
    intros [_ H]. inversion H.
  - destruct daily_shade as [|s daily_shade].
    + cbn [zip_adjust length firstn]. split; [discriminate|].
      intros [_ H]. inversion H.
    + cbn [zip_adjust length firstn]. destruct (et item) as [v|] eqn:Hv.
      * specialize (IH daily_shade).
        destruct (zip_adjust items daily_shade) as [rest|e'].
        -- cbn [Py.bind]. split; [discriminate|].
           intros [He H]. inversion H as [? ? Hitem|? ? Hrest]; subst.
           ++ congruence.
           ++ pose proof (proj2 IH (conj eq_refl Hrest)) as Habs.
              discriminate Habs.
        -- cbn [Py.bind]. split.
           ++ intros Heq. destruct (proj1 IH Heq) as [He Hrest].
              split; [exact He|]. apply Exists_cons_tl. exact Hrest.
           ++ intros [He H]. inversion H as [? ? Hitem|? ? Hrest]; subst.
              ** congruence.
              ** apply (proj2 IH). split; [reflexivity | exact Hrest].
      * split.
        -- intros [= <-]. split; [reflexivity|]. apply Exists_cons_hd. exact Hv.
        -- intros [-> _]. reflexivity.
Qed.

(** X14. For aligned sequences whose ET values are not negative and
    whose shade values lie in [0, 1], the adjusted values are not negative
    and the water saved is the total of [et * shade] over the days: it is
    not negative and at most the total ET. *)
Theorem water_saved_bounds items daily_shade adjusted :
  length items = length daily_shade ->
  adjusted_et_values (Some items) daily_shade = Ok adjusted ->
  (forall item v, In item items -> et item = Some v -> 0 <= v) ->
  Forall (fun s => 0 <= shade s <= 1) daily_shade ->
  exists ets saved,
    map et items = map Some ets
    /\ water_saved (Some items) adjusted = Ok saved
    /\ saved = Rsum (map (fun p => fst p * shade (snd p))
                         (combine ets daily_shade))
    /\ 0 <= saved <= Rsum ets
    /\ Forall (fun a => 0 <= a) adjusted.
Proof.
  intros Hlen Hadj Hnonneg Hshade.
  destruct (zip_adjust_values items daily_shade adjusted Hlen Hadj)
    as [ets [Hets Hval]].
  assert (Hets0 : Forall (fun v => 0 <= v) ets).
  { clear Hval Hadj Hlen. revert items Hets Hnonneg.
    induction ets as [|v ets IH]; intros items Hets Hnonneg; [constructor|].
    destruct items as [|item items]; [discriminate|].
    cbn [map] in Hets. injection Hets as Hitem Hrest.
    constructor.
    - apply (Hnonneg item v (or_introl eq_refl) Hitem).
    - apply (IH items Hrest). intros i w Hi. apply Hnonneg. right. exact Hi. }
  assert (Hlen' : length ets = length daily_shade).
  { rewrite <- Hlen, <- (length_map et items), Hets, length_map. reflexivity. }
  destruct (saved_terms_bounds ets daily_shade Hets0 Hshade) as [Hb Hadj0].
  exists ets, (Rsum ets - Rsum adjusted).
  split; [exact Hets|]. split.
  - unfold water_saved. rewrite (et_values_present_all _ _ Hets), !sum_eq_Rsum.
    reflexivity.
  - rewrite Hval, (saved_terms ets daily_shade Hlen').
    split; [reflexivity|]. split; [exact Hb | exact Hadj0].
Qed.

End AdjustTheorems.

(** ** The prompts *)

Section PromptFacts.

Context {A : Type} (read : string -> option A) (accept : A -> bool).

Lemma first_accepted_spec lines value rest :
  first_accepted read accept lines = Some (value, rest)
  <-> exists asked_again line,
        lines = asked_again ++ line :: rest
        /\ Forall (refused read accept) asked_again
        /\ read line = Some value /\ accept value = true.
Proof.
  split.
  - revert value rest. induction lines as [|l lines IH]; intros value rest H;
      [discriminate|].
    cbn [first_accepted] in H.
    destruct (read l) as [v|] eqn:Hr; [destruct (accept v) eqn:Ha|].
    + injection H as <- <-. exists [], l. repeat split; auto.
    + destruct (IH _ _ H) as [again [line [-> [Hagain Hline]]]].
      exists (l :: again), line. split; [reflexivity|]. split; [|exact Hline].
      constructor; [|exact Hagain]. unfold refused. rewrite Hr. exact Ha.
    + destruct (IH _ _ H) as [again [line [-> [Hagain Hline]]]].
      exists (l :: again), line. split; [reflexivity|]. split; [|exact Hline].
      constructor; [|exact Hagain]. unfold refused. rewrite Hr. exact I.
  - intros [again [line [-> [Hagain [Hr Ha]]]]].
    induction Hagain as [|l again Hl _ IH].
    + cbn [app first_accepted]. rewrite Hr, Ha. reflexivity.
    + cbn [app first_accepted]. unfold refused in Hl.
      destruct (read l) as [v|]; [rewrite Hl|]; exact IH.
Qed.

Lemma first_accepted_none lines :
  first_accepted read accept lines = None
  <-> Forall (refused read accept) lines.
Proof.
  induction lines as [|l lines IH]; [split; [constructor | reflexivity]|].
  cbn [first_accepted]. unfold refused at 1.
  split.
  - intros H. destruct (read l) as [v|] eqn:Hr; [destruct (accept v) eqn:Ha|];
      try discriminate; constructor; try (apply IH; exact H);
      unfold refused; rewrite Hr; auto.
  - intros H. inversion H as [|? ? Hl Hrest]; subst. unfold refused in Hl.
    destruct (read l) as [v|]; [rewrite Hl|]; apply IH; exact Hrest.
Qed.

End PromptFacts.

Section ParameterFacts.

Variable py_int : string -> option Z.
Variable py_float : string -> option R.

Lemma get_valid_year_loop lines :
  get_valid_year py_int lines = first_accepted py_int year_ok lines.
Proof.
  induction lines as [|l lines IH]; [reflexivity|].
  cbn [get_valid_year first_accepted]. rewrite IH. reflexivity.
Qed.

Lemma get_valid_latitude_loop lines :
  get_valid_latitude py_float lines = first_accepted py_float latitude_ok lines.
Proof.
  induction lines as [|l lines IH]; [reflexivity|].
  cbn [get_valid_latitude first_accepted]. rewrite IH. unfold latitude_ok.
  destruct (py_float l) as [v|]; [|reflexivity].
  destruct (Rle_dec (-90) v); [destruct (Rle_dec v 90)|]; reflexivity.
Qed.

Lemma get_valid_longitude_loop lines :
  get_valid_longitude py_float lines
  = first_accepted py_float longitude_ok lines.
Proof.
  induction lines as [|l lines IH]; [reflexivity|].
  cbn [get_valid_longitude first_accepted]. rewrite IH. unfold longitude_ok.
  destruct (py_float l) as [v|]; [|reflexivity].
  destruct (Rle_dec (-180) v); [destruct (Rle_dec v 180)|]; reflexivity.
Qed.

Lemma year_ok_spec year : year_ok year = true <-> (2018 <= year <= 2022)%Z.
Proof. unfold year_ok. rewrite andb_true_iff, !Z.leb_le. reflexivity. Qed.

Lemma latitude_ok_spec x : latitude_ok x = true <-> (-90 <= x <= 90)%R.
Proof.
  unfold latitude_ok.
  destruct (Rle_dec (-90) x); [destruct (Rle_dec x 90)|];
    split; intros H; try discriminate; try reflexivity; lra.
Qed.

Lemma longitude_ok_spec x : longitude_ok x = true <-> (-180 <= x <= 180)%R.
Proof.
  unfold longitude_ok.
  destruct (Rle_dec (-180) x); [destruct (Rle_dec x 180)|];
    split; intros H; try discriminate; try reflexivity; lra.
Qed.

End ParameterFacts.

Section ParameterTheorems.

Variable py_int : string -> option Z.
Variable py_float : string -> option R.
Variable get_timezone : R -> R -> Z.

(** X15. [get_valid_year] returns the first line of the input that
    reads as an integer from 2018 to 2022, both included, and leaves the
    lines after it unread: every line before it either does not read as an
    integer or reads as one outside that range, and made the loop ask again.
    It ends with the end of the input exactly when no line can be
    accepted. *)
Theorem get_valid_year_first_valid lines :
  (forall year rest,
     get_valid_year py_int lines = Some (year, rest)
     <-> exists asked_again line,
           lines = asked_again ++ line :: rest
           /\ Forall (refused py_int year_ok) asked_again
           /\ py_int line = Some year /\ (2018 <= year <= 2022)%Z)
  /\ (get_valid_year py_int lines = None
      <-> Forall (refused py_int year_ok) lines).
Proof.
  rewrite get_valid_year_loop. split.
  - intros year rest. rewrite first_accepted_spec.
    split; intros [again [line [H1 [H2 [H3 H4]]]]]; exists again, line;
      repeat split; try assumption; apply year_ok_spec; assumption.
  - apply first_accepted_none.
Qed.

(** X16. [calculation_parameters] reads the latitude, then the
    longitude, then the year, each from the first acceptable line after the
    lines the loop before it has used.  What it returns has a latitude in
    [-90, 90], a longitude in [-180, 180], a year from 2018 to 2022, the
    ground area 1296 of a 36 by 36 cell, height 22.3, width 18.3, tilt 35,
    rotation limit 45, and the timezone of the place read.  These values
    meet what the shade computation asks for: a positive ground area,
    height and width, a tilt inside (-90, 90), a rotation limit that is not
    negative, and a year from 1 to 9998. *)
Theorem calculation_parameters_valid lines p rest :
  calculation_parameters py_int py_float get_timezone lines = Some (p, rest) ->
  (exists lines1 lines2,
     get_valid_latitude py_float lines = Some (p_lat p, lines1)
     /\ get_valid_longitude py_float lines1 = Some (p_lon p, lines2)
     /\ get_valid_year py_int lines2 = Some (p_year p, rest))
  /\ (-90 <= p_lat p <= 90)%R /\ (-180 <= p_lon p <= 180)%R
  /\ (2018 <= p_year p <= 2022)%Z
  /\ p_ground_area p = 1296%R /\ p_height p = 22.3%R /\ p_width p = 18.3%R
  /\ p_tilt p = 35%R /\ p_max_rotation p = 45%R
  /\ p_timezone p = get_timezone (p_lat p) (p_lon p)
  /\ (0 < p_ground_area p /\ 0 < p_height p /\ 0 < p_width p
      /\ -90 < p_tilt p < 90 /\ 0 <= p_max_rotation p)%R
  /\ (1 <= p_year p <= 9998)%Z.
Proof.
  unfold calculation_parameters.
  destruct (get_valid_latitude py_float lines) as [[lat lines1]|] eqn:Hlat;
    [|discriminate].
  destruct (get_valid_longitude py_float lines1) as [[lon lines2]|] eqn:Hlon;
    [|discriminate].
  destruct (get_valid_year py_int lines2) as [[year lines3]|] eqn:Hyear;
    [|discriminate].
  intros [= <- <-].
  cbn [p_lat p_lon p_year p_ground_area p_height p_width p_tilt p_max_rotation
       p_timezone].
  rewrite get_valid_latitude_loop in Hlat.
  rewrite get_valid_longitude_loop in Hlon.
  rewrite get_valid_year_loop in Hyear.
  pose proof (proj1 (first_accepted_spec _ _ _ _ _) Hlat)
    as [? [? [_ [_ [_ Hlat_ok]]]]].
  pose proof (proj1 (first_accepted_spec _ _ _ _ _) Hlon)
    as [? [? [_ [_ [_ Hlon_ok]]]]].
  pose proof (proj1 (first_accepted_spec _ _ _ _ _) Hyear)
    as [? [? [_ [_ [_ Hyear_ok]]]]].
  apply latitude_ok_spec in Hlat_ok. apply longitude_ok_spec in Hlon_ok.
  apply year_ok_spec in Hyear_ok.
  split.
  { exists lines1, lines2. split; [reflexivity|].
    rewrite get_valid_longitude_loop, get_valid_year_loop.
    split; assumption. }
  repeat split; try reflexivity; try lra; try lia.
Qed.

End ParameterTheorems.

(** ** The whole computation *)

Section PipelineFacts.

Import Datetime DatetimeFacts ClockFacts CalendarFacts.
Local Open Scope Z_scope.

Lemma new_year_us_mono y1 y2 : y1 <= y2 -> new_year_us y1 <= new_year_us y2.
Proof.
  intros H. rewrite !new_year_us_day.
  pose proof (days_before_year_mono y1 y2 H). unfold US_PER_DAY. lia.
Qed.

Lemma last_day_us y :
  to_us (mk y 12 31 0 0 0 0) = new_year_us y + (days_in_year y - 1) * US_PER_DAY.
Proof.
  rewrite new_year_us_day.
  unfold to_us, toordinal, ymd2ord, days_before_month, days_in_year.
  cbn [year month day hour minute second microsecond].
  change (2 <? 12) with true.
  destruct (is_leap y); cbn - [Z.add Z.mul days_before_year];
    unfold US_PER_DAY, US_PER_HOUR, US_PER_MINUTE, US_PER_SECOND; lia.
Qed.

(** Where a day of a year falls with respect to the year 2022. *)
Lemma day_of_year_in_2022 y k :
  1 <= y <= 9998 -> Z.of_nat k < days_in_year y ->
  between_dates (mk 2022 1 1 0 0 0 0) (mk 2022 12 31 0 0 0 0) (day_of_year y k)
  = (y =? 2022).
Proof.
  intros Hy Hk. unfold between_dates.
  destruct (day_of_year_spec y k ltac:(lia) Hk) as [_ [_ [_ Hus]]].
  rewrite Hus, last_day_us. fold (new_year_us 2022).
  pose proof (days_in_year_pos y) as Hp.
  pose proof (days_between_new_years y) as Hnext.
  assert (HD : 0 < US_PER_DAY) by (unfold US_PER_DAY; lia).
  destruct (Z.eqb_spec y 2022) as [->|Hne].
  - apply andb_true_intro. split; apply Z.leb_le; nia.
  - destruct (Z_lt_le_dec y 2022) as [Hlt|Hge].
    + pose proof (new_year_us_mono (y + 1) 2022 ltac:(lia)).
      apply andb_false_intro1. apply Z.leb_gt. nia.
    + pose proof (new_year_us_mono 2023 y ltac:(lia)) as Hm.
      pose proof (days_between_new_years 2022) as H22.
      change (2022 + 1) with 2023 in H22.
      apply andb_false_intro2. apply Z.leb_gt.
      change (days_in_year 2022) with 365 in *. nia.
Qed.

End PipelineFacts.

Section PipelineTheorems.

Import Datetime.
Local Open Scope Z_scope.

Variable solar_angles_skyfield : R -> R -> Datetime.t -> R * R.
Variable get_timezone_str : R -> R -> string.
Variable pytz_utcoffset : string -> Datetime.t -> Z.
Variable find_discrete_sunrise_sunset :
  string -> R -> R -> Datetime.t -> list Datetime.aware.
Variable get_et_data : R -> R -> string -> list string -> option (list et_record).
Variable api_key : string.

Lemma adjusted_evapotranspiration_steps
    lat lon year ground_area height width tilt max_rotation timezone
    adjusted daily_shade et_data :
  adjusted_evapotranspiration solar_angles_skyfield get_timezone_str
    pytz_utcoffset find_discrete_sunrise_sunset get_et_data api_key lat lon
    year ground_area height width tilt max_rotation timezone
  = Ok (adjusted, daily_shade, et_data) ->
  (exists sunrise_sunset_pairs,
     sunrise_sunset_times get_timezone_str find_discrete_sunrise_sunset lat lon
       year = Ok sunrise_sunset_pairs
     /\ iterate_through_year solar_angles_skyfield get_timezone_str
          pytz_utcoffset lat lon year ground_area height width tilt
          max_rotation timezone sunrise_sunset_pairs = Ok daily_shade)
  /\ exists item items,
       et_data = Some (item :: items)
       /\ get_et_data lat lon api_key
            [(four_digits year ++ "-01-01")%string;
             (four_digits year ++ "-12-31")%string]
          = Some (item :: items)
       /\ zip_adjust (item :: items) daily_shade = Ok adjusted.
Proof.
  unfold adjusted_evapotranspiration.
  destruct (make year 1 1 0 0 0) as [start_date|] eqn:Hstart; [|discriminate].
  apply DatetimeFacts.make_ok in Hstart. destruct Hstart as [-> _].
  cbn [Py.bind Datetime.year].
  destruct (sunrise_sunset_times _ _ lat lon year) as [pairs|]; [|discriminate].
  cbn [Py.bind].
  destruct (iterate_through_year _ _ _ lat lon year ground_area height width
              tilt max_rotation timezone pairs) as [daily|] eqn:Hyear;
    [|discriminate].
  cbn [Py.bind]. unfold evapotranspiration.
  destruct (get_et_data lat lon api_key _) as [[|item items]|] eqn:Het;
    cbn [adjusted_et_values Py.bind]; try discriminate.
  destruct (zip_adjust (item :: items) daily) as [adj|] eqn:Hzip;
    [|discriminate].
  cbn [Py.bind]. intros [= <- <- <-].
  split; [exists pairs; split; [reflexivity | exact Hyear]|].
  exists item, items. repeat split; assumption.
Qed.


End PipelineTheorems.

Section ListFacts.

Context {A B : Type}.

Lemma firstn_In (n : nat) (l : list A) x : In x (firstn n l) -> In x l.
Proof.
  revert l. induction n as [|n IH]; intros [|a l] H; cbn in H; try contradiction.
  destruct H as [->|H]; [left; reflexivity | right; apply IH; exact H].
Qed.

Lemma filter_const (b : bool) (l : list A) :
  filter (fun _ => b) l = if b then l else [].
Proof.
  induction l as [|a l IH]; [destruct b; reflexivity|].
  cbn [filter]. rewrite IH. destruct b; reflexivity.
Qed.

Lemma map_fst_combine (l : list A) :
  forall l' : list B,
  (length l <= length l')%nat -> map fst (combine l l') = l.
Proof.
  induction l as [|a l IH]; intros [|b l'] H; cbn in *; try reflexivity;
    try lia.
  f_equal. apply IH. lia.
Qed.

End ListFacts.

Section MainTheorems.

Import Datetime.
Local Open Scope R_scope.

Variable solar_angles_skyfield : R -> R -> Datetime.t -> R * R.
Variable get_timezone_str : R -> R -> string.
Variable pytz_utcoffset : string -> Datetime.t -> Z.
Variable find_discrete_sunrise_sunset :
  string -> R -> R -> Datetime.t -> list Datetime.aware.
Variable get_et_data : R -> R -> string -> list string -> option (list et_record).
Variable api_key : string.
Variable strptime_Y_m_d : string -> Py.result Datetime.t.
Variable py_int : string -> option Z.
Variable py_float : string -> option R.
Variable get_timezone : R -> R -> Z.

(** X18. [main] sums the adjusted values between the fixed dates
    2022-01-01 and 2022-12-31, whatever year was entered.  With a reader of
    dates that reads these two bounds and reads back the dates
    [iterate_through_year] writes: when the year entered is 2022 that sum is
    the total of all the adjusted values, and for every other year it is 0
    whatever the data.  The water saved is what [water_saved] returns for
    the ET data and the adjusted values of the year entered, and the value
    in inches is that divided by 25.4. *)
Theorem main_sums_between_dates_of_2022 lines p rest values :
  calculation_parameters py_int py_float get_timezone lines = Some (p, rest) ->
  main solar_angles_skyfield get_timezone_str pytz_utcoffset
    find_discrete_sunrise_sunset get_et_data api_key strptime_Y_m_d py_int
    py_float get_timezone lines = Some (Ok values) ->
  strptime_Y_m_d "2022-01-01" = Ok (mk 2022 1 1 0 0 0 0) ->
  strptime_Y_m_d "2022-12-31" = Ok (mk 2022 12 31 0 0 0 0) ->
  (forall k, (Z.of_nat k < days_in_year (p_year p))%Z ->
     strptime_Y_m_d (strftime_Y_m_d (day_of_year (p_year p) k))
     = Ok (day_of_year (p_year p) k)) ->
  exists adjusted daily_shade et_data,
    adjusted_evapotranspiration solar_angles_skyfield get_timezone_str
      pytz_utcoffset find_discrete_sunrise_sunset get_et_data api_key
      (p_lat p) (p_lon p) (p_year p) (p_ground_area p) (p_height p)
      (p_width p) (p_tilt p) (p_max_rotation p) (p_timezone p)
    = Ok (adjusted, daily_shade, et_data)
    /\ water_saved et_data adjusted = Ok (water values)
    /\ waterin values = water values / 25.4
    /\ adjusted_et_sum_between_dates values
       = if (p_year p =? 2022)%Z then Rsum adjusted else 0.
Proof.
  intros Hcalc Hmain Hstart Hend Hread.
  unfold main in Hmain. rewrite Hcalc in Hmain. injection Hmain as Hmain.
  destruct (adjusted_evapotranspiration _ _ _ _ _ _ _ _ _ _ _ _ _ _ _)
    as [[[adjusted daily_shade] et_data]|] eqn:Hpipeline; [|discriminate].
  cbn [Py.bind] in Hmain.
  destruct (sum_et_data_between_dates _ _ _ _) as [et_sum|]; [|discriminate].
  cbn [Py.bind] in Hmain.
  destruct (sum_adjusted_et_data_between_dates _ _ _ _ _)
    as [adjusted_sum|] eqn:Hsum; [|discriminate].
  cbn [Py.bind] in Hmain.
  destruct (water_saved et_data adjusted) as [saved|] eqn:Hwater;
    [|discriminate].
  cbn [Py.bind] in Hmain. injection Hmain as <-.
  cbn [water waterin adjusted_et_sum_between_dates].
  exists adjusted, daily_shade, et_data.
  split; [reflexivity|]. split; [exact Hwater|]. split; [reflexivity|].
  destruct (adjusted_evapotranspiration_steps _ _ _ _ _ _ _ _ _ _ _ _ _ _ _ _
              _ _ Hpipeline)
    as [[pairs [_ Hyear]] [item [items [_ [_ Hzip]]]]].
  destruct (iterate_through_year_records _ _ _ _ _ _ _ _ _ _ _ _ _ _ Hyear)
    as [Hy [Hlen Hrec]].
  pose proof (zip_adjust_length _ _ _ Hzip) as Hadj.
  set (date_of := fun s => match strptime_Y_m_d s with
                           | Ok d => d
                           | Raise _ => mk 1 1 1 0 0 0 0
                           end).
  assert (Hdates : forall s, In s daily_shade ->
            strptime_Y_m_d (shade_time s) = Ok (date_of (shade_time s))
            /\ between_dates (mk 2022 1 1 0 0 0 0) (mk 2022 12 31 0 0 0 0)
                 (date_of (shade_time s)) = (p_year p =? 2022)%Z).
  { intros s Hs. apply In_nth_error in Hs. destruct Hs as [k Hk].
    destruct (Hrec k s Hk) as [Hlt [Htime _]].
    unfold date_of. rewrite Htime, (Hread k Hlt). split; [reflexivity|].
    apply day_of_year_in_2022; assumption. }
  unfold sum_adjusted_et_data_between_dates in Hsum.
  rewrite Hstart, Hend in Hsum. cbn [Py.bind] in Hsum.
  rewrite (adjusted_between_dates_value _ date_of) in Hsum
    by (intros s Hs; apply Hdates; apply (firstn_In _ _ _ Hs)).
  cbn [Py.bind] in Hsum. injection Hsum as <-.
  rewrite sum_eq_Rsum. unfold adjusted_in_range.
  rewrite (filter_ext_in _ (fun _ => (p_year p =? 2022)%Z))
    by (intros [a s] Hin; apply in_combine_r in Hin; apply Hdates; exact Hin).
  rewrite filter_const.
  destruct (p_year p =? 2022)%Z; [|reflexivity].
  rewrite map_fst_combine; [reflexivity|]. rewrite Hadj. apply Nat.le_min_r.
Qed.

End MainTheorems.

(** ** The year without samples *)

Section StillYearFacts.

Local Open Scope string_scope.



Lemma still_pipeline :
  adjusted_evapotranspiration sun_due_south los_angeles standard_offset
    still_almanac two_day_et "" 42 (-120) 2021 (36 * 36) 22.3 18.3 35 45 (-8)
  = Ok ([(3 * (1 - 0))%R; (4 * (1 - 0))%R], still_year_shade 2021,
        Some two_days).
Proof. vm_compute. reflexivity. Qed.

Lemma same_datetime_eq a b : same_datetime a b = true -> a = b.
Proof.
  destruct a, b. unfold same_datetime.
  cbn [Datetime.year Datetime.month Datetime.day Datetime.hour Datetime.minute
       Datetime.second Datetime.microsecond].
  intros H. repeat (apply andb_prop in H; destruct H as [H ?]).
  repeat match goal with
  | E : (_ =? _)%Z = true |- _ => apply Z.eqb_eq in E
  end.
  subst. reflexivity.
Qed.

Lemma read_date_2021 k :
  (Z.of_nat k < days_in_year 2021)%Z ->
  read_date (Datetime.strftime_Y_m_d (day_of_year 2021 k))
  = Ok (day_of_year 2021 k).
Proof.
  intros Hk. change (days_in_year 2021) with 365%Z in Hk.
  assert (Hall : forallb
                   (fun k =>
                      match read_date (Datetime.strftime_Y_m_d (day_of_year 2021 k)) with
                      | Ok d => same_datetime d (day_of_year 2021 k)
                      | Raise _ => false
                      end) (seq 0 365) = true)
    by (vm_compute; reflexivity).
  rewrite forallb_forall in Hall.
  specialize (Hall k ltac:(apply in_seq; lia)).
  destruct (read_date _) as [d|]; [|discriminate].
  apply same_datetime_eq in Hall. rewrite Hall. reflexivity.
Qed.

Lemma latitude_ok_false x : ~ (-90 <= x <= 90)%R -> latitude_ok x = false.
Proof.
  intros H. destruct (latitude_ok x) eqn:E; [|reflexivity].
  apply latitude_ok_spec in E. contradiction.
Qed.

Lemma typed_parameters_read :
  calculation_parameters read_int read_float pacific_hours typed_lines
  = Some (typed_parameters, []).
Proof.
  unfold calculation_parameters, typed_lines.
  rewrite get_valid_latitude_loop.
  rewrite (proj2 (first_accepted_spec read_float latitude_ok
                    ["north"; "95"; "42"; "-120"; "1999"; "2021"] 42%R
                    ["-120"; "1999"; "2021"])).
  - rewrite get_valid_longitude_loop.
    rewrite (proj2 (first_accepted_spec read_float longitude_ok
                      ["-120"; "1999"; "2021"] (-120)%R ["1999"; "2021"])).
    + reflexivity.
    + exists [], "-120". split; [reflexivity|]. split; [constructor|].
      split; [reflexivity|]. apply longitude_ok_spec. lra.
  - exists ["north"; "95"], "42". split; [reflexivity|]. split.
    + constructor; [exact I|]. constructor; [|constructor].
      unfold refused. cbn [read_float String.eqb Ascii.eqb Bool.eqb].
      apply latitude_ok_false. lra.
    + split; [reflexivity|]. apply latitude_ok_spec. lra.
Qed.

Lemma typed_main :
  main sun_due_south los_angeles standard_offset still_almanac two_day_et ""
    read_date read_int read_float pacific_hours typed_lines
  = Some (Ok (mk_main_values 0 0
                (Py.sum [3; 4] - Py.sum [3 * (1 - 0); 4 * (1 - 0)])
                ((Py.sum [3; 4] - Py.sum [3 * (1 - 0); 4 * (1 - 0)]) / 25.4)))%R.
Proof.
  unfold main. rewrite typed_parameters_read.
  cbn [typed_parameters p_lat p_lon p_year p_ground_area p_height p_width
       p_tilt p_max_rotation p_timezone].
  rewrite still_pipeline. cbn [Py.bind].
  vm_compute. reflexivity.
Qed.

End StillYearFacts.

Section YearWitnesses.

Import Datetime.
Local Open Scope Z_scope.
Local Open Scope string_scope.



Lemma sunrise_sunset_times_every_14_days_witness :
  sunrise_sunset_times los_angeles still_almanac 42 (-120) 2022
  = Ok (flat_map
          (fun k =>
             match still_almanac (los_angeles 42 (-120)) 42 (-120)
                     (day_of_year 2022 (14 * k)) with
             | sunrise :: sunset :: _ => [(sunrise, sunset)]
             | _ => []
             end)
          (seq 0 27)).
Proof.
  apply (sunrise_sunset_times_every_14_days los_angeles still_almanac 42
           (-120) 2022).
  lia.
Defined.

Lemma adjusted_evapotranspiration_without_sunrise_witness :
  sunrise_sunset_times los_angeles polar_almanac 42 (-120) 2022 = Ok []
  /\ adjusted_evapotranspiration sun_due_south los_angeles standard_offset
       polar_almanac two_day_et "" 42 (-120) 2022 1296 22.3 18.3 35 45 (-8)
     = Raise Py.ValueError.
Proof.
  destruct (adjusted_evapotranspiration_without_sunrise sun_due_south
              los_angeles standard_offset polar_almanac "" 42 (-120) 1296
              22.3 18.3 35 45 (-8) 2022)
    as [Htimes [_ Hpipeline]].
  - lia.
  - intros k Hk. cbn [polar_almanac length]. lia.
  - split; [exact Htimes | apply Hpipeline].
Defined.


End YearWitnesses.

Section ShadeWitnesses.

Local Open Scope R_scope.




Lemma shade_coverage_sign_witness :
  exists coverage,
    shade_coverage sun_due_south 42 (-120) 2022 1296 22.3 18.3 35 12 45 (-8)
      6 21 0 = Ok coverage
    /\ 0 < coverage <= 1.
Proof.
  destruct (shade_coverage_sign sun_due_south 42 (-120) 2022 1296 22.3 18.3
              35 12 45 (-8) 6 21 0 (Datetime.mk 2022 6 21 20 0 0 0) 45 180)
    as [coverage [Hcov [Hle [Hpos _]]]].
  - lra.
  - lra.
  - lra.
  - lra.
  - lra.
  - reflexivity.
  - reflexivity.
  - lra.
  - exists coverage. split; [exact Hcov|]. split; [|exact Hle].
    apply Hpos. unfold azimuth_S. rewrite Rminus_diag, Rabs_R0. lra.
Defined.


End ShadeWitnesses.

Section SeriesWitnesses.

Local Open Scope R_scope.
Local Open Scope string_scope.

Lemma three_entries_read item :
  In item three_entries -> et item <> None ->
  read_date (et_time item) = Ok (date_read (et_time item))
  /\ between_dates (Datetime.mk 2021 1 1 0 0 0 0) (Datetime.mk 2021 1 2 0 0 0 0)
       (date_read (et_time item)) = true.
Proof.
  intros [<-|[<-|[<-|[]]]] He; try (split; reflexivity).
  exfalso. apply He. reflexivity.
Qed.

Lemma two_shades_read s :
  In s two_shades ->
  read_date (shade_time s) = Ok (date_read (shade_time s))
  /\ between_dates (Datetime.mk 2021 1 1 0 0 0 0) (Datetime.mk 2021 1 2 0 0 0 0)
       (date_read (shade_time s)) = true.
Proof. intros [<-|[<-|[]]]; split; reflexivity. Qed.

Lemma sum_et_data_between_dates_value_witness :
  sum_et_data_between_dates read_date (Some three_entries)
    "2021-01-02" "2021-01-02"
  = Ok (Rsum (et_in_range date_read (Datetime.mk 2021 1 2 0 0 0 0)
                (Datetime.mk 2021 1 2 0 0 0 0) three_entries))
  /\ sum_et_data_between_dates read_date None "2021-01-02" "2021-01-02"
     = Raise Py.TypeError.
Proof.
  apply (sum_et_data_between_dates_value read_date date_read "2021-01-02"
           "2021-01-02" (Datetime.mk 2021 1 2 0 0 0 0)
           (Datetime.mk 2021 1 2 0 0 0 0) three_entries).
  - reflexivity.
  - reflexivity.
  - intros item Hin He. apply (three_entries_read item Hin He).
Defined.

Lemma sum_adjusted_et_data_between_dates_value_witness :
  sum_adjusted_et_data_between_dates read_date [1.5; 3] two_shades
    "2021-01-02" "2021-01-02"
  = Ok (Rsum (adjusted_in_range date_read (Datetime.mk 2021 1 2 0 0 0 0)
                (Datetime.mk 2021 1 2 0 0 0 0) [1.5; 3] two_shades)).
Proof.
  apply (sum_adjusted_et_data_between_dates_value read_date date_read
           "2021-01-02" "2021-01-02" (Datetime.mk 2021 1 2 0 0 0 0)
           (Datetime.mk 2021 1 2 0 0 0 0) [1.5; 3] two_shades).
  - reflexivity.
  - reflexivity.
  - intros s Hs. apply (two_shades_read s Hs).
Defined.


Lemma adjusted_et_values_key_error_witness :
  adjusted_et_values (Some three_entries) two_shades = Raise Py.KeyError
  /\ exists adjusted,
       adjusted_et_values (Some three_entries) [mk_shade "2021-01-01" 0.5]
       = Ok adjusted.
Proof.
  split.
  - apply (proj2 (adjusted_et_values_key_error three_entries two_shades
                    Py.KeyError)).
    split; [reflexivity|]. apply Exists_cons_tl. apply Exists_cons_hd.
    reflexivity.
  - exists [3 * (1 - 0.5)]. reflexivity.
Defined.

Lemma water_saved_bounds_witness :
  exists ets saved,
    map et two_days = map Some ets
    /\ water_saved (Some two_days) [3 * (1 - 0.5); 4 * (1 - 0.25)] = Ok saved
    /\ saved = Rsum (map (fun p => fst p * shade (snd p))
                         (combine ets two_shades))
    /\ 0 <= saved <= Rsum ets
    /\ Forall (fun a => 0 <= a) [3 * (1 - 0.5); 4 * (1 - 0.25)].
Proof.
  apply (water_saved_bounds two_days two_shades
           [3 * (1 - 0.5); 4 * (1 - 0.25)]).
  - reflexivity.
  - reflexivity.
  - intros item v [<-|[<-|[]]] [= <-]; lra.
  - repeat constructor; cbn [shade]; lra.
Defined.

End SeriesWitnesses.

Section ParameterWitnesses.

Local Open Scope string_scope.

Lemma get_valid_year_first_valid_witness :
  get_valid_year read_int ["twenty"; "1999"; "2021"; "2022"]
  = Some (2021%Z, ["2022"]).
Proof.
  apply (proj1 (get_valid_year_first_valid read_int
                  ["twenty"; "1999"; "2021"; "2022"])).
  exists ["twenty"; "1999"], "2021".
  split; [reflexivity|]. split.
  - constructor; [exact I|]. constructor; [reflexivity | constructor].
  - split; [reflexivity | lia].
Defined.

Lemma calculation_parameters_valid_witness :
  (-90 <= p_lat typed_parameters <= 90)%R
  /\ (-180 <= p_lon typed_parameters <= 180)%R
  /\ (2018 <= p_year typed_parameters <= 2022)%Z.
Proof.
  destruct (calculation_parameters_valid read_int read_float pacific_hours
              typed_lines typed_parameters [] typed_parameters_read)
    as [_ [Hlat [Hlon [Hyear _]]]].
  split; [exact Hlat|]. split; [exact Hlon | exact Hyear].
Defined.


Lemma main_sums_between_dates_of_2022_witness :
  exists adjusted daily_shade et_data,
    adjusted_evapotranspiration sun_due_south los_angeles standard_offset
      still_almanac two_day_et "" 42 (-120) 2021 (36 * 36) 22.3 18.3 35 45 (-8)
    = Ok (adjusted, daily_shade, et_data)
    /\ 0%R = (if (2021 =? 2022)%Z then Rsum adjusted else 0%R).
Proof.
  destruct (main_sums_between_dates_of_2022 sun_due_south los_angeles
              standard_offset still_almanac two_day_et "" read_date read_int
              read_float pacific_hours typed_lines typed_parameters [] _
              typed_parameters_read typed_main)
    as [adjusted [daily_shade [et_data [Hpipeline [_ [_ Hsum]]]]]].
  - reflexivity.
  - reflexivity.
  - exact read_date_2021.
  - exists adjusted, daily_shade, et_data.
    split; [exact Hpipeline | exact Hsum].
Defined.

End ParameterWitnesses.
